(** * LCA report bot: a shallow embedding of [lca_bot_ai_web_scraper_safe.py]

    The script is a linear pipeline: fabricate an inventory table, render
    one bar chart per metric, scrape a search page, ask a language model
    for eight narrative sections and assemble a document.  Every stage is
    embedded below as a function over an explicit world (files, outbound
    calls, random generator); exceptions are an explicit result. *)

From Stdlib Require Import ZArith NArith QArith Qround Qabs Qpower Lqa Lia.
From Stdlib Require Import String Ascii List DecimalN.
From stdpp Require Import base option list gmap.

Local Open Scope Z_scope.
Local Open Scope list_scope.

(** ** Python text

    A Python [str] is a sequence of Unicode code points. *)

Abbreviation pychar := N.
Abbreviation pystr := (list N).

(** A literal of the source, all of whose characters are ASCII. *)
Definition u (s : string) : pystr :=
  List.map N_of_ascii (list_ascii_of_string s).

Module Py.

(** [s.replace(old, new)] for one-character [old] and [new]. *)
Definition replace (old new : pychar) (s : pystr) : pystr :=
  List.map (fun c => if N.eqb c old then new else c) s.

(** [sep.join(parts)] *)
Fixpoint join (sep : pystr) (parts : list pystr) : pystr :=
  match parts with
  | [] => []
  | [p] => p
  | p :: rest => p ++ sep ++ join sep rest
  end.

(** [str.isspace] on one character: the code points CPython's
    [_PyUnicode_IsWhitespace] accepts. *)
Definition isspace (c : pychar) : bool :=
  ((9 <=? c) && (c <=? 13) || (28 <=? c) && (c <=? 32)
   || (c =? 133) || (c =? 160) || (c =? 5760)
   || (8192 <=? c) && (c <=? 8202)
   || (c =? 8232) || (c =? 8233) || (c =? 8239) || (c =? 8287)
   || (c =? 12288))%N.

Fixpoint lstrip (s : pystr) : pystr :=
  match s with
  | [] => []
  | c :: s' => if isspace c then lstrip s' else s
  end.

Definition rstrip (s : pystr) : pystr := rev (lstrip (rev s)).

(** [s.strip()] *)
Definition strip (s : pystr) : pystr := rstrip (lstrip s).

(** Truth value of a string: non-empty. *)
Definition truthy (s : pystr) : bool :=
  match s with [] => false | _ => true end.

(** [s.split(sep)[0]] for a one-character separator: the text before
    the first [sep]. *)
Fixpoint split_head (sep : pychar) (s : pystr) : pystr :=
  match s with
  | [] => []
  | c :: s' => if N.eqb c sep then [] else c :: split_head sep s'
  end.

Definition is_lower (c : pychar) : bool := ((97 <=? c) && (c <=? 122))%N.
Definition is_upper (c : pychar) : bool := ((65 <=? c) && (c <=? 90))%N.
Definition upper (c : pychar) : pychar := if is_lower c then (c - 32)%N else c.
Definition lower (c : pychar) : pychar := if is_upper c then (c + 32)%N else c.

(** [s.title()], on the ASCII letters: a letter that follows a
    non-letter is upper-cased, every other letter lower-cased. *)
Fixpoint title_from (prev_cased : bool) (s : pystr) : pystr :=
  match s with
  | [] => []
  | c :: s' =>
      let cased := is_lower c || is_upper c in
      (if prev_cased then lower c else upper c) :: title_from cased s'
  end.

Definition title (s : pystr) : pystr := title_from false s.

(** [sub in s] *)
Definition contains (sub s : pystr) : Prop :=
  exists pre post, s = pre ++ sub ++ post.

End Py.

(** ** Exceptions and results *)

Inductive Exn : Type :=
| OpenAIError (msg : pystr)              (* openai.OpenAIError and its subclasses; [msg] is [str(e)] *)
| KeyError (key : pystr)                 (* a failed [mapping[key]] *)
| IndexError                             (* a failed [sequence[i]] *)
| ValueError (msg : pystr)
| RequestException (msg : pystr)         (* a failed [requests.get] *)
| OSError (path : pystr)                 (* a file that cannot be opened or written *)
| UnrecognizedImageError (path : pystr)  (* [add_picture] on a file that is no image *)
| OtherError (msg : pystr).

Inductive Result (A : Type) : Type :=
| Return (a : A)
| Raise (e : Exn).
Arguments Return {A} a.
Arguments Raise {A} e.

Definition is_openai_error (e : Exn) : bool :=
  match e with OpenAIError _ => true | _ => false end.

(** ** Floating-point arithmetic

    A float is modelled by the rational number it denotes.  [fl] rounds
    the exact result of an operation to a float; all the development
    needs of it is that rounding is monotone and leaves the integers a
    float holds exactly (up to [2^53]) unchanged. *)

Record FloatArith : Type := {
  fl : Q -> Q;
  fl_mono : forall x y : Q, (x <= y)%Q -> (fl x <= fl y)%Q;
  fl_int : forall n : Z, Z.abs n <= 2 ^ 53 -> (fl (inject_Z n) == inject_Z n)%Q
}.

(** Exact arithmetic is one such rounding. *)
Definition exact_arith : FloatArith :=
  {| fl := fun x => x;
     fl_mono := fun _ _ H => H;
     fl_int := fun n _ => Qeq_refl (inject_Z n) |}.

(** *** The arithmetic of Python's floats

    IEEE binary64 with rounding to nearest, ties to even: 53 significant
    bits, gradual underflow from [2^-1074]; overflow is left out. *)

(** Nearest integer, ties to the even one. *)
Definition round_half_even (x : Q) : Z :=
  let f := Qfloor x in
  match ((x - inject_Z f) ?= 1 # 2)%Q with
  | Lt => f
  | Gt => f + 1
  | Eq => if Z.even f then f else f + 1
  end.

Definition pow2 (e : Z) : Q := (2 ^ e)%Q.

(** [floor (log2 x)], for a positive [x]. *)
Definition ilog2 (x : Q) : Z :=
  let k := Z.log2 (Qnum x) - Z.log2 (Z.pos (Qden x)) in
  if Qle_bool (pow2 k) x then k else k - 1.

(** The exponent of the last bit kept when rounding a positive [x]. *)
Definition ulp_exponent (x : Q) : Z := Z.max (ilog2 x - 52) (-1074).

Definition round_magnitude (x : Q) : Q :=
  let e := ulp_exponent x in
  (inject_Z (round_half_even (x / pow2 e)) * pow2 e)%Q.

Definition fl64 (x : Q) : Q :=
  match (x ?= 0)%Q with
  | Eq => 0%Q
  | Gt => round_magnitude x
  | Lt => (- round_magnitude (- x))%Q
  end.

(** ** Data model *)

(** A cell of a table: pandas hands [str], [int] or [float] objects to
    the row loop. *)
Inductive Cell : Type :=
| CStr (s : pystr)
| CInt (n : Z)
| CFloat (x : Q).

(** A [DataFrame] built from a dict of columns: the columns in insertion
    order, each with its label and its values. *)
Abbreviation DataFrame := (list (pystr * list Cell)).

Definition df_columns (df : DataFrame) : list pystr := List.map fst df.

Definition df_nrows (df : DataFrame) : nat :=
  match df with
  | [] => 0%nat
  | (_, col) :: _ => length col
  end.

Definition df_row (df : DataFrame) (r : nat) : list Cell :=
  List.map (fun c => default (CStr []) (snd c !! r)) df.

(** [df.iterrows()], without the index labels. *)
Definition iterrows (df : DataFrame) : list (list Cell) :=
  List.map (df_row df) (seq 0 (df_nrows df)).

(** A bar chart as [create_visuals] draws it. *)
Record Figure : Type := {
  fig_x : list Cell;
  fig_heights : list Cell;
  fig_color : pystr;
  fig_title : pystr
}.

Inductive Alignment : Type := AlignLeft | AlignCenter | AlignRight.

(** The body of a python-docx document, block by block. *)
Inductive Block : Type :=
| Heading (text : pystr) (level : nat)
| Paragraph (text : pystr) (alignment : option Alignment)
| PageBreak
| Table (style : pystr) (rows : list (list pystr))
| Picture (path : pystr) (width_inches : Q).

Abbreviation Document := (list Block).

Inductive File : Type :=
| ImageFile (fig : Figure)
| DocxFile (doc : Document)
| OtherFile.

(** ** The language-model client *)

Record ChatRequest : Type := {
  req_model : pystr;
  req_messages : list (pystr * pystr);   (* role, content *)
  req_temperature : Q
}.

Record Message : Type := { content : pystr }.
Record Choice : Type := { message : Message }.
Record ChatCompletion : Type := { choices : list Choice }.

Record OpenAI : Type := { api_key : pystr }.

(** Module start-up: [client = OpenAI(api_key=key) if key else None],
    [key] being the value of the environment variable, if set. *)
Definition load_client (getenv : option pystr) : option OpenAI :=
  match getenv with
  | Some key => if Py.truthy key then Some {| api_key := key |} else None
  | None => None
  end.

(** ** The world

    What the script does not compute itself is supplied by the
    environment; what it changes is the world. *)

Record Tag : Type := { get_text : pystr }.

Record Env : Type := {
  float_arith : FloatArith;
  (* [requests.get(url, headers=...)]: the response text or a failure *)
  requests_get : pystr -> list (pystr * pystr) -> Result pystr;
  (* [BeautifulSoup(markup, "html.parser").find_all(name, class_=cls)] *)
  soup_find_all : pystr -> pystr -> pystr -> list Tag;
  (* [client.chat.completions.create(...)] *)
  chat_completions_create : OpenAI -> ChatRequest -> Result ChatCompletion;
  (* whether the file system lets a file be created or replaced at a path *)
  can_write : pystr -> bool;
  (* [str(datetime.date.today())] *)
  date_today : pystr
}.

Inductive Event : Type :=
| HttpGet (url : pystr) (headers : list (pystr * pystr))
| ChatCall (req : ChatRequest).

(** The state of the [random] module: the sequence of 53-bit draws it
    will hand out and the number already consumed. *)
Record Rng : Type := { rng_source : nat -> Z; rng_pos : nat }.

Record World : Type := {
  files : gmap pystr File;     (* the working directory, by path *)
  network : list Event;        (* outbound calls so far, oldest first *)
  rng : Rng
}.

Definition M (A : Type) : Type := World -> Result A * World.

Definition ret {A} (a : A) : M A := fun w => (Return a, w).

Definition bind {A B} (m : M A) (k : A -> M B) : M B :=
  fun w =>
    match m w with
    | (Return a, w') => k a w'
    | (Raise e, w') => (Raise e, w')
    end.

Definition raise {A} (e : Exn) : M A := fun w => (Raise e, w).

Definition lift {A} (r : Result A) : M A := fun w => (r, w).

Notation "x <- m ;; k" := (bind m (fun x => k))
  (at level 100, m at next level, right associativity).
Notation "m ;;; k" := (bind m (fun _ => k))
  (at level 100, right associativity).

(** [try: body except <class> as e: handler e] *)
Definition try_except {A} (body : M A) (catches : Exn -> bool)
    (handler : Exn -> M A) : M A :=
  fun w =>
    match body w with
    | (Raise e, w') => if catches e then handler e w' else (Raise e, w')
    | r => r
    end.

(** [for x in xs: acc = body acc x] *)
Fixpoint for_each {A S} (xs : list A) (body : S -> A -> M S) (acc : S) : M S :=
  match xs with
  | [] => ret acc
  | x :: xs' => acc' <- body acc x ;; for_each xs' body acc'
  end.

Definition emit (ev : Event) : M unit :=
  fun w => (Return tt,
            {| files := files w; network := network w ++ [ev]; rng := rng w |}).

Definition write_file (env : Env) (path : pystr) (f : File) : M unit :=
  fun w =>
    if can_write env path
    then (Return tt,
          {| files := <[path := f]> (files w);
             network := network w; rng := rng w |})
    else (Raise (OSError path), w).

(** [mapping[key]] *)
Definition getitem {V} (m : gmap pystr V) (key : pystr) : M V :=
  match m !! key with
  | Some v => ret v
  | None => raise (KeyError key)
  end.

(** ** Inventory generator *)

(** [random.random()]: a multiple of [2^-53] in [0, 1). *)
Definition random_random : M Q :=
  fun w =>
    let g := rng w in
    (Return (inject_Z (rng_source g (rng_pos g) mod 2 ^ 53) / inject_Z (2 ^ 53))%Q,
     {| files := files w; network := network w;
        rng := {| rng_source := rng_source g; rng_pos := S (rng_pos g) |} |}).

(** [random.uniform(a, b)] is [a + (b - a) * random()], for integer
    arguments: the difference is exact, product and sum are rounded. *)
Definition random_uniform (env : Env) (a b : Z) : M Q :=
  r <- random_random ;;
  ret (fl (float_arith env)
         (inject_Z a + fl (float_arith env) (inject_Z (b - a) * r))%Q).

Definition generate_lci_data (env : Env) : M DataFrame :=
  e1 <- random_uniform env 80 120 ;;
  e2 <- random_uniform env 50 100 ;;
  e3 <- random_uniform env 10 20 ;;
  e4 <- random_uniform env 15 30 ;;
  g1 <- random_uniform env 5 10 ;;
  g2 <- random_uniform env 8 12 ;;
  g3 <- random_uniform env 1 3 ;;
  g4 <- random_uniform env 2 4 ;;
  w1 <- random_uniform env 20 40 ;;
  w2 <- random_uniform env 10 30 ;;
  w3 <- random_uniform env 1 5 ;;
  w4 <- random_uniform env 5 15 ;;
  ret [ (u "Life Cycle Stage",
          [CStr (u "Materials"); CStr (u "Manufacturing");
           CStr (u "Use Phase"); CStr (u "End-of-Life")]);
        (u "Energy Use (MJ)", [CFloat e1; CFloat e2; CFloat e3; CFloat e4]);
        (u "GHG Emissions (kg CO2-eq)", [CFloat g1; CFloat g2; CFloat g3; CFloat g4]);
        (u "Water Use (L)", [CFloat w1; CFloat w2; CFloat w3; CFloat w4]) ].

(** ** Chart renderer *)

(** [df[label]] *)
Definition df_getitem (df : DataFrame) (label : pystr) : M (list Cell) :=
  match List.find (fun c => bool_decide (fst c = label)) df with
  | Some c => ret (snd c)
  | None => raise (KeyError label)
  end.

Definition create_visuals (env : Env) (df : DataFrame) : M (list pystr) :=
  for_each (tail (df_columns df))
    (fun chart_files column =>
       x <- df_getitem df (u "Life Cycle Stage") ;;
       heights <- df_getitem df column ;;
       let fig := {| fig_x := x; fig_heights := heights;
                     fig_color := u "steelblue";
                     fig_title := column ++ u " by Stage" |} in
       let file := Py.replace 32 95 column ++ u ".png" in
       write_file env file (ImageFile fig) ;;;
       ret (chart_files ++ [file]))
    [].

(** ** Web fetcher *)

Definition search_url (product : pystr) : pystr :=
  let query := Py.replace 32 43 product ++ u "+environmental+impact" in
  u "https://www.google.com/search?q=" ++ query.

Definition search_headers : list (pystr * pystr) :=
  [(u "User-Agent", u "Mozilla/5.0")].

Definition scrape_product_data (env : Env) (product : pystr) : M pystr :=
  let url := search_url product in
  let headers := search_headers in
  emit (HttpGet url headers) ;;;
  res_text <- lift (requests_get env url headers) ;;
  let paragraphs := soup_find_all env res_text (u "div") (u "BNeawe s3v9rd AP7Wnd") in
  let combined := Py.join (u " ") (List.map get_text (take 5 paragraphs)) in
  ret (if Py.truthy (Py.strip combined) then combined
       else u "No public data found for " ++ product ++ u ".").

(** ** Narrative generator *)

(** [str(e)] *)
Definition str_exn (e : Exn) : pystr :=
  match e with
  | OpenAIError msg | ValueError msg | RequestException msg | OtherError msg => msg
  | KeyError key => u "'" ++ key ++ u "'"
  | IndexError => u "list index out of range"
  | OSError path | UnrecognizedImageError path => path
  end.

Definition chat_request (prompt product : pystr) : ChatRequest :=
  {| req_model := u "gpt-4-turbo";
     req_messages :=
       [ (u "system",
          u "You are a sustainability analyst writing ISO-style LCA reports.");
         (u "user",
          u "Write the '" ++ prompt
            ++ u "' section for a life cycle assessment of a " ++ product ++ u ".") ];
     req_temperature := 7 # 10 |}.

Definition generate_ai_section (env : Env) (client : option OpenAI)
    (prompt product : pystr) : M pystr :=
  match client with
  | None =>
      ret (u "[Fallback] This section would normally be generated using AI for: "
             ++ prompt ++ u " on " ++ product ++ u ".")
  | Some c =>
      try_except
        (let req := chat_request prompt product in
         emit (ChatCall req) ;;;
         response <- lift (chat_completions_create env c req) ;;
         match choices response with
         | [] => raise IndexError
         | first :: _ => ret (content (message first))
         end)
        is_openai_error
        (fun e =>
           ret (u "[Error or Quota Reached] " ++ prompt
                  ++ u " section fallback: AI generation failed due to: "
                  ++ str_exn e))
  end.

(** ** Numbers as text *)

Fixpoint uint_digits (d : Decimal.uint) : pystr :=
  match d with
  | Decimal.Nil => []
  | Decimal.D0 d' => 48%N :: uint_digits d'
  | Decimal.D1 d' => 49%N :: uint_digits d'
  | Decimal.D2 d' => 50%N :: uint_digits d'
  | Decimal.D3 d' => 51%N :: uint_digits d'
  | Decimal.D4 d' => 52%N :: uint_digits d'
  | Decimal.D5 d' => 53%N :: uint_digits d'
  | Decimal.D6 d' => 54%N :: uint_digits d'
  | Decimal.D7 d' => 55%N :: uint_digits d'
  | Decimal.D8 d' => 56%N :: uint_digits d'
  | Decimal.D9 d' => 57%N :: uint_digits d'
  end.

(** [str(n)] for a natural number. *)
Definition str_N (n : N) : pystr := uint_digits (N.to_uint n).

(** [str(n)] for an [int]. *)
Definition str_int (n : Z) : pystr :=
  (if n <? 0 then u "-" else []) ++ str_N (Z.abs_N n).

(** The float [round(x, 2)] returns, as the decimal it is nearest to: a
    sign and a number of hundredths (the sign survives a zero result, as
    in [-0.0]). *)
Record Dec2 : Type := { dec_neg : bool; dec_hundredths : N }.

Definition dec2_value (d : Dec2) : Q :=
  ((if dec_neg d then -1 else 1) * (inject_Z (Z.of_N (dec_hundredths d)) / 100))%Q.

(** [round(x, 2)] for a float [x]: CPython rounds the exact value of [x]
    correctly to two decimals, ties to even. *)
Definition py_round2 (x : Q) : Dec2 :=
  {| dec_neg := if Qlt_le_dec x 0 then true else false;
     dec_hundredths := Z.to_N (round_half_even (Qabs x * 100)) |}.

(** The digits after the point, for a number of hundredths below 100:
    one digit when the second would be a zero. *)
Definition frac_digits (f : N) : pystr :=
  (if f mod 10 =? 0 then str_N (f / 10)
   else str_N (f / 10) ++ str_N (f mod 10))%N.

(** [str] of such a float: the shortest decimal that reads back as the
    same float, with at least one fractional digit.  Below [10^13] a
    decimal with two places has at most 15 significant digits, so that
    [repr] prints exactly its digits, in positional notation; this is the
    range the definition covers. *)
Definition str_float (d : Dec2) : pystr :=
  let h := dec_hundredths d in
  (if dec_neg d then u "-" else [])
    ++ str_N (h / 100)%N ++ u "." ++ frac_digits (h mod 100)%N.

(** [str(round(val, 2)) if isinstance(val, (int, float)) else str(val)] *)
Definition cell_text (val : Cell) : pystr :=
  match val with
  | CInt n => str_int n
  | CFloat x => str_float (py_round2 x)
  | CStr s => s
  end.

(** ** Document assembler *)

Definition toc : list pystr :=
  [ u "Executive Summary"; u "1. Introduction"; u "2. Goal and Scope";
    u "3. Functional Unit"; u "4. System Boundary";
    u "5. Web-Sourced Product Information"; u "6. Inventory Analysis";
    u "7. LCIA with Charts"; u "8. Interpretation"; u "9. Limitations";
    u "10. Recommendations"; u "Appendix A: Glossary";
    u "Appendix B: References" ].

Definition front_sections : list pystr :=
  [ u "1. Introduction"; u "2. Goal and Scope"; u "3. Functional Unit";
    u "4. System Boundary" ].

Definition back_sections : list pystr :=
  [ u "8. Interpretation"; u "9. Limitations"; u "10. Recommendations" ].

(** "Confidential - For Internal Use Only", the dash being U+2013. *)
Definition confidential : pystr :=
  u "Confidential " ++ [8211%N] ++ u " For Internal Use Only".

Definition glossary : pystr :=
  u "LCA: Life Cycle Assessment" ++ [10%N]
    ++ u "GWP: Global Warming Potential" ++ [10%N]
    ++ u "MJ: Megajoules" ++ [10%N]
    ++ u "CO2-eq: Carbon dioxide equivalent".

Definition references : pystr :=
  u "1. ISO 14040/44" ++ [10%N] ++ u "2. Ecoinvent" ++ [10%N]
    ++ u "3. IPCC" ++ [10%N] ++ u "4. Manufacturer Reports" ++ [10%N]
    ++ u "5. Online product research".

(** [cells[i].text = t]: an index out of range raises. *)
Definition set_cell_text (cells : list pystr) (i : nat) (t : pystr)
    : M (list pystr) :=
  if decide (i < length cells)%nat then ret (<[i := t]> cells)
  else raise IndexError.

(** [for i, x in enumerate(xs): cells[i].text = f x] *)
Definition fill_cells {A} (f : A -> pystr) (xs : list A) (cells : list pystr)
    : M (list pystr) :=
  for_each (imap pair xs)
    (fun cells ix => set_cell_text cells (fst ix) (f (snd ix)))
    cells.

(** The data table: one header row of [len(df.columns)] cells, then one
    added row per row of the frame. *)
Definition render_table (df : DataFrame) : M (list (list pystr)) :=
  let cols := length (df_columns df) in
  hdr_cells <- fill_cells id (df_columns df) (replicate cols []) ;;
  for_each (iterrows df)
    (fun rows row =>
       row_cells <- fill_cells cell_text row (replicate cols []) ;;
       ret (rows ++ [row_cells]))
    [hdr_cells].

(** [doc.add_picture(path, width=...)] opens the image file. *)
Definition add_picture (doc : Document) (path : pystr) (width : Q) : M Document :=
  fun w =>
    match files w !! path with
    | Some (ImageFile _) => (Return (doc ++ [Picture path width]), w)
    | Some _ => (Raise (UnrecognizedImageError path), w)
    | None => (Raise (OSError path), w)
    end.

(** One narrative section per label: heading, looked-up text, page break. *)
Definition narrative_sections (ai_sections : gmap pystr pystr)
    (labels : list pystr) (doc : Document) : M Document :=
  for_each labels
    (fun doc section =>
       let doc := doc ++ [Heading section 1] in
       text <- getitem ai_sections section ;;
       ret (doc ++ [Paragraph text None; PageBreak]))
    doc.

Definition chart_caption (chart : pystr) : pystr :=
  u "Figure: " ++ Py.title (Py.replace 95 32 (Py.split_head 46 chart)).

Definition report_filename (product : pystr) : pystr :=
  u "LCA_Report_AI_" ++ Py.replace 32 95 product ++ u ".docx".

Definition create_report (env : Env) (product : pystr) (df : DataFrame)
    (charts : list pystr) (web_data : pystr) (ai_sections : gmap pystr pystr)
    : M pystr :=
  let doc : Document := [] in
  let doc := doc ++ [Heading (u "LCA Report for: " ++ product) 0] in
  let doc := doc ++ [Paragraph (u "Date: " ++ date_today env) None] in
  let doc := doc ++ [Paragraph confidential (Some AlignRight)] in
  let doc := doc ++ [PageBreak] in

  let doc := doc ++ [Heading (u "Table of Contents") 1] in
  let doc := fold_left (fun doc section => doc ++ [Paragraph section None]) toc doc in
  let doc := doc ++ [PageBreak] in

  let doc := doc ++ [Heading (u "Executive Summary") 1] in
  summary <- getitem ai_sections (u "Executive Summary") ;;
  let doc := doc ++ [Paragraph summary None] in
  let doc := doc ++ [PageBreak] in

  doc <- narrative_sections ai_sections front_sections doc ;;

  let doc := doc ++ [Heading (u "5. Web-Sourced Product Information") 1] in
  let doc := doc ++ [Paragraph web_data None] in
  let doc := doc ++ [PageBreak] in

  let doc := doc ++ [Heading (u "6. Inventory Analysis") 1] in
  table <- render_table df ;;
  let doc := doc ++ [Table (u "Table Grid") table] in
  let doc := doc ++ [PageBreak] in

  let doc := doc ++ [Heading (u "7. LCIA with Charts") 1] in
  doc <- for_each charts
           (fun doc chart =>
              let doc := doc ++ [Paragraph (chart_caption chart) None] in
              add_picture doc chart (11 # 2))
           doc ;;
  let doc := doc ++ [PageBreak] in

  doc <- narrative_sections ai_sections back_sections doc ;;

  let doc := doc ++ [Heading (u "Appendix A: Glossary") 1] in
  let doc := doc ++ [Paragraph glossary None] in
  let doc := doc ++ [PageBreak] in

  let doc := doc ++ [Heading (u "Appendix B: References") 1] in
  let doc := doc ++ [Paragraph references None] in
  let doc := doc ++ [PageBreak] in

  let filename := report_filename product in
  write_file env filename (DocxFile doc) ;;;
  ret filename.

(** ** Presentation shell: one press of the button *)

Definition section_labels : list pystr :=
  [ u "Executive Summary"; u "1. Introduction"; u "2. Goal and Scope";
    u "3. Functional Unit"; u "4. System Boundary"; u "8. Interpretation";
    u "9. Limitations"; u "10. Recommendations" ].

(** The loop that fills [ai_sections], one call per label. *)
Definition ai_sections_loop (env : Env) (client : option OpenAI)
    (product : pystr) : M (gmap pystr pystr) :=
  for_each section_labels
    (fun ai_sections section =>
       text <- generate_ai_section env client section product ;;
       ret (<[section := text]> ai_sections))
    ∅.

(** [open(path, "rb")] *)
Definition open_rb (path : pystr) : M File :=
  fun w =>
    match files w !! path with
    | Some f => (Return f, w)
    | None => (Raise (OSError path), w)
    end.

Definition generate_report (env : Env) (client : option OpenAI)
    (product : pystr) : M (pystr * File) :=
  df <- generate_lci_data env ;;
  charts <- create_visuals env df ;;
  web_data <- scrape_product_data env product ;;
  ai_sections <- ai_sections_loop env client product ;;
  report_path <- create_report env product df charts web_data ai_sections ;;
  f <- open_rb report_path ;;
  ret (report_path, f).

(** ** Vocabulary of the properties *)

(** The keys [create_report] looks up in [ai_sections], in the order of
    the lookups. *)
Definition report_keys : list pystr :=
  u "Executive Summary" :: front_sections ++ back_sections.

(** The bounds handed to [random.uniform] in [generate_lci_data], column
    by column and, within a column, stage by stage. *)
Definition lci_ranges : list (list (Z * Z)) :=
  [ [ (80, 120); (50, 100); (10, 20); (15, 30) ];
    [ (5, 10); (8, 12); (1, 3); (2, 4) ];
    [ (20, 40); (10, 30); (1, 5); (5, 15) ] ].

(** The range the cells of one column span together. *)
Definition column_range (ranges : list (Z * Z)) : Z * Z :=
  (fold_right Z.min (default 0 (fst <$> head ranges)) (List.map fst ranges),
   fold_right Z.max (default 0 (snd <$> head ranges)) (List.map snd ranges)).

Definition cell_within (range : Z * Z) (c : Cell) : Prop :=
  exists x, c = CFloat x /\ (inject_Z (fst range) <= x <= inject_Z (snd range))%Q.

Definition is_numeric (c : Cell) : bool :=
  match c with CStr _ => false | _ => true end.

Definition numeric_columns (df : DataFrame) : list (pystr * list Cell) :=
  List.filter (fun col => forallb is_numeric (snd col)) df.

(** The shape of the table [generate_lci_data] builds, given the twelve
    values drawn. *)
Definition lci_table (energy ghg water : list Q) : DataFrame :=
  [ (u "Life Cycle Stage",
      [ CStr (u "Materials"); CStr (u "Manufacturing");
        CStr (u "Use Phase"); CStr (u "End-of-Life") ]);
    (u "Energy Use (MJ)", CFloat <$> energy);
    (u "GHG Emissions (kg CO2-eq)", CFloat <$> ghg);
    (u "Water Use (L)", CFloat <$> water) ].

Definition within (range : Z * Z) (x : Q) : Prop :=
  (inject_Z (fst range) <= x <= inject_Z (snd range))%Q.

(** Every chart path names an image in the working directory. *)
Definition charts_readable (w : World) (charts : list pystr) : Prop :=
  Forall (fun chart => exists fig, files w !! chart = Some (ImageFile fig)) charts.

Definition saved (w : World) (path : pystr) (f : File) : World :=
  {| files := <[path := f]> (files w); network := network w; rng := rng w |}.

Definition called (w : World) (ev : Event) : World :=
  {| files := files w; network := network w ++ [ev]; rng := rng w |}.

(** The world after [n] further draws from the random generator. *)
Definition drawn (n : nat) (w : World) : World :=
  {| files := files w; network := network w;
     rng := {| rng_source := rng_source (rng w);
               rng_pos := n + rng_pos (rng w) |} |}.

(** A sample environment and world, for the examples: exact arithmetic,
    a search page without matches, a language model out of quota, a
    writable empty working directory. *)
Definition demo_env_with (fa : FloatArith) : Env :=
  {| float_arith := fa;
     requests_get := fun _ _ => Return (u "<html></html>");
     soup_find_all := fun _ _ _ => [];
     chat_completions_create := fun _ _ => Raise (OpenAIError (u "Rate limit reached"));
     can_write := fun _ => true;
     date_today := u "2024-05-01" |}.

Definition demo_env : Env := demo_env_with exact_arith.

Definition demo_world : World :=
  {| files := ∅; network := [];
     rng := {| rng_source := fun i => Z.of_nat i * 2 ^ 49; rng_pos := 0 |} |}.

(** The inventory table the generator draws in the sample world. *)
Definition demo_inventory : DataFrame :=
  match fst (generate_lci_data demo_env demo_world) with
  | Return df => df
  | Raise _ => []
  end.

(** A narrative mapping with all eight sections. *)
Definition demo_sections : gmap pystr pystr :=
  list_to_map (List.map (fun k => (k, u "Narrative for " ++ k)) section_labels).

(** The text the narrative generator falls back to without a client. *)
Definition fallback_text (prompt product : pystr) : pystr :=
  u "[Fallback] This section would normally be generated using AI for: "
    ++ prompt ++ u " on " ++ product ++ u ".".

(** *** What [create_report] amounts to *)

(** The first of [keys] the mapping lacks. *)
Fixpoint first_missing (ai_sections : gmap pystr pystr) (keys : list pystr)
    : option pystr :=
  match keys with
  | [] => None
  | k :: keys' =>
      match ai_sections !! k with
      | None => Some k
      | Some _ => first_missing ai_sections keys'
      end
  end.

(** Why a chart cannot be embedded, if it cannot. *)
Definition picture_error (w : World) (chart : pystr) : option Exn :=
  match files w !! chart with
  | Some (ImageFile _) => None
  | Some _ => Some (UnrecognizedImageError chart)
  | None => Some (OSError chart)
  end.

Fixpoint first_unreadable (w : World) (charts : list pystr) : option Exn :=
  match charts with
  | [] => None
  | chart :: charts' =>
      match picture_error w chart with
      | Some e => Some e
      | None => first_unreadable w charts'
      end
  end.

Definition narrative_blocks (ai_sections : gmap pystr pystr) (labels : list pystr)
    : list Block :=
  flat_map (fun section =>
              [ Heading section 1;
                Paragraph (default [] (ai_sections !! section)) None;
                PageBreak ]) labels.

(** The rows of the data table: the labels, then every row of the frame
    with each cell as text. *)
Definition table_rows (df : DataFrame) : list (list pystr) :=
  df_columns df :: List.map (List.map cell_text) (iterrows df).

(** The document a successful assembly saves. *)
Definition report_document (env : Env) (product : pystr) (df : DataFrame)
    (charts : list pystr) (web_data : pystr) (ai_sections : gmap pystr pystr)
    : Document :=
  [ Heading (u "LCA Report for: " ++ product) 0;
    Paragraph (u "Date: " ++ date_today env) None;
    Paragraph confidential (Some AlignRight);
    PageBreak;
    Heading (u "Table of Contents") 1 ]
  ++ List.map (fun section => Paragraph section None) toc
  ++ [ PageBreak;
       Heading (u "Executive Summary") 1;
       Paragraph (default [] (ai_sections !! u "Executive Summary")) None;
       PageBreak ]
  ++ narrative_blocks ai_sections front_sections
  ++ [ Heading (u "5. Web-Sourced Product Information") 1;
       Paragraph web_data None;
       PageBreak;
       Heading (u "6. Inventory Analysis") 1;
       Table (u "Table Grid") (table_rows df);
       PageBreak;
       Heading (u "7. LCIA with Charts") 1 ]
  ++ flat_map (fun chart => [ Paragraph (chart_caption chart) None;
                              Picture chart (11 # 2) ]) charts
  ++ [ PageBreak ]
  ++ narrative_blocks ai_sections back_sections
  ++ [ Heading (u "Appendix A: Glossary") 1;
       Paragraph glossary None;
       PageBreak;
       Heading (u "Appendix B: References") 1;
       Paragraph references None;
       PageBreak ].

(** The cell of the frame in row [r] of column [c]. *)
Definition df_cell (df : DataFrame) (r c : nat) : option Cell :=
  match df !! c with
  | Some col => snd col !! r
  | None => None
  end.

(** The text in row [r], column [c] of a rendered table. *)
Definition table_cell (rows : list (list pystr)) (r c : nat) : option pystr :=
  match rows !! r with
  | Some row => row !! c
  | None => None
  end.

(** *** Reading a cell back *)

Definition push_digit (c : pychar) (d : Decimal.uint) : option Decimal.uint :=
  match c with
  | 48%N => Some (Decimal.D0 d) | 49%N => Some (Decimal.D1 d)
  | 50%N => Some (Decimal.D2 d) | 51%N => Some (Decimal.D3 d)
  | 52%N => Some (Decimal.D4 d) | 53%N => Some (Decimal.D5 d)
  | 54%N => Some (Decimal.D6 d) | 55%N => Some (Decimal.D7 d)
  | 56%N => Some (Decimal.D8 d) | 57%N => Some (Decimal.D9 d)
  | _ => None
  end.

Fixpoint digits_uint (s : pystr) : option Decimal.uint :=
  match s with
  | [] => Some Decimal.Nil
  | c :: s' =>
      match digits_uint s' with
      | Some d => push_digit c d
      | None => None
      end
  end.

Definition parse_N (s : pystr) : option N :=
  match s with
  | [] => None
  | _ => N.of_uint <$> digits_uint s
  end.

(** The text after the first [sep], if [sep] occurs. *)
Fixpoint split_rest (sep : pychar) (s : pystr) : option pystr :=
  match s with
  | [] => None
  | c :: s' => if N.eqb c sep then Some s' else split_rest sep s'
  end.

Definition parse_frac (s : pystr) : option N :=
  match s with
  | [d1] => (fun f1 => f1 * 10)%N <$> parse_N [d1]
  | [d1; d2] =>
      match parse_N [d1], parse_N [d2] with
      | Some f1, Some f2 => Some (f1 * 10 + f2)%N
      | _, _ => None
      end
  | _ => None
  end.

(** The decimal a cell text denotes: an optional sign, an integer part,
    a point and one or two fractional digits. *)
Definition parse_dec2 (s : pystr) : option Dec2 :=
  let '(neg, body) :=
    match s with
    | c :: body => if (c =? 45)%N then (true, body) else (false, s)
    | [] => (false, s)
    end in
  match parse_N (Py.split_head 46 body), split_rest 46 body with
  | Some i, Some frac =>
      match parse_frac frac with
      | Some f => Some {| dec_neg := neg; dec_hundredths := i * 100 + f |}
      | None => None
      end
  | _, _ => None
  end.

(** *** URL escaping, as the interface description words it

    The reference the search URL is compared with: [urllib]'s
    [quote_plus], which keeps the unreserved characters, writes a space
    as [+] and percent-encodes every other byte of the UTF-8 text. *)

Definition is_unreserved (c : pychar) : bool :=
  ((48 <=? c) && (c <=? 57) || (65 <=? c) && (c <=? 90)
   || (97 <=? c) && (c <=? 122)
   || (c =? 45) || (c =? 46) || (c =? 95) || (c =? 126))%N.

Definition hex_digit (n : N) : pychar :=
  (if n <? 10 then 48 + n else 55 + n)%N.

Definition percent_byte (b : N) : pystr :=
  [37%N; hex_digit (b / 16)%N; hex_digit (b mod 16)%N].

Definition utf8 (c : pychar) : list N :=
  (if c <? 128 then [c]
   else if c <? 2048 then [192 + c / 64; 128 + c mod 64]
   else if c <? 65536 then [224 + c / 4096; 128 + (c / 64) mod 64; 128 + c mod 64]
   else [240 + c / 262144; 128 + (c / 4096) mod 64; 128 + (c / 64) mod 64;
         128 + c mod 64])%N.

Definition spec_quote_plus (s : pystr) : pystr :=
  flat_map (fun c =>
              if (c =? 32)%N then [43%N]
              else if is_unreserved c then [c]
              else flat_map percent_byte (utf8 c)) s.

Definition spec_search_url (product : pystr) : pystr :=
  u "https://www.google.com/search?q=" ++ spec_quote_plus product
    ++ u "+environmental+impact".

(** *** Where a relative path leads *)

(** The components of a path, split at [/]. *)
Fixpoint path_components (cur : pystr) (s : pystr) : list pystr :=
  match s with
  | [] => [cur]
  | c :: s' =>
      if (c =? 47)%N then cur :: path_components [] s'
      else path_components (cur ++ [c]) s'
  end.

(** Walking the directory components of a relative path from the working
    directory: does the walk step above the directory it started in?
    [depth] counts the directories entered so far. *)
Fixpoint climbs_out (depth : nat) (comps : list pystr) : bool :=
  match comps with
  | [] => false
  | [_] => false                      (* the file name itself *)
  | c :: rest =>
      if bool_decide (c = u "..") then
        match depth with
        | O => true
        | S d => climbs_out d rest
        end
      else if bool_decide (c = u ".") || bool_decide (c = []) then
        climbs_out depth rest
      else climbs_out (S depth) rest
  end.

Definition outside_working_directory (path : pystr) : bool :=
  climbs_out 0 (path_components [] path).

(** *** Vocabulary of the further properties *)

(** The file a chart of [column] is saved to. *)
Definition chart_file (column : pystr) : pystr :=
  Py.replace 32 95 column ++ u ".png".

(** The values [df[label]] gives. *)
Definition df_column (df : DataFrame) (label : pystr) : option (list Cell) :=
  snd <$> List.find (fun c => bool_decide (fst c = label)) df.

(** The world after the chart of [column] is saved. *)
Definition draw_chart (df : DataFrame) (stages : list Cell) (w : World)
    (column : pystr) : World :=
  saved w (chart_file column)
    (ImageFile {| fig_x := stages;
                  fig_heights := default [] (df_column df column);
                  fig_color := u "steelblue";
                  fig_title := column ++ u " by Stage" |}).

(** The text of the headings of one level, in document order. *)
Definition headings (level : nat) (doc : Document) : list pystr :=
  omap (fun b => match b with
                 | Heading text l => if Nat.eqb l level then Some text else None
                 | _ => None
                 end) doc.

(** The paths of the pictures, in document order. *)
Definition pictures (doc : Document) : list pystr :=
  omap (fun b => match b with Picture path _ => Some path | _ => None end) doc.

Definition page_breaks (doc : Document) : nat :=
  length (List.filter (fun b => match b with PageBreak => true | _ => false end) doc).

(** The text of the paragraphs, in document order. *)
Definition paragraphs (doc : Document) : list pystr :=
  omap (fun b => match b with Paragraph text _ => Some text | _ => None end) doc.

(** The text the narrative generator falls back to after an API error. *)
Definition error_text (prompt : pystr) (e : Exn) : pystr :=
  u "[Error or Quota Reached] " ++ prompt
    ++ u " section fallback: AI generation failed due to: " ++ str_exn e.

(** What the narrative generator hands back, as a function of what the
    completion call does. *)
Definition narrative_outcome (env : Env) (client : option OpenAI)
    (prompt product : pystr) : Result pystr :=
  match client with
  | None => Return (fallback_text prompt product)
  | Some c =>
      match chat_completions_create env c (chat_request prompt product) with
      | Return response =>
          match choices response with
          | first :: _ => Return (content (message first))
          | [] => Raise IndexError
          end
      | Raise e => if is_openai_error e then Return (error_text prompt e) else Raise e
      end
  end.

(** The world after the narrative generator ran for [labels], in order. *)
Definition narrated (client : option OpenAI) (product : pystr)
    (labels : list pystr) (w : World) : World :=
  match client with
  | None => w
  | Some _ =>
      fold_left (fun w label => called w (ChatCall (chat_request label product)))
        labels w
  end.

(** A sample environment with each outside answer chosen. *)
Definition demo_env_of (search : Result pystr) (tags : list Tag)
    (chat : Result ChatCompletion) (writable : pystr -> bool) : Env :=
  {| float_arith := exact_arith;
     requests_get := fun _ _ => search;
     soup_find_all := fun _ _ _ => tags;
     chat_completions_create := fun _ _ => chat;
     can_write := writable;
     date_today := u "2024-05-01" |}.

Definition demo_client : OpenAI := {| api_key := u "sk-test" |}.

Definition demo_reply (text : pystr) : ChatCompletion :=
  {| choices := [ {| message := {| content := text |} |} ] |}.

(** One round of the loop of [create_visuals]. *)
Definition chart_step (env : Env) (df : DataFrame) (chart_files : list pystr)
    (column : pystr) : M (list pystr) :=
  x <- df_getitem df (u "Life Cycle Stage") ;;
  heights <- df_getitem df column ;;
  let fig := {| fig_x := x; fig_heights := heights;
                fig_color := u "steelblue";
                fig_title := column ++ u " by Stage" |} in
  let file := Py.replace 32 95 column ++ u ".png" in
  write_file env file (ImageFile fig) ;;;
  ret (chart_files ++ [file]).

(** One round of the loop that fills [ai_sections]. *)
Definition narrate_step (env : Env) (client : option OpenAI) (product : pystr)
    (ai_sections : gmap pystr pystr) (section : pystr) : M (gmap pystr pystr) :=
  text <- generate_ai_section env client section product ;;
  ret (<[section := text]> ai_sections).

(** The pictures with what stands right before each: the text of the
    paragraph just before it, if a paragraph does, its path and its
    width in inches. *)
Fixpoint figures_after (prev : option Block) (doc : Document)
    : list (option pystr * pystr * Q) :=
  match doc with
  | [] => []
  | b :: rest =>
      match b with
      | Picture path width =>
          (match prev with
           | Some (Paragraph text _) => Some text
           | _ => None
           end, path, width) :: figures_after (Some b) rest
      | _ => figures_after (Some b) rest
      end
  end.

Definition figures (doc : Document) : list (option pystr * pystr * Q) :=
  figures_after None doc.

(** The tables, each with its style, in document order. *)
Definition tables (doc : Document) : list (pystr * list (list pystr)) :=
  omap (fun b => match b with Table style rows => Some (style, rows) | _ => None end)
    doc.

(** The captions and pictures of the chart section. *)
Definition chart_blocks (charts : list pystr) : list Block :=
  flat_map (fun chart => [ Paragraph (chart_caption chart) None;
                           Picture chart (11 # 2) ]) charts.


(** The outbound calls of the narrative generator for [labels], in order. *)
Definition chat_calls (client : option OpenAI) (product : pystr)
    (labels : list pystr) : list Event :=
  match client with
  | None => []
  | Some _ => List.map (fun label => ChatCall (chat_request label product)) labels
  end.

(** The labels of the numeric columns of the inventory table and the
    chart files drawn from them. *)
Definition lci_columns : list pystr :=
  [ u "Energy Use (MJ)"; u "GHG Emissions (kg CO2-eq)"; u "Water Use (L)" ].

Definition lci_charts : list pystr := List.map chart_file lci_columns.


(** A frame as pandas builds one from a dict of columns: the labels are
    distinct and the columns have one length. *)
Definition well_formed (df : DataFrame) : Prop :=
  NoDup (df_columns df)
  /\ Forall (fun col => length (snd col) = df_nrows df) df.

(** A frame whose columns past the first hold numbers only, as a bar
    chart needs its heights. *)
Definition plottable (df : DataFrame) : Prop :=
  Forall (fun col => forallb is_numeric (snd col) = true) (tail df).

(** * Properties *)

(** ** Running the monad *)

Lemma bind_return {A B} (m : M A) (k : A -> M B) w a w' :
  m w = (Return a, w') -> bind m k w = k a w'.
Proof. intros H. unfold bind. now rewrite H. Qed.

Lemma bind_raise {A B} (m : M A) (k : A -> M B) w e w' :
  m w = (Raise e, w') -> bind m k w = (Raise e, w').
Proof. intros H. unfold bind. now rewrite H. Qed.

Lemma bind_ret {A B} (a : A) (k : A -> M B) w : bind (ret a) k w = k a w.
Proof. reflexivity. Qed.

(** ** Floating-point arithmetic *)

Lemma pow2_pos e : (0 < pow2 e)%Q.
Proof. apply Qpower_0_lt. reflexivity. Qed.

Lemma pow2_le a b : a <= b -> (pow2 a <= pow2 b)%Q.
Proof. intros H. apply Qpower_le_compat_l; [exact H|discriminate]. Qed.

Lemma pow2_lt a b : a < b -> (pow2 a < pow2 b)%Q.
Proof. intros H. apply Qpower_lt_compat_l; [exact H|reflexivity]. Qed.

Lemma pow2_add a b : (pow2 (a + b) == pow2 a * pow2 b)%Q.
Proof. apply Qpower_plus. discriminate. Qed.

Lemma pow2_nonneg_Z n : 0 <= n -> (pow2 n == inject_Z (2 ^ n))%Q.
Proof. intros H. unfold pow2. now rewrite (Zpower_Qpower 2 n H). Qed.

Lemma pow2_div a b : (pow2 a / pow2 b == pow2 (a - b))%Q.
Proof. symmetry. apply Qpower_minus. discriminate. Qed.

Lemma ilog2_spec x : (0 < x)%Q -> (pow2 (ilog2 x) <= x < pow2 (ilog2 x + 1))%Q.
Proof.
  intros Hx. destruct x as [n d].
  assert (Hn : 0 < n). { unfold Qlt in Hx. cbn in Hx. lia. }
  unfold ilog2. cbn [Qnum Qden].
  set (k := Z.log2 n - Z.log2 (Z.pos d)).
  destruct (Z.log2_spec n Hn) as [Hn1 Hn2].
  destruct (Z.log2_spec (Z.pos d) ltac:(lia)) as [Hd1 Hd2].
  pose proof (Z.log2_nonneg n) as Hln. pose proof (Z.log2_nonneg (Z.pos d)) as Hld.
  assert (Hnd : (n # d == inject_Z n / inject_Z (Z.pos d))%Q) by apply Qmake_Qdiv.
  assert (Hdpos : (0 < inject_Z (Z.pos d))%Q) by (rewrite <- (Zlt_Qlt 0); lia).
  assert (Hup : (n # d < pow2 (k + 1))%Q).
  { rewrite Hnd. apply Qlt_shift_div_r; [exact Hdpos|].
    apply Qlt_le_trans with (inject_Z (2 ^ Z.succ (Z.log2 n))).
    - now rewrite <- Zlt_Qlt.
    - rewrite <- pow2_nonneg_Z by lia.
      apply Qle_trans with (pow2 (k + 1) * inject_Z (2 ^ Z.log2 (Z.pos d)))%Q.
      + rewrite <- pow2_nonneg_Z by lia. rewrite <- pow2_add.
        apply pow2_le. lia.
      + apply Qmult_le_l; [apply pow2_pos|]. now rewrite <- Zle_Qle. }
  assert (Hlow : (pow2 (k - 1) <= n # d)%Q).
  { rewrite Hnd. apply Qle_shift_div_l; [exact Hdpos|].
    apply Qle_trans with (inject_Z (2 ^ Z.log2 n)); [|now rewrite <- Zle_Qle].
    rewrite <- pow2_nonneg_Z by lia.
    apply Qle_trans with (pow2 (k - 1) * inject_Z (2 ^ Z.succ (Z.log2 (Z.pos d))))%Q.
    - apply Qmult_le_l; [apply pow2_pos|]. rewrite <- Zle_Qle. lia.
    - rewrite <- pow2_nonneg_Z by lia. rewrite <- pow2_add. apply pow2_le. lia. }
  destruct (Qle_bool (pow2 k) (n # d)) eqn:Hb.
  - apply Qle_bool_iff in Hb. split; assumption.
  - split; [exact Hlow|].
    replace (k - 1 + 1) with k by lia.
    apply Qnot_le_lt. intros Hc. apply Qle_bool_iff in Hc. congruence.
Qed.

Lemma ilog2_mono x y : (0 < x)%Q -> (x <= y)%Q -> ilog2 x <= ilog2 y.
Proof.
  intros Hx Hxy.
  destruct (ilog2_spec x Hx) as [Hx1 _].
  destruct (ilog2_spec y (Qlt_le_trans _ _ _ Hx Hxy)) as [_ Hy2].
  assert (H : (pow2 (ilog2 x) < pow2 (ilog2 y + 1))%Q).
  { eapply Qle_lt_trans; [exact Hx1|]. eapply Qle_lt_trans; eassumption. }
  apply Qpower_lt_compat_l_inv in H; [lia|reflexivity].
Qed.

Lemma round_half_even_Z (n : Z) : round_half_even (inject_Z n) = n.
Proof.
  unfold round_half_even. rewrite Qfloor_Z.
  assert (H : (inject_Z n - inject_Z n ?= 1 # 2)%Q = Lt).
  { apply (proj1 (Qlt_alt _ _)). generalize (inject_Z n). intros q. lra. }
  now rewrite H.
Qed.

Lemma round_half_even_range (x : Q) :
  Qfloor x <= round_half_even x <= Qfloor x + 1.
Proof.
  unfold round_half_even.
  destruct (_ ?= _)%Q; [destruct (Z.even _)|..]; lia.
Qed.

Lemma round_half_even_mono (x y : Q) :
  (x <= y)%Q -> round_half_even x <= round_half_even y.
Proof.
  intros Hxy. pose proof (Qfloor_resp_le x y Hxy) as Hf.
  pose proof (round_half_even_range x) as Hx.
  pose proof (round_half_even_range y) as Hy.
  destruct (Z.eq_dec (Qfloor x) (Qfloor y)) as [Heq|Hne]; [|lia].
  unfold round_half_even in *. rewrite <- Heq in *. clear Hx Hy.
  destruct (x - inject_Z (Qfloor x) ?= 1 # 2)%Q eqn:Hcx;
    destruct (y - inject_Z (Qfloor x) ?= 1 # 2)%Q eqn:Hcy;
    try (destruct (Z.even (Qfloor x))); try lia; exfalso;
    repeat match goal with
      | H : (_ ?= _)%Q = Eq |- _ => apply Qeq_alt in H
      | H : (_ ?= _)%Q = Lt |- _ => apply Qlt_alt in H
      | H : (_ ?= _)%Q = Gt |- _ => apply Qgt_alt in H
      end;
    revert Hcx Hcy Hxy; generalize (inject_Z (Qfloor x)); intros f; lra.
Qed.

Lemma round_half_even_le_Z (x : Q) (n : Z) :
  (x <= inject_Z n)%Q -> round_half_even x <= n.
Proof.
  intros H. apply round_half_even_mono in H. now rewrite round_half_even_Z in H.
Qed.

Lemma round_half_even_ge_Z (x : Q) (n : Z) :
  (inject_Z n <= x)%Q -> n <= round_half_even x.
Proof.
  intros H. apply round_half_even_mono in H. now rewrite round_half_even_Z in H.
Qed.

Lemma ulp_exponent_mono x y : (0 < x)%Q -> (x <= y)%Q -> ulp_exponent x <= ulp_exponent y.
Proof. intros Hx Hxy. unfold ulp_exponent. pose proof (ilog2_mono x y Hx Hxy). lia. Qed.

Lemma round_magnitude_le_pow2 x L :
  (0 < x)%Q -> ulp_exponent x <= L -> (x <= pow2 L)%Q ->
  (round_magnitude x <= pow2 L)%Q.
Proof.
  intros Hx HL Hle. unfold round_magnitude.
  set (e := ulp_exponent x) in *.
  assert (Hq : (x / pow2 e <= inject_Z (2 ^ (L - e)))%Q).
  { rewrite <- pow2_nonneg_Z by lia. rewrite <- pow2_div.
    apply Qle_shift_div_l; [apply pow2_pos|].
    unfold Qdiv. rewrite <- Qmult_assoc, (Qmult_comm (/ pow2 e)), Qmult_inv_r, Qmult_1_r.
    - exact Hle.
    - intros H0. pose proof (pow2_pos e) as Hp. rewrite H0 in Hp. discriminate. }
  apply round_half_even_le_Z in Hq. rewrite Zle_Qle in Hq.
  apply Qle_trans with (inject_Z (2 ^ (L - e)) * pow2 e)%Q.
  - apply Qmult_le_compat_r; [exact Hq|]. apply Qlt_le_weak, pow2_pos.
  - rewrite <- pow2_nonneg_Z by lia. rewrite <- pow2_add.
    replace (L - e + e) with L by lia. apply Qle_refl.
Qed.

Lemma round_magnitude_ge_pow2 x L :
  (0 < x)%Q -> ulp_exponent x <= L -> (pow2 L <= x)%Q ->
  (pow2 L <= round_magnitude x)%Q.
Proof.
  intros Hx HL Hle. unfold round_magnitude.
  set (e := ulp_exponent x) in *.
  assert (Hq : (inject_Z (2 ^ (L - e)) <= x / pow2 e)%Q).
  { rewrite <- pow2_nonneg_Z by lia. rewrite <- pow2_div.
    apply Qle_shift_div_l; [apply pow2_pos|].
    unfold Qdiv. rewrite <- Qmult_assoc, (Qmult_comm (/ pow2 e)), Qmult_inv_r, Qmult_1_r.
    - exact Hle.
    - intros H0. pose proof (pow2_pos e) as Hp. rewrite H0 in Hp. discriminate. }
  apply round_half_even_ge_Z in Hq. rewrite Zle_Qle in Hq.
  apply Qle_trans with (inject_Z (2 ^ (L - e)) * pow2 e)%Q.
  - rewrite <- pow2_nonneg_Z by lia. rewrite <- pow2_add.
    replace (L - e + e) with L by lia. apply Qle_refl.
  - apply Qmult_le_compat_r; [exact Hq|]. apply Qlt_le_weak, pow2_pos.
Qed.

Lemma round_half_even_comp (x y : Q) : (x == y)%Q -> round_half_even x = round_half_even y.
Proof.
  intros H. apply Z.le_antisymm; apply round_half_even_mono; rewrite H; apply Qle_refl.
Qed.

Lemma Qdiv_le_compat_r (x y p : Q) : (0 < p)%Q -> (x <= y)%Q -> (x / p <= y / p)%Q.
Proof.
  intros Hp Hxy. unfold Qdiv. apply Qmult_le_compat_r; [exact Hxy|].
  apply Qlt_le_weak, Qinv_lt_0_compat, Hp.
Qed.

Lemma round_magnitude_nonneg (x : Q) : (0 < x)%Q -> (0 <= round_magnitude x)%Q.
Proof.
  intros Hx. unfold round_magnitude.
  apply Qmult_le_0_compat; [|apply Qlt_le_weak, pow2_pos].
  change 0%Q with (inject_Z 0). rewrite <- Zle_Qle.
  apply round_half_even_ge_Z. change (inject_Z 0) with 0%Q.
  apply Qle_shift_div_l; [apply pow2_pos|]. rewrite Qmult_0_l.
  now apply Qlt_le_weak.
Qed.

Lemma round_magnitude_mono (x y : Q) :
  (0 < x)%Q -> (x <= y)%Q -> (round_magnitude x <= round_magnitude y)%Q.
Proof.
  intros Hx Hxy.
  assert (Hy : (0 < y)%Q) by (eapply Qlt_le_trans; eassumption).
  pose proof (ulp_exponent_mono x y Hx Hxy) as He.
  destruct (Z.eq_dec (ulp_exponent x) (ulp_exponent y)) as [Heq|Hne].
  - unfold round_magnitude. rewrite Heq.
    apply Qmult_le_compat_r; [|apply Qlt_le_weak, pow2_pos].
    rewrite <- Zle_Qle. apply round_half_even_mono.
    apply Qdiv_le_compat_r; [apply pow2_pos|exact Hxy].
  - destruct (ilog2_spec x Hx) as [_ Hx2]. destruct (ilog2_spec y Hy) as [Hy1 _].
    apply Qle_trans with (pow2 (Z.max (ilog2 x + 1) (ulp_exponent x))).
    + apply round_magnitude_le_pow2; [exact Hx|lia|].
      apply Qle_trans with (pow2 (ilog2 x + 1)); [now apply Qlt_le_weak|].
      apply pow2_le. lia.
    + apply Qle_trans with (pow2 (ilog2 y)).
      * apply pow2_le. unfold ulp_exponent in *. lia.
      * apply round_magnitude_ge_pow2; [exact Hy| |exact Hy1].
        unfold ulp_exponent in *. lia.
Qed.

Lemma fl64_mono (x y : Q) : (x <= y)%Q -> (fl64 x <= fl64 y)%Q.
Proof.
  intros Hxy. unfold fl64.
  destruct (x ?= 0)%Q eqn:Hx; destruct (y ?= 0)%Q eqn:Hy;
    repeat match goal with
      | H : (_ ?= _)%Q = Eq |- _ => apply Qeq_alt in H
      | H : (_ ?= _)%Q = Lt |- _ => apply Qlt_alt in H
      | H : (_ ?= _)%Q = Gt |- _ => apply Qgt_alt in H
      end.
  - apply Qle_refl.
  - exfalso. lra.
  - now apply round_magnitude_nonneg.
  - assert (H : (0 <= round_magnitude (- x))%Q) by (apply round_magnitude_nonneg; lra).
    lra.
  - apply Qopp_le_compat. apply round_magnitude_mono; lra.
  - assert (H1 : (0 <= round_magnitude (- x))%Q) by (apply round_magnitude_nonneg; lra).
    assert (H2 : (0 <= round_magnitude y)%Q) by (apply round_magnitude_nonneg; lra).
    lra.
  - exfalso. lra.
  - exfalso. lra.
  - apply round_magnitude_mono; lra.
Qed.

Lemma round_magnitude_exact (x : Q) (m : Z) :
  (x / pow2 (ulp_exponent x) == inject_Z m)%Q -> (round_magnitude x == x)%Q.
Proof.
  intros Hm. unfold round_magnitude.
  rewrite (round_half_even_comp _ _ Hm), round_half_even_Z, <- Hm.
  unfold Qdiv. rewrite <- Qmult_assoc, (Qmult_comm (/ _)), Qmult_inv_r, Qmult_1_r.
  - reflexivity.
  - intros H0. pose proof (pow2_pos (ulp_exponent x)) as Hp. rewrite H0 in Hp.
    discriminate.
Qed.

Lemma round_magnitude_int (n : Z) :
  0 < n <= 2 ^ 53 -> (round_magnitude (inject_Z n) == inject_Z n)%Q.
Proof.
  intros [Hn0 Hn].
  assert (Hx : (0 < inject_Z n)%Q) by (rewrite <- (Zlt_Qlt 0); lia).
  destruct (ilog2_spec (inject_Z n) Hx) as [Hlo Hhi].
  set (l := ilog2 (inject_Z n)) in *.
  assert (Hl0 : 0 <= l).
  { assert (H : (pow2 0 < pow2 (l + 1))%Q).
    { eapply Qle_lt_trans; [|exact Hhi]. change (pow2 0) with (inject_Z 1).
      rewrite <- Zle_Qle. lia. }
    apply (Qpower_lt_compat_l_inv 2 0 (l + 1)) in H; [lia|reflexivity]. }
  assert (Hl53 : l <= 53).
  { assert (H : (pow2 l <= pow2 53)%Q).
    { eapply Qle_trans; [exact Hlo|]. rewrite (pow2_nonneg_Z 53) by lia.
      now rewrite <- Zle_Qle. }
    apply (Qpower_le_compat_l_inv 2 l 53) in H; [lia|reflexivity]. }
  assert (He : ulp_exponent (inject_Z n) = l - 52) by (unfold ulp_exponent; fold l; lia).
  destruct (Z.eq_dec l 53) as [H53|Hlt].
  - assert (Hn53 : n = 2 ^ 53).
    { rewrite H53, (pow2_nonneg_Z 53) in Hlo by lia. rewrite <- Zle_Qle in Hlo. lia. }
    apply (round_magnitude_exact _ (2 ^ 52)). rewrite He, H53, Hn53. reflexivity.
  - apply (round_magnitude_exact _ (n * 2 ^ (52 - l))). rewrite He.
    rewrite inject_Z_mult, <- pow2_nonneg_Z by lia.
    replace (52 - l) with (- (l - 52)) by lia.
    unfold pow2 at 2. rewrite Qpower_opp. reflexivity.
Qed.

Lemma fl64_int (n : Z) : Z.abs n <= 2 ^ 53 -> (fl64 (inject_Z n) == inject_Z n)%Q.
Proof.
  intros Hn. unfold fl64.
  assert (Hc : (inject_Z n ?= 0)%Q = (n ?= 0)).
  { unfold Qcompare. cbn. now rewrite Z.mul_1_r. }
  rewrite Hc. destruct (n ?= 0) eqn:Hn0.
  - apply Z.compare_eq in Hn0. now subst n.
  - rewrite <- inject_Z_opp. rewrite round_magnitude_int.
    + rewrite inject_Z_opp. ring.
    + change (n < 0) in Hn0. lia.
  - apply round_magnitude_int. change (n > 0) in Hn0. lia.
Qed.

(** Rounding to binary64 is monotone and exact on the integers up to
    [2^53]: the arithmetic of Python's floats is one the development
    applies to. *)
Lemma binary64_float_arith : exists fa : FloatArith, forall x, fl fa x = fl64 x.
Proof. exists (Build_FloatArith fl64 fl64_mono fl64_int). reflexivity. Qed.

(** ** Inventory generator *)

Lemma unit_draw (k : Z) :
  (0 <= inject_Z (k mod 2 ^ 53) / inject_Z (2 ^ 53) < 1)%Q.
Proof.
  assert (Hp : 0 < 2 ^ 53) by lia.
  destruct (Z.mod_pos_bound k (2 ^ 53) Hp) as [Hlo Hhi].
  assert (Hq : (0 < inject_Z (2 ^ 53))%Q).
  { change 0%Q with (inject_Z 0). now rewrite <- Zlt_Qlt. }
  split.
  - apply Qle_shift_div_l; [exact Hq|].
    rewrite Qmult_0_l. change 0%Q with (inject_Z 0). now rewrite <- Zle_Qle.
  - apply Qlt_shift_div_r; [exact Hq|].
    rewrite Qmult_1_l. now rewrite <- Zlt_Qlt.
Qed.

Lemma fl_within (fa : FloatArith) (a b : Z) (x : Q) :
  Z.abs a <= 2 ^ 53 -> Z.abs b <= 2 ^ 53 ->
  (inject_Z a <= x <= inject_Z b)%Q ->
  (inject_Z a <= fl fa x <= inject_Z b)%Q.
Proof.
  intros Ha Hb [Hlo Hhi]. split.
  - rewrite <- (fl_int fa a Ha). now apply fl_mono.
  - rewrite <- (fl_int fa b Hb). now apply fl_mono.
Qed.

Lemma random_uniform_within env (a b : Z) w :
  a <= b -> Z.abs a <= 2 ^ 53 -> Z.abs b <= 2 ^ 53 -> Z.abs (b - a) <= 2 ^ 53 ->
  exists x, random_uniform env a b w = (Return x, drawn 1 w)
            /\ (inject_Z a <= x <= inject_Z b)%Q.
Proof.
  intros Hab Ha Hb Hd.
  set (r := (inject_Z (rng_source (rng w) (rng_pos (rng w)) mod 2 ^ 53)
             / inject_Z (2 ^ 53))%Q).
  exists (fl (float_arith env)
            (inject_Z a + fl (float_arith env) (inject_Z (b - a) * r))%Q).
  split; [reflexivity|].
  destruct (unit_draw (rng_source (rng w) (rng_pos (rng w)))) as [Hr0 Hr1].
  fold r in Hr0, Hr1.
  assert (Hw : (0 <= inject_Z (b - a))%Q).
  { change 0%Q with (inject_Z 0). rewrite <- Zle_Qle. lia. }
  assert (Hprod : (inject_Z 0 <= inject_Z (b - a) * r <= inject_Z (b - a))%Q).
  { change (inject_Z 0) with 0%Q. clearbody r.
    generalize dependent (inject_Z (b - a)). intros d Hd0. split.
    - now apply Qmult_le_0_compat.
    - apply Qle_trans with (1 * d)%Q.
      + rewrite (Qmult_comm d r).
        apply Qmult_le_compat_r; [now apply Qlt_le_weak | exact Hd0].
      + rewrite Qmult_1_l. apply Qle_refl. }
  apply (fl_within (float_arith env) 0 (b - a)) in Hprod; [|lia|exact Hd].
  change (inject_Z 0) with 0%Q in Hprod.
  apply fl_within; [exact Ha|exact Hb|].
  assert (Hsub : inject_Z (b - a) = (inject_Z b + - inject_Z a)%Q).
  { unfold Z.sub. now rewrite inject_Z_plus, inject_Z_opp. }
  destruct Hprod as [H1 H2]. revert H1 H2.
  generalize (fl (float_arith env) (inject_Z (b - a) * r)).
  rewrite Hsub. clear Hsub.
  generalize (inject_Z a) (inject_Z b). intros qa qb t H1 H2.
  split; lra.
Qed.

Ltac draw_uniform x H :=
  match goal with
  | |- context [bind (random_uniform ?env ?a ?b) ?k ?w] =>
      let Hrun := fresh "Hrun" in
      destruct (random_uniform_within env a b w) as (x & Hrun & H);
      [lia | lia | lia | lia |];
      rewrite (bind_return _ k w x _ Hrun); clear Hrun
  end.

(** One run of the generator, with the twelve draws named. *)
Lemma generate_lci_data_run (env : Env) (w : World) :
  exists e1 e2 e3 e4 g1 g2 g3 g4 w1 w2 w3 w4,
    generate_lci_data env w
    = (Return (lci_table [e1; e2; e3; e4] [g1; g2; g3; g4] [w1; w2; w3; w4]),
       drawn 12 w)
    /\ Forall2 (Forall2 within) lci_ranges
         [ [e1; e2; e3; e4]; [g1; g2; g3; g4]; [w1; w2; w3; w4] ].
Proof.
  unfold generate_lci_data.
  draw_uniform e1 He1. draw_uniform e2 He2. draw_uniform e3 He3.
  draw_uniform e4 He4. draw_uniform g1 Hg1. draw_uniform g2 Hg2.
  draw_uniform g3 Hg3. draw_uniform g4 Hg4. draw_uniform w1 Hw1.
  draw_uniform w2 Hw2. draw_uniform w3 Hw3. draw_uniform w4 Hw4.
  exists e1, e2, e3, e4, g1, g2, g3, g4, w1, w2, w3, w4.
  split; [reflexivity|].
  repeat (constructor; [repeat (constructor; [assumption|]); constructor|]).
  constructor.
Qed.

Lemma within_cell (range : Z * Z) (x : Q) :
  within range x -> cell_within range (CFloat x).
Proof. intros H. now exists x. Qed.

Lemma within_wider (lo hi lo' hi' : Z) (x : Q) :
  lo' <= lo -> hi <= hi' -> within (lo, hi) x -> within (lo', hi') x.
Proof.
  unfold within. cbn [fst snd]. intros Hlo Hhi [H1 H2].
  rewrite Zle_Qle in Hlo, Hhi. split; eapply Qle_trans; eassumption.
Qed.

Ltac split_ranges H :=
  repeat match type of H with
    | Forall2 _ (_ :: _) (_ :: _) =>
        let H1 := fresh "Hin" in
        apply Forall2_cons_1 in H; destruct H as [H1 H]; try split_ranges H1
    end.

(** C1. Every run of the inventory generator returns a table with the four
    stage rows (Materials, Manufacturing, Use Phase, End-of-Life) and
    three numeric columns (Energy Use, GHG Emissions, Water Use); each
    cell lies within the bounds its own draw was given, hence within the
    range its column spans. *)
Theorem generate_lci_data_table (env : Env) (w : World) :
  exists df,
    generate_lci_data env w = (Return df, drawn 12 w)
    /\ df_columns df
       = [ u "Life Cycle Stage"; u "Energy Use (MJ)";
           u "GHG Emissions (kg CO2-eq)"; u "Water Use (L)" ]
    /\ df !! 0%nat
       = Some (u "Life Cycle Stage",
               [ CStr (u "Materials"); CStr (u "Manufacturing");
                 CStr (u "Use Phase"); CStr (u "End-of-Life") ])
    /\ df_nrows df = 4%nat
    /\ Forall (fun col => length (snd col) = 4%nat) df
    /\ numeric_columns df = tail df
    /\ length (numeric_columns df) = 3%nat
    /\ Forall2 (fun col ranges =>
                  Forall2 cell_within ranges (snd col)
                  /\ Forall (cell_within (column_range ranges)) (snd col))
               (numeric_columns df) lci_ranges.
Proof.
  destruct (generate_lci_data_run env w)
    as (e1 & e2 & e3 & e4 & g1 & g2 & g3 & g4 & w1 & w2 & w3 & w4 & Hrun & Hin).
  eexists. split; [exact Hrun|].
  repeat split; try reflexivity.
  - repeat constructor.
  - unfold lci_ranges in *. split_ranges Hin.
    unfold numeric_columns, lci_table.
    cbn [List.filter forallb is_numeric snd andb fmap list_fmap].
    repeat (constructor;
            [split; repeat (constructor; [apply within_cell; first
               [ assumption
               | eapply within_wider; [| |eassumption]; vm_compute; discriminate ]|])
            |]);
      constructor.
Qed.

Lemma generate_lci_data_table_witness :
  exists fa,
    (forall x, fl fa x = fl64 x)
    /\ exists df,
         generate_lci_data (demo_env_with fa) demo_world
         = (Return df, drawn 12 demo_world)
         /\ df_nrows df = 4%nat
         /\ length (numeric_columns df) = 3%nat.
Proof.
  destruct binary64_float_arith as [fa Hfa]. exists fa. split; [exact Hfa|].
  destruct (generate_lci_data_table (demo_env_with fa) demo_world)
    as (df & Hrun & _ & _ & Hrows & _ & _ & Hcols & _).
  exists df. auto.
Defined.

(** ** Narrative generator *)

Lemma contains_here (pre sub post : pystr) : Py.contains sub (pre ++ sub ++ post).
Proof. now exists pre, post. Qed.

Lemma contains_end (pre sub : pystr) : Py.contains sub (pre ++ sub).
Proof. exists pre, []. now rewrite app_nil_r. Qed.

Lemma contains_later (pre sub s : pystr) :
  Py.contains sub s -> Py.contains sub (pre ++ s).
Proof.
  intros (a & b & ->). exists (pre ++ a), b. now rewrite <- app_assoc.
Qed.

Lemma load_client_none (getenv : option pystr) :
  load_client getenv = None <-> getenv = None \/ getenv = Some [].
Proof.
  destruct getenv as [[|c key]|]; cbn; split; intros H;
    try tauto; try discriminate; destruct H; congruence.
Qed.

Lemma load_client_some (key : pystr) :
  key <> [] -> load_client (Some key) = Some {| api_key := key |}.
Proof. destruct key; [congruence | reflexivity]. Qed.

(** C5. With no credential configured (the variable unset or empty) the
    narrative generator leaves the world as it was, so no call goes out,
    and returns a fixed text built from the section label and the product
    name only, which it contains both. *)
Theorem generate_ai_section_without_credential
    (env : Env) (getenv : option pystr) (prompt product : pystr) (w : World) :
  getenv = None \/ getenv = Some [] ->
  let text := u "[Fallback] This section would normally be generated using AI for: "
                ++ prompt ++ u " on " ++ product ++ u "." in
  generate_ai_section env (load_client getenv) prompt product w = (Return text, w)
  /\ Py.contains prompt text
  /\ Py.contains product text.
Proof.
  intros Hno text. apply load_client_none in Hno. rewrite Hno.
  split; [reflexivity|]. split.
  - apply contains_here.
  - subst text. do 2 apply contains_later. apply contains_here.
Qed.

Lemma generate_ai_section_without_credential_witness :
  generate_ai_section demo_env (load_client None)
    (u "1. Introduction") (u "Electric Toothbrush") demo_world
  = (Return (u "[Fallback] This section would normally be generated using AI for: 1. Introduction on Electric Toothbrush."),
     demo_world).
Proof.
  exact (proj1 (generate_ai_section_without_credential demo_env None
                  (u "1. Introduction") (u "Electric Toothbrush") demo_world
                  (or_introl eq_refl))).
Defined.

(** C2. With a credential configured, a completion call that fails with
    an API error does not raise out of the narrative generator: it
    returns a fallback text that contains the section label and the text
    of the error.  The one outbound call is the failed one. *)
Theorem generate_ai_section_api_failure
    (env : Env) (key prompt product : pystr) (e : Exn) (w : World) :
  key <> [] ->
  is_openai_error e = true ->
  chat_completions_create env {| api_key := key |} (chat_request prompt product)
    = Raise e ->
  let text := u "[Error or Quota Reached] " ++ prompt
                ++ u " section fallback: AI generation failed due to: "
                ++ str_exn e in
  generate_ai_section env (load_client (Some key)) prompt product w
    = (Return text, called w (ChatCall (chat_request prompt product)))
  /\ Py.contains prompt text
  /\ Py.contains (str_exn e) text.
Proof.
  intros Hkey He Hfail text. rewrite (load_client_some key Hkey).
  split; [|split].
  - unfold generate_ai_section, try_except, bind, emit, lift. cbn.
    rewrite Hfail, He. reflexivity.
  - apply contains_here.
  - subst text. do 2 apply contains_later. apply contains_end.
Qed.

Lemma generate_ai_section_api_failure_witness :
  generate_ai_section demo_env (load_client (Some (u "sk-test")))
    (u "9. Limitations") (u "Kettle") demo_world
  = (Return (u "[Error or Quota Reached] 9. Limitations section fallback: AI generation failed due to: Rate limit reached"),
     called demo_world (ChatCall (chat_request (u "9. Limitations") (u "Kettle")))).
Proof.
  refine (proj1 (generate_ai_section_api_failure demo_env (u "sk-test")
                   (u "9. Limitations") (u "Kettle")
                   (OpenAIError (u "Rate limit reached")) demo_world _ _ _)).
  - vm_compute. discriminate.
  - reflexivity.
  - reflexivity.
Defined.

(** ** Chart renderer *)

Lemma write_file_inv env path f w r w' :
  write_file env path f w = (r, w') ->
  (can_write env path = true /\ r = Return tt /\ w' = saved w path f)
  \/ (can_write env path = false /\ r = Raise (OSError path) /\ w' = w).
Proof.
  unfold write_file. destruct (can_write env path); intros [= <- <-]; auto.
Qed.

Lemma df_getitem_inv df label w r w' :
  df_getitem df label w = (r, w') -> w' = w.
Proof.
  unfold df_getitem. destruct (List.find _ df); now intros [= _ <-].
Qed.

(** Whatever the table, the chart files returned are named after the
    columns past the first, in their order. *)
Lemma create_visuals_names env (df : DataFrame) w charts w' :
  create_visuals env df w = (Return charts, w') ->
  charts = List.map (fun column => Py.replace 32 95 column ++ u ".png")
             (tail (df_columns df)).
Proof.
  unfold create_visuals.
  change charts with ([] ++ charts) at 2.
  enough (Hgen : forall cols acc w,
             for_each cols
               (fun chart_files column =>
                  x <- df_getitem df (u "Life Cycle Stage") ;;
                  heights <- df_getitem df column ;;
                  write_file env (Py.replace 32 95 column ++ u ".png")
                    (ImageFile {| fig_x := x; fig_heights := heights;
                                  fig_color := u "steelblue";
                                  fig_title := column ++ u " by Stage" |}) ;;;
                  ret (chart_files ++ [Py.replace 32 95 column ++ u ".png"]))
               acc w = (Return charts, w') ->
             charts = acc ++ List.map (fun column => Py.replace 32 95 column ++ u ".png") cols).
  { intros H. now apply Hgen in H. }
  clear w. induction cols as [|column cols IH]; intros acc w.
  - cbn. intros [= <- _]. now rewrite app_nil_r.
  - cbn [for_each]. unfold bind at 1.
    destruct (bind _ _ w) as [[acc'|e] w1] eqn:Hbody; [|discriminate].
    intros Hrest. apply IH in Hrest. subst charts.
    unfold bind in Hbody.
    destruct (df_getitem df (u "Life Cycle Stage") w) as [[x|?] wa]; [|discriminate].
    destruct (df_getitem df column wa) as [[h|?] wb]; [|discriminate].
    destruct (write_file env _ _ wb) as [[[]|?] wc]; [|discriminate].
    injection Hbody as <- _. cbn. now rewrite <- app_assoc.
Qed.

Lemma create_visuals_lci_table env (es gs ws : list Q) w :
  can_write env (u "Energy_Use_(MJ).png") = true ->
  can_write env (u "GHG_Emissions_(kg_CO2-eq).png") = true ->
  can_write env (u "Water_Use_(L).png") = true ->
  exists f1 f2 f3,
    create_visuals env (lci_table es gs ws) w
    = (Return [ u "Energy_Use_(MJ).png"; u "GHG_Emissions_(kg_CO2-eq).png";
                u "Water_Use_(L).png" ],
       saved (saved (saved w (u "Energy_Use_(MJ).png") (ImageFile f1))
                (u "GHG_Emissions_(kg_CO2-eq).png") (ImageFile f2))
         (u "Water_Use_(L).png") (ImageFile f3)).
Proof.
  intros H1 H2 H3. do 3 eexists.
  unfold create_visuals, lci_table.
  cbn [df_columns List.map fst tail for_each].
  unfold bind, write_file, df_getitem, ret.
  change (Py.replace 32 95 (u "Energy Use (MJ)") ++ u ".png")
    with (u "Energy_Use_(MJ).png").
  change (Py.replace 32 95 (u "GHG Emissions (kg CO2-eq)") ++ u ".png")
    with (u "GHG_Emissions_(kg_CO2-eq).png").
  change (Py.replace 32 95 (u "Water Use (L)") ++ u ".png")
    with (u "Water_Use_(L).png").
  cbn [List.find fst snd].
  rewrite H1, H2, H3. reflexivity.
Qed.

Lemma lci_charts_saved (w : World) (f1 f2 f3 : Figure) :
  charts_readable
    (saved (saved (saved w (u "Energy_Use_(MJ).png") (ImageFile f1))
              (u "GHG_Emissions_(kg_CO2-eq).png") (ImageFile f2))
       (u "Water_Use_(L).png") (ImageFile f3))
    [ u "Energy_Use_(MJ).png"; u "GHG_Emissions_(kg_CO2-eq).png";
      u "Water_Use_(L).png" ].
Proof.
  unfold charts_readable, saved. cbn [files].
  repeat constructor.
  - exists f1. rewrite !lookup_insert_ne by (vm_compute; discriminate).
    apply lookup_insert_eq.
  - exists f2. rewrite lookup_insert_ne by (vm_compute; discriminate).
    apply lookup_insert_eq.
  - exists f3. apply lookup_insert_eq.
Qed.

(** C3, as amended.  For the inventory table, and a working directory the
    images can be written to, the chart renderer produces exactly three
    image files, one per numeric column, each named after its column's
    label with spaces replaced by underscores and [.png] appended, and
    returns their paths in column order. *)
Theorem create_visuals_three_charts (env : Env) (w : World) (df : DataFrame) (w1 : World) :
  generate_lci_data env w = (Return df, w1) ->
  (forall column, In column (tail (df_columns df)) ->
                  can_write env (Py.replace 32 95 column ++ u ".png") = true) ->
  exists w2,
    let charts := [ u "Energy_Use_(MJ).png"; u "GHG_Emissions_(kg_CO2-eq).png";
                    u "Water_Use_(L).png" ] in
    create_visuals env df w1 = (Return charts, w2)
    /\ length charts = 3%nat
    /\ charts = List.map (fun column => Py.replace 32 95 column ++ u ".png")
                  (df_columns (numeric_columns df))
    /\ charts_readable w2 charts
    /\ network w2 = network w1.
Proof.
  intros Hgen Hwr.
  destruct (generate_lci_data_run env w)
    as (e1 & e2 & e3 & e4 & g1 & g2 & g3 & g4 & x1 & x2 & x3 & x4 & Hrun & _).
  rewrite Hrun in Hgen. injection Hgen as <- <-.
  destruct (create_visuals_lci_table env [e1; e2; e3; e4] [g1; g2; g3; g4]
              [x1; x2; x3; x4] (drawn 12 w)) as (f1 & f2 & f3 & Hcv).
  - apply (Hwr (u "Energy Use (MJ)")). cbn. auto.
  - apply (Hwr (u "GHG Emissions (kg CO2-eq)")). cbn. auto.
  - apply (Hwr (u "Water Use (L)")). cbn. auto.
  - eexists. cbn zeta. split; [exact Hcv|].
    split; [reflexivity|]. split; [reflexivity|]. split; [|reflexivity].
    apply lci_charts_saved.
Qed.

Lemma demo_inventory_run :
  generate_lci_data demo_env demo_world
  = (Return demo_inventory, drawn 12 demo_world).
Proof. vm_compute. reflexivity. Qed.

Lemma create_visuals_three_charts_witness :
  exists w2,
    create_visuals demo_env demo_inventory (drawn 12 demo_world)
    = (Return [ u "Energy_Use_(MJ).png"; u "GHG_Emissions_(kg_CO2-eq).png";
                u "Water_Use_(L).png" ], w2).
Proof.
  destruct (create_visuals_three_charts demo_env demo_world demo_inventory
              (drawn 12 demo_world) demo_inventory_run (fun _ _ => eq_refl))
    as (w2 & H & _).
  exists w2. exact H.
Defined.

(** C3 as first stated asks for four chart files; the inventory table has
    three numeric columns and the renderer returns three paths. *)
Lemma create_visuals_four_charts_counterexample :
  fst (create_visuals demo_env demo_inventory (drawn 12 demo_world))
  = Return [ u "Energy_Use_(MJ).png"; u "GHG_Emissions_(kg_CO2-eq).png";
             u "Water_Use_(L).png" ]
  /\ ~ (forall env w df w1 charts w2,
          generate_lci_data env w = (Return df, w1) ->
          create_visuals env df w1 = (Return charts, w2) ->
          length charts = 4%nat).
Proof.
  split; [vm_compute; reflexivity|].
  intros H.
  destruct (generate_lci_data_run demo_env demo_world)
    as (e1 & e2 & e3 & e4 & g1 & g2 & g3 & g4 & x1 & x2 & x3 & x4 & Hrun & _).
  destruct (create_visuals_lci_table demo_env [e1; e2; e3; e4] [g1; g2; g3; g4]
              [x1; x2; x3; x4] (drawn 12 demo_world) eq_refl eq_refl eq_refl)
    as (h1 & h2 & h3 & Hcv).
  specialize (H _ _ _ _ _ _ Hrun Hcv).
  discriminate H.
Qed.

(** ** Web fetcher *)

Lemma lstrip_blank (s : pystr) :
  Py.lstrip s = [] <-> forallb Py.isspace s = true.
Proof.
  induction s as [|c s IH]; cbn; [tauto|].
  destruct (Py.isspace c); cbn; [exact IH|].
  split; discriminate.
Qed.

(** A text is blank after trimming exactly when it holds white space only. *)
Lemma strip_blank (s : pystr) :
  Py.strip s = [] <-> forallb Py.isspace s = true.
Proof.
  unfold Py.strip, Py.rstrip. split.
  - intros H. apply lstrip_blank.
    destruct (Py.lstrip s) as [|c t] eqn:Hl; [reflexivity|exfalso].
    assert (Hc : Py.isspace c = false).
    { clear H. induction s as [|a s IH]; cbn in Hl; [discriminate|].
      destruct (Py.isspace a) eqn:Ha; [now apply IH|].
      now injection Hl as <- _. }
    apply (f_equal (@rev N)) in H. rewrite rev_involutive in H. cbn [rev] in H.
    apply lstrip_blank in H.
    rewrite forallb_app in H. cbn in H. rewrite Hc in H.
    now rewrite andb_false_r in H.
  - intros H. apply lstrip_blank in H. now rewrite H.
Qed.

(** C7. When the search request is answered, the web fetcher returns the
    texts of the first five matching elements at most, joined with single
    spaces; if nothing matched, or the joined text is blank after
    trimming, it returns ["No public data found for <product>."]. *)
Theorem scrape_product_data_excerpt
    (env : Env) (product : pystr) (w : World) (markup : pystr) :
  requests_get env (search_url product) search_headers = Return markup ->
  let matches := soup_find_all env markup (u "div") (u "BNeawe s3v9rd AP7Wnd") in
  let joined := Py.join (u " ") (get_text <$> take 5 matches) in
  let fallback := u "No public data found for " ++ product ++ u "." in
  let w' := called w (HttpGet (search_url product) search_headers) in
  (length (take 5 matches) <= 5)%nat
  /\ (Py.strip joined <> [] ->
      scrape_product_data env product w = (Return joined, w'))
  /\ (Py.strip joined = [] ->
      scrape_product_data env product w = (Return fallback, w'))
  /\ (matches = [] ->
      scrape_product_data env product w = (Return fallback, w')).
Proof.
  intros Hget matches joined fallback w'.
  assert (Hrun : scrape_product_data env product w
                 = (Return (if Py.truthy (Py.strip joined) then joined else fallback), w')).
  { unfold scrape_product_data, bind, emit, lift. now rewrite Hget. }
  split; [rewrite length_take; lia|].
  split; [|split].
  - intros Hne. rewrite Hrun. now destruct (Py.strip joined).
  - intros Hbl. rewrite Hrun. now rewrite Hbl.
  - intros Hnone. rewrite Hrun. subst joined. now rewrite Hnone.
Qed.

Lemma scrape_product_data_excerpt_witness :
  scrape_product_data demo_env (u "Electric Toothbrush") demo_world
  = (Return (u "No public data found for Electric Toothbrush."),
     called demo_world
       (HttpGet (search_url (u "Electric Toothbrush")) search_headers)).
Proof.
  exact (proj2 (proj2 (proj2
    (scrape_product_data_excerpt demo_env (u "Electric Toothbrush") demo_world
       (u "<html></html>") eq_refl))) eq_refl).
Defined.

(** A failed request is not caught: it raises out of the fetcher. *)
Lemma scrape_product_data_raises env product w e :
  requests_get env (search_url product) search_headers = Raise e ->
  scrape_product_data env product w
  = (Raise e, called w (HttpGet (search_url product) search_headers)).
Proof.
  intros Hget. unfold scrape_product_data, bind, emit, lift. now rewrite Hget.
Qed.

Lemma replace_plus_is_quote_plus (product : pystr) :
  Forall (fun c => is_unreserved c || (c =? 32)%N = true) product ->
  Py.replace 32 43 product = spec_quote_plus product.
Proof.
  induction 1 as [|c s Hc _ IH]; [reflexivity|].
  unfold Py.replace, spec_quote_plus in *. cbn [List.map flat_map].
  rewrite IH. destruct (c =? 32)%N; [reflexivity|].
  rewrite orb_false_r in Hc. now rewrite Hc.
Qed.

(** C8, as amended.  The web fetcher issues one GET whose URL is the fixed
    search template followed by the product name with each space written
    as [+] and every other character left as it is, and by the fixed
    suffix; the request carries the fixed [User-Agent] header.  For a
    product name of letters, digits, [-], [.], [_], [~] and spaces this is
    the URL-escaped name. *)
Theorem scrape_product_data_request (env : Env) (product : pystr) (w : World) :
  network (snd (scrape_product_data env product w))
  = network w
      ++ [ HttpGet (u "https://www.google.com/search?q="
                      ++ List.map (fun c => if (c =? 32)%N then 43%N else c) product
                      ++ u "+environmental+impact")
             [ (u "User-Agent", u "Mozilla/5.0") ] ]
  /\ (Forall (fun c => is_unreserved c || (c =? 32)%N = true) product ->
      search_url product = spec_search_url product).
Proof.
  split.
  - unfold scrape_product_data, bind, emit, lift.
    destruct (requests_get env (search_url product) search_headers); reflexivity.
  - intros Hsafe. unfold search_url, spec_search_url.
    now rewrite (replace_plus_is_quote_plus product Hsafe).
Qed.

Lemma scrape_product_data_request_witness :
  search_url (u "Electric Toothbrush") = spec_search_url (u "Electric Toothbrush")
  /\ search_url (u "Electric Toothbrush")
     = u "https://www.google.com/search?q=Electric+Toothbrush+environmental+impact".
Proof.
  split; [|reflexivity].
  apply (proj2 (scrape_product_data_request demo_env (u "Electric Toothbrush") demo_world)).
  vm_compute. repeat constructor.
Defined.

(** C8 as first stated has the product name URL-escaped; an ampersand in
    the name goes into the query as it is. *)
Lemma search_url_escaped_counterexample :
  network (snd (scrape_product_data demo_env (u "R&D") demo_world))
  = [ HttpGet (u "https://www.google.com/search?q=R&D+environmental+impact")
        search_headers ]
  /\ spec_search_url (u "R&D")
     = u "https://www.google.com/search?q=R%26D+environmental+impact"
  /\ ~ (forall env product w,
          network (snd (scrape_product_data env product w))
          = network w ++ [HttpGet (spec_search_url product) search_headers]).
Proof.
  split; [reflexivity|]. split; [reflexivity|].
  intros H. specialize (H demo_env (u "R&D") demo_world).
  vm_compute in H. discriminate H.
Qed.

(** ** Document assembler *)

Lemma fill_cells_from {A} (f : A -> pystr) (xs : list A) (pre : list pystr) w :
  for_each (imap (fun i x => (length pre + i, x)%nat) xs)
    (fun cells ix => set_cell_text cells (fst ix) (f (snd ix)))
    (pre ++ replicate (length xs) []) w
  = (Return (pre ++ List.map f xs), w).
Proof.
  revert pre. induction xs as [|x xs IH]; intros pre.
  - cbn. now rewrite app_nil_r.
  - cbn [imap for_each length replicate List.map].
    unfold bind at 1. unfold set_cell_text at 1. cbn [fst snd].
    rewrite decide_True by (rewrite length_app; cbn; lia).
    unfold ret at 1. rewrite insert_app_r. cbn [insert list_insert].
    specialize (IH (pre ++ [f x])).
    rewrite <- !app_assoc in IH. cbn [app] in IH. rewrite <- IH.
    f_equal. apply imap_ext. intros i y _. cbn.
    rewrite length_app. cbn. f_equal. lia.
Qed.

(** Filling a fresh row of as many cells as there are values writes each
    value's text into its own cell; no index is out of range. *)
Lemma fill_cells_run {A} (f : A -> pystr) (xs : list A) w :
  fill_cells f xs (replicate (length xs) []) w = (Return (List.map f xs), w).
Proof. exact (fill_cells_from f xs [] w). Qed.

Lemma length_df_row (df : DataFrame) r : length (df_row df r) = length df.
Proof. unfold df_row. now rewrite length_map. Qed.

Lemma iterrows_lengths (df : DataFrame) :
  Forall (fun row => length row = length df) (iterrows df).
Proof.
  apply List.Forall_forall. intros row Hin. unfold iterrows in Hin.
  apply in_map_iff in Hin as (r & <- & _). apply length_df_row.
Qed.

Lemma render_rows_run (cols : nat) (rows : list (list Cell)) acc w :
  Forall (fun row => length row = cols) rows ->
  for_each rows
    (fun rows row =>
       row_cells <- fill_cells cell_text row (replicate cols []) ;;
       ret (rows ++ [row_cells]))
    acc w
  = (Return (acc ++ List.map (List.map cell_text) rows), w).
Proof.
  intros Hrows. revert acc.
  induction Hrows as [|row rows Hlen _ IH]; intros acc.
  - cbn. now rewrite app_nil_r.
  - cbn [for_each List.map].
    rewrite (bind_return _ _ w (acc ++ [List.map cell_text row]) w).
    + rewrite IH, <- app_assoc. reflexivity.
    + rewrite (bind_return _ _ w (List.map cell_text row) w); [reflexivity|].
      subst cols. apply fill_cells_run.
Qed.

(** Rendering the table never fails: the header row holds the labels and
    each further row the texts of one row of the frame. *)
Lemma render_table_run (df : DataFrame) w :
  render_table df w = (Return (table_rows df), w).
Proof.
  unfold render_table, table_rows.
  rewrite (bind_return _ _ w (df_columns df) w).
  - apply (render_rows_run _ _ [df_columns df]).
    unfold df_columns. rewrite length_map. apply iterrows_lengths.
  - pose proof (fill_cells_run id (df_columns df) w) as H.
    now rewrite List.map_id in H.
Qed.

Lemma narrative_sections_run (ai_sections : gmap pystr pystr) labels doc w :
  narrative_sections ai_sections labels doc w
  = match first_missing ai_sections labels with
    | Some k => (Raise (KeyError k), w)
    | None => (Return (doc ++ narrative_blocks ai_sections labels), w)
    end.
Proof.
  unfold narrative_sections. revert doc.
  induction labels as [|section labels IH]; intros doc.
  - cbn. now rewrite app_nil_r.
  - cbn [for_each first_missing narrative_blocks flat_map].
    unfold bind at 1. unfold bind at 1. unfold getitem at 1.
    destruct (ai_sections !! section) as [text|]; [|reflexivity].
    cbn [ret default]. rewrite IH.
    destruct (first_missing ai_sections labels); [reflexivity|].
    unfold narrative_blocks. rewrite <- !app_assoc. reflexivity.
Qed.

Lemma pictures_run (charts : list pystr) (doc : Document) w :
  for_each charts
    (fun doc chart =>
       let doc := doc ++ [Paragraph (chart_caption chart) None] in
       add_picture doc chart (11 # 2))
    doc w
  = match first_unreadable w charts with
    | Some e => (Raise e, w)
    | None =>
        (Return (doc ++ flat_map (fun chart => [ Paragraph (chart_caption chart) None;
                                                 Picture chart (11 # 2) ]) charts), w)
    end.
Proof.
  revert doc. induction charts as [|chart charts IH]; intros doc.
  - cbn. now rewrite app_nil_r.
  - cbn [for_each first_unreadable flat_map]. cbv zeta.
    unfold bind at 1. unfold add_picture at 1, picture_error.
    destruct (files w !! chart) as [[fig|d|]|]; try reflexivity.
    rewrite IH. destruct (first_unreadable w charts); [reflexivity|].
    rewrite <- !app_assoc. reflexivity.
Qed.

Lemma first_missing_app (ai_sections : gmap pystr pystr) (l1 l2 : list pystr) :
  first_missing ai_sections (l1 ++ l2)
  = match first_missing ai_sections l1 with
    | Some k => Some k
    | None => first_missing ai_sections l2
    end.
Proof.
  induction l1 as [|k l1 IH]; [reflexivity|].
  cbn. now destruct (ai_sections !! k).
Qed.

(** The whole of [create_report], as one case distinction: the first
    missing key among the summary and the four front sections, else the
    first chart that cannot be embedded, else the first missing key among
    the three back sections, else the save. *)
Lemma create_report_run (env : Env) (product : pystr) (df : DataFrame)
    (charts : list pystr) (web_data : pystr) (ai_sections : gmap pystr pystr)
    (w : World) :
  create_report env product df charts web_data ai_sections w
  = match first_missing ai_sections (u "Executive Summary" :: front_sections) with
    | Some k => (Raise (KeyError k), w)
    | None =>
        match first_unreadable w charts with
        | Some e => (Raise e, w)
        | None =>
            match first_missing ai_sections back_sections with
            | Some k => (Raise (KeyError k), w)
            | None =>
                if can_write env (report_filename product)
                then (Return (report_filename product),
                      saved w (report_filename product)
                        (DocxFile (report_document env product df charts
                                     web_data ai_sections)))
                else (Raise (OSError (report_filename product)), w)
            end
        end
    end.
Proof.
  unfold create_report. cbv zeta.
  cbn [first_missing].
  unfold bind at 1. unfold getitem at 1.
  destruct (ai_sections !! u "Executive Summary") as [summary|] eqn:Hsum;
    [|reflexivity].
  cbn [ret]. unfold bind at 1. rewrite narrative_sections_run.
  destruct (first_missing ai_sections front_sections); [reflexivity|].
  unfold bind at 1. rewrite render_table_run.
  unfold bind at 1. rewrite pictures_run.
  destruct (first_unreadable w charts); [reflexivity|].
  unfold bind at 1. rewrite narrative_sections_run.
  destruct (first_missing ai_sections back_sections); [reflexivity|].
  unfold bind, write_file, ret.
  destruct (can_write env (report_filename product)); [|reflexivity].
  unfold saved, report_document. rewrite Hsum. cbn [default].
  do 3 f_equal. cbn [fold_left toc List.map].
  rewrite <- !app_assoc. reflexivity.
Qed.

Lemma first_missing_none (ai_sections : gmap pystr pystr) (keys : list pystr) :
  first_missing ai_sections keys = None
  <-> forall k, In k keys -> is_Some (ai_sections !! k).
Proof.
  induction keys as [|k keys IH]; cbn.
  - split; [intros _ k []|reflexivity].
  - destruct (ai_sections !! k) as [v|] eqn:Hk.
    + rewrite IH. split.
      * intros H k' [<-|Hin]; [rewrite Hk; eauto | now apply H].
      * intros H k' Hin. apply H. now right.
    + split; [discriminate|]. intros H.
      destruct (H k (or_introl eq_refl)) as [v Hv]. congruence.
Qed.

Lemma first_missing_some (ai_sections : gmap pystr pystr) (keys : list pystr) k :
  first_missing ai_sections keys = Some k ->
  In k keys /\ ai_sections !! k = None.
Proof.
  induction keys as [|k' keys IH]; cbn; [discriminate|].
  destruct (ai_sections !! k') eqn:Hk.
  - intros H. destruct (IH H). auto.
  - intros [= <-]. auto.
Qed.

(** When exactly one of the keys is missing, it is the first missing one. *)
Lemma first_missing_only (ai_sections : gmap pystr pystr) (keys : list pystr) k :
  In k keys -> ai_sections !! k = None ->
  (forall k', In k' keys -> k' <> k -> is_Some (ai_sections !! k')) ->
  first_missing ai_sections keys = Some k.
Proof.
  intros Hin Hk Hothers.
  destruct (first_missing ai_sections keys) as [k0|] eqn:Hfm.
  - apply first_missing_some in Hfm as [Hin0 Hk0].
    destruct (decide (k0 = k)) as [->|Hne]; [reflexivity|].
    destruct (Hothers k0 Hin0 Hne) as [v Hv]. congruence.
  - destruct (proj1 (first_missing_none _ _) Hfm k Hin) as [v Hv]. congruence.
Qed.

Lemma charts_readable_run (w : World) (charts : list pystr) :
  charts_readable w charts <-> first_unreadable w charts = None.
Proof.
  unfold charts_readable. induction charts as [|chart charts IH]; cbn.
  - split; [reflexivity|constructor].
  - unfold picture_error. split.
    + intros H. apply Forall_cons_1 in H as [[fig Hfig] Hrest].
      rewrite Hfig. now apply IH.
    + destruct (files w !! chart) as [[fig|d|]|] eqn:Hf; try (intros; discriminate).
      intros H. constructor; [now exists fig|now apply IH].
Qed.

(** C6. When the narrative mapping lacks one of the eight keys, assembly
    fails and saves nothing, so no blank text stands in for the section;
    the failure is the lookup of that key whenever assembly gets to it,
    which it does for the summary and the four front sections always and
    for the three back sections once the chart images are embedded. *)
Theorem create_report_missing_key
    (env : Env) (product : pystr) (df : DataFrame) (charts : list pystr)
    (web_data : pystr) (ai_sections : gmap pystr pystr) (w : World) (k : pystr) :
  In k report_keys ->
  ai_sections !! k = None ->
  (forall k', In k' report_keys -> k' <> k -> is_Some (ai_sections !! k')) ->
  (exists e, create_report env product df charts web_data ai_sections w
             = (Raise e, w))
  /\ (In k (u "Executive Summary" :: front_sections) \/ charts_readable w charts ->
      create_report env product df charts web_data ai_sections w
      = (Raise (KeyError k), w)).
Proof.
  intros Hin Hk Hothers.
  pose proof (first_missing_only ai_sections report_keys k Hin Hk Hothers) as Hfm.
  change report_keys
    with ((u "Executive Summary" :: front_sections) ++ back_sections) in Hfm.
  rewrite first_missing_app in Hfm. rewrite create_report_run.
  destruct (first_missing ai_sections (u "Executive Summary" :: front_sections))
    as [k0|] eqn:Hfront.
  - injection Hfm as ->. split; [eauto|reflexivity].
  - rewrite Hfm. destruct (first_unreadable w charts) as [e|] eqn:Hpics.
    + split; [eauto|]. intros [Hk_front|Hread].
      * destruct (proj1 (first_missing_none _ _) Hfront k Hk_front) as [v Hv].
        congruence.
      * apply charts_readable_run in Hread. congruence.
    + split; [eauto|reflexivity].
Qed.

Lemma create_report_missing_key_witness :
  create_report demo_env (u "Kettle") [] [] (u "No public data found for Kettle.")
    (delete (u "8. Interpretation") demo_sections) demo_world
  = (Raise (KeyError (u "8. Interpretation")), demo_world).
Proof.
  refine (proj2 (create_report_missing_key demo_env (u "Kettle") [] []
                   (u "No public data found for Kettle.")
                   (delete (u "8. Interpretation") demo_sections) demo_world
                   (u "8. Interpretation") _ _ _) (or_intror _)).
  - cbn. tauto.
  - apply lookup_delete_eq.
  - intros k' Hin Hne. rewrite lookup_delete_ne by congruence.
    cbn in Hin.
    repeat (destruct Hin as [<-|Hin];
            [first [ now (exfalso; apply Hne) | now (vm_compute; eauto) ]|]).
    destruct Hin.
  - constructor.
Defined.

(** C6 as first stated has assembly fail at the lookup of the missing key
    whichever of the eight keys it is; with a back section missing and a
    chart that is not in the working directory, embedding the chart comes
    first and fails with the error of the file. *)
Lemma create_report_missing_key_counterexample :
  create_report demo_env (u "Kettle") [] [u "missing.png"]
    (u "No public data found for Kettle.")
    (delete (u "8. Interpretation") demo_sections) demo_world
  = (Raise (OSError (u "missing.png")), demo_world)
  /\ ~ (forall env product df charts web_data ai_sections w k,
          In k report_keys ->
          ai_sections !! k = None ->
          (forall k', In k' report_keys -> k' <> k -> is_Some (ai_sections !! k')) ->
          fst (create_report env product df charts web_data ai_sections w)
          = Raise (KeyError k)).
Proof.
  assert (Hrun : create_report demo_env (u "Kettle") [] [u "missing.png"]
                   (u "No public data found for Kettle.")
                   (delete (u "8. Interpretation") demo_sections) demo_world
                 = (Raise (OSError (u "missing.png")), demo_world)).
  { rewrite create_report_run.
    assert (Hfront : first_missing (delete (u "8. Interpretation") demo_sections)
                       (u "Executive Summary" :: front_sections) = None)
      by (vm_compute; reflexivity).
    rewrite Hfront.
    assert (Hpic : first_unreadable demo_world [u "missing.png"]
                   = Some (OSError (u "missing.png")))
      by (vm_compute; reflexivity).
    now rewrite Hpic. }
  split; [exact Hrun|].
  intros H.
  specialize (H demo_env (u "Kettle") [] [u "missing.png"]
                (u "No public data found for Kettle.")
                (delete (u "8. Interpretation") demo_sections) demo_world
                (u "8. Interpretation")).
  rewrite Hrun in H. cbn [fst] in H.
  assert (Hne : Raise (A := pystr) (OSError (u "missing.png"))
                <> Raise (KeyError (u "8. Interpretation"))) by discriminate.
  apply Hne, H.
  - unfold report_keys, front_sections, back_sections. cbn [app In]. tauto.
  - apply lookup_delete_eq.
  - intros k' Hin Hne'. rewrite lookup_delete_ne by congruence.
    cbn in Hin.
    repeat (destruct Hin as [<-|Hin];
            [first [ now (exfalso; apply Hne') | now (vm_compute; eauto) ]|]).
    destruct Hin.
Qed.

(** ** Presentation shell *)

Lemma ai_sections_loop_dom (env : Env) (client : option OpenAI)
    (product : pystr) (labels : list pystr) (acc : gmap pystr pystr)
    (w : World) (m : gmap pystr pystr) (w' : World) :
  for_each labels
    (fun ai_sections section =>
       text <- generate_ai_section env client section product ;;
       ret (<[section := text]> ai_sections))
    acc w = (Return m, w') ->
  dom m = dom acc ∪ list_to_set labels.
Proof.
  revert acc w. induction labels as [|section labels IH]; intros acc w.
  - cbn. intros [= <- _]. set_solver.
  - cbn [for_each]. unfold bind at 1.
    destruct (bind _ _ w) as [[acc'|e] w1] eqn:Hbody; [|discriminate].
    intros Hrest. apply IH in Hrest. rewrite Hrest.
    unfold bind in Hbody.
    destruct (generate_ai_section env client section product w) as [[text|?] w2];
      [|discriminate].
    injection Hbody as <- _. rewrite dom_insert_L. set_solver.
Qed.

(** Assembly raises [KeyError] only for a key the mapping lacks. *)
Lemma create_report_key_error (env : Env) (product : pystr) (df : DataFrame)
    (charts : list pystr) (web_data : pystr) (ai_sections : gmap pystr pystr)
    (w : World) (k : pystr) (w' : World) :
  create_report env product df charts web_data ai_sections w
  = (Raise (KeyError k), w') ->
  In k report_keys /\ ai_sections !! k = None.
Proof.
  rewrite create_report_run.
  change report_keys
    with ((u "Executive Summary" :: front_sections) ++ back_sections).
  rewrite in_app_iff.
  destruct (first_missing ai_sections (u "Executive Summary" :: front_sections))
    as [k0|] eqn:Hfront.
  - intros [= <- _]. apply first_missing_some in Hfront. tauto.
  - destruct (first_unreadable w charts) as [e|] eqn:Hpics.
    + intros [= -> _]. clear Hfront. exfalso.
      induction charts as [|chart charts IH]; [discriminate|].
      cbn in Hpics. unfold picture_error in Hpics.
      destruct (files w !! chart) as [[fig|d|]|]; try discriminate.
      now apply IH.
    + destruct (first_missing ai_sections back_sections) as [k0|] eqn:Hback.
      * intros [= <- _]. apply first_missing_some in Hback. tauto.
      * destruct (can_write env (report_filename product)); discriminate.
Qed.

(** C9. The labels the shell fills the narrative mapping with are the keys
    assembly looks up, in the same order; so whenever the filling loop
    hands a mapping on, the mapping has exactly these eight keys, every
    lookup of assembly finds its key, and assembly cannot fail for a
    missing key. *)
Theorem ai_sections_cover_report_keys :
  section_labels = report_keys
  /\ forall env client product w (m : gmap pystr pystr) w',
       ai_sections_loop env client product w = (Return m, w') ->
       dom m = list_to_set report_keys
       /\ (forall k, In k report_keys -> is_Some (m !! k))
       /\ first_missing m report_keys = None
       /\ (forall df charts web_data w2 k w3,
             create_report env product df charts web_data m w2
             <> (Raise (KeyError k), w3)).
Proof.
  split; [reflexivity|].
  intros env client product w m w' Hloop.
  apply ai_sections_loop_dom in Hloop.
  rewrite dom_empty_L, (left_id_L ∅ (∪)) in Hloop.
  change section_labels with report_keys in Hloop.
  assert (Hall : forall k, In k report_keys -> is_Some (m !! k)).
  { intros k Hin. apply elem_of_dom. rewrite Hloop.
    apply elem_of_list_to_set. now apply list_elem_of_In. }
  split; [exact Hloop|]. split; [exact Hall|].
  split; [now apply first_missing_none|].
  intros df charts web_data w2 k w3 Hraise.
  apply create_report_key_error in Hraise as [Hin Hnone].
  destruct (Hall k Hin) as [v Hv]. congruence.
Qed.

Lemma ai_sections_cover_report_keys_witness :
  exists m w',
    ai_sections_loop demo_env None (u "Kettle") demo_world = (Return m, w')
    /\ first_missing m report_keys = None.
Proof.
  eexists _, _. split; [reflexivity|].
  exact (proj1 (proj2 (proj2 (proj2 ai_sections_cover_report_keys demo_env None
                                (u "Kettle") demo_world _ _ eq_refl)))).
Defined.

(** ** Output file name *)

Lemma replace_lookup (old new : N) (s : pystr) (i : nat) (c : N) :
  s !! i = Some c ->
  Py.replace old new s !! i = Some (if (c =? old)%N then new else c).
Proof.
  revert i. induction s as [|a s IH]; intros [|i]; cbn; try discriminate.
  - now intros [= ->].
  - apply IH.
Qed.

Lemma report_filename_lookup (product : pystr) (i : nat) (c : N) :
  product !! i = Some c ->
  report_filename product !! (14 + i)%nat
  = Some (if (c =? 32)%N then 95%N else c).
Proof.
  intros Hc. unfold report_filename.
  rewrite (lookup_app_r (u "LCA_Report_AI_")) by (cbn; lia).
  replace (14 + i - length (u "LCA_Report_AI_"))%nat with i by (cbn; lia).
  rewrite lookup_app_l.
  - now apply replace_lookup.
  - unfold Py.replace. rewrite length_map. now apply lookup_lt_Some in Hc.
Qed.

(** C10. The file name is the fixed prefix, the product name with each
    space turned into an underscore and every other character, [/]
    included, as it is, and the fixed extension.  For the product name
    [x/../../y], whatever the other inputs and the world, assembly either
    fails and writes nothing or saves the document under a path that
    leads out of the working directory. *)
Theorem report_filename_keeps_separators :
  (forall product,
     report_filename product
     = u "LCA_Report_AI_"
         ++ List.map (fun c => if (c =? 32)%N then 95%N else c) product
         ++ u ".docx")
  /\ (forall product i c,
        product !! i = Some c -> c <> 32%N ->
        report_filename product !! (14 + i)%nat = Some c)
  /\ (forall product i,
        product !! i = Some 47%N ->
        report_filename product !! (14 + i)%nat = Some 47%N)
  /\ (forall env df charts web_data ai_sections w,
        let product := u "x/../../y" in
        match create_report env product df charts web_data ai_sections w with
        | (Return path, w') =>
            path = u "LCA_Report_AI_x/../../y.docx"
            /\ outside_working_directory path = true
            /\ exists doc, files w' !! path = Some (DocxFile doc)
        | (Raise _, w') => w' = w
        end).
Proof.
  split; [reflexivity|]. split; [|split].
  - intros product i c Hc Hne. rewrite (report_filename_lookup product i c Hc).
    apply N.eqb_neq in Hne. now rewrite Hne.
  - intros product i Hc. now rewrite (report_filename_lookup product i _ Hc).
  - intros env df charts web_data ai_sections w product.
    rewrite create_report_run.
    destruct (first_missing ai_sections _); [reflexivity|].
    destruct (first_unreadable w charts); [reflexivity|].
    destruct (first_missing ai_sections _); [reflexivity|].
    destruct (can_write env (report_filename product)); [|reflexivity].
    split; [reflexivity|]. split; [reflexivity|].
    eexists. unfold saved. cbn [files]. apply lookup_insert_eq.
Qed.

Lemma report_filename_keeps_separators_witness :
  report_filename (u "x/../../y") !! 15%nat = Some 47%N
  /\ outside_working_directory (report_filename (u "x/../../y")) = true
  /\ outside_working_directory (report_filename (u "Electric Toothbrush")) = false.
Proof.
  split; [|split; reflexivity].
  exact (proj1 (proj2 (proj2 report_filename_keeps_separators))
           (u "x/../../y") 1%nat eq_refl).
Defined.

(** ** Numbers as text *)

Lemma digits_uint_uint_digits (d : Decimal.uint) :
  digits_uint (uint_digits d) = Some d.
Proof. induction d; cbn; rewrite ?IHd; reflexivity. Qed.

Lemma uint_digits_no_point (d : Decimal.uint) :
  Forall (fun c => (c =? 46)%N = false /\ (c =? 45)%N = false) (uint_digits d).
Proof. induction d; cbn; constructor; auto. Qed.

Lemma str_N_nonempty (n : N) : str_N n <> [].
Proof.
  unfold str_N. destruct n as [|p]; [discriminate|]. cbn.
  pose proof (DecimalPos.Unsigned.to_uint_nonnil p) as Hnil.
  destruct (Pos.to_uint p); [congruence|discriminate..].
Qed.

Lemma parse_N_str_N (n : N) : parse_N (str_N n) = Some n.
Proof.
  pose proof (str_N_nonempty n) as Hne. unfold parse_N.
  destruct (str_N n) as [|c s] eqn:Hs; [congruence|].
  rewrite <- Hs. unfold str_N. rewrite digits_uint_uint_digits. cbn.
  now rewrite DecimalN.Unsigned.of_to.
Qed.

Lemma below_ten (k : N) :
  (k < 10)%N ->
  (k = 0 \/ k = 1 \/ k = 2 \/ k = 3 \/ k = 4 \/ k = 5 \/ k = 6 \/ k = 7
   \/ k = 8 \/ k = 9)%N.
Proof. lia. Qed.

Lemma str_N_digit (k : N) : (k < 10)%N -> str_N k = [(48 + k)%N].
Proof.
  intros Hk. apply below_ten in Hk.
  decompose [or] Hk; subst k; reflexivity.
Qed.

Lemma parse_frac_digits (f : N) :
  (f < 100)%N -> parse_frac (frac_digits f) = Some f.
Proof.
  intros Hf. unfold frac_digits.
  assert (Ha : (f / 10 < 10)%N) by (apply N.Div0.div_lt_upper_bound; lia).
  assert (Hb : (f mod 10 < 10)%N) by (apply N.mod_lt; lia).
  pose proof (N.div_mod f 10 ltac:(lia)) as Hdm.
  rewrite !(str_N_digit _ Ha), !(str_N_digit _ Hb).
  rewrite <- (str_N_digit _ Ha), <- (str_N_digit _ Hb).
  destruct (f mod 10 =? 0)%N eqn:Hz.
  - apply N.eqb_eq in Hz. rewrite (str_N_digit _ Ha). unfold parse_frac.
    rewrite <- (str_N_digit _ Ha), parse_N_str_N. cbn. f_equal. lia.
  - rewrite (str_N_digit _ Ha), (str_N_digit _ Hb). cbn [app parse_frac].
    rewrite <- (str_N_digit _ Ha), <- (str_N_digit _ Hb), !parse_N_str_N.
    f_equal. lia.
Qed.

Lemma split_at_point (ds rest : pystr) :
  Forall (fun c => (c =? 46)%N = false /\ (c =? 45)%N = false) ds ->
  Py.split_head 46 (ds ++ 46%N :: rest) = ds
  /\ split_rest 46 (ds ++ 46%N :: rest) = Some rest.
Proof.
  induction 1 as [|c ds [Hc _] _ [IH1 IH2]]; cbn; [auto|].
  rewrite Hc, IH1, IH2. auto.
Qed.

(** Reading back the text of a rounded float gives the rounded float. *)
Lemma parse_dec2_str_float (d : Dec2) : parse_dec2 (str_float d) = Some d.
Proof.
  destruct d as [neg h]. unfold str_float. cbn [dec_neg dec_hundredths].
  set (body := str_N (h / 100)%N ++ u "." ++ frac_digits (h mod 100)%N).
  assert (Hbody :
    match parse_N (Py.split_head 46 body), split_rest 46 body with
    | Some i, Some frac =>
        match parse_frac frac with
        | Some f => Some (i * 100 + f)%N
        | None => None
        end
    | _, _ => None
    end = Some h).
  { subst body. change (u ".") with [46%N]. cbn [app].
    destruct (split_at_point (str_N (h / 100)%N) (frac_digits (h mod 100)%N)
                (uint_digits_no_point _)) as [-> ->].
    rewrite parse_N_str_N, parse_frac_digits by (apply N.mod_lt; lia).
    f_equal. pose proof (N.div_mod h 100 ltac:(lia)). lia. }
  unfold parse_dec2. destruct neg.
  - change (u "-" ++ body) with (45%N :: body). cbn [N.eqb Pos.eqb].
    destruct (parse_N (Py.split_head 46 body)) as [i|]; [|discriminate].
    destruct (split_rest 46 body) as [frac|]; [|discriminate].
    destruct (parse_frac frac) as [f|]; [|discriminate].
    now injection Hbody as ->.
  - cbn [app].
    assert (Hhead : exists c s, body = c :: s /\ (c =? 45)%N = false).
    { subst body. pose proof (str_N_nonempty (h / 100)%N) as Hne.
      pose proof (uint_digits_no_point (N.to_uint (h / 100)%N)) as Hds.
      fold (str_N (h / 100)%N) in Hds.
      destruct (str_N (h / 100)%N) as [|c s]; [congruence|].
      apply Forall_cons_1 in Hds as [[_ Hc] _]. eauto. }
    destruct Hhead as (c & s & Hcs & Hc). rewrite Hcs, Hc, <- Hcs.
    destruct (parse_N (Py.split_head 46 body)) as [i|]; [|discriminate].
    destruct (split_rest 46 body) as [frac|]; [|discriminate].
    destruct (parse_frac frac) as [f|]; [|discriminate].
    now injection Hbody as ->.
Qed.

Lemma round_half_even_near (y : Q) :
  (- (1 # 2) <= inject_Z (round_half_even y) - y <= 1 # 2)%Q.
Proof.
  unfold round_half_even.
  pose proof (Qfloor_le y) as Hlo. pose proof (Qlt_floor y) as Hhi.
  rewrite inject_Z_plus in Hhi. change (inject_Z 1) with 1%Q in Hhi.
  destruct (y - inject_Z (Qfloor y) ?= 1 # 2)%Q eqn:Hcmp.
  - apply Qeq_alt in Hcmp.
    destruct (Z.even (Qfloor y)); rewrite ?inject_Z_plus;
      change (inject_Z 1) with 1%Q;
      revert Hlo Hhi Hcmp; generalize (inject_Z (Qfloor y)); intros f; split; lra.
  - apply Qlt_alt in Hcmp.
    revert Hlo Hhi Hcmp; generalize (inject_Z (Qfloor y)); intros f; split; lra.
  - apply Qgt_alt in Hcmp. rewrite inject_Z_plus. change (inject_Z 1) with 1%Q.
    revert Hlo Hhi Hcmp; generalize (inject_Z (Qfloor y)); intros f; split; lra.
Qed.

Lemma round_half_even_nonneg (y : Q) : (0 <= y)%Q -> 0 <= round_half_even y.
Proof.
  intros Hy. unfold round_half_even.
  assert (Hf : 0 <= Qfloor y).
  { change 0 with (Qfloor 0). now apply Qfloor_resp_le. }
  destruct (_ ?= _)%Q; [destruct (Z.even _)|..]; lia.
Qed.

(** [round(x, 2)] is a multiple of a hundredth within half a hundredth of
    [x]. *)
Lemma py_round2_near (x : Q) :
  (Qabs (x - dec2_value (py_round2 x)) <= 1 # 200)%Q.
Proof.
  unfold py_round2, dec2_value. cbn [dec_neg dec_hundredths].
  pose proof (round_half_even_near (Qabs x * 100)) as Hnear.
  assert (Hpos : (0 <= Qabs x * 100)%Q).
  { apply Qmult_le_0_compat; [apply Qabs_nonneg | discriminate]. }
  rewrite Z2N.id by now apply round_half_even_nonneg.
  apply Qabs_Qle_condition.
  destruct (Qlt_le_dec x 0) as [Hneg|Hnn].
  - assert (Habs : (Qabs x == - x)%Q) by (apply Qabs_neg; now apply Qlt_le_weak).
    revert Hnear Habs. clear.
    generalize (inject_Z (round_half_even (Qabs x * 100))).
    generalize (Qabs x).
    intros a r Hr Ha. cbv beta iota. unfold Qdiv.
    change (/ 100)%Q with (1 # 100)%Q. split; lra.
  - assert (Habs : (Qabs x == x)%Q) by now apply Qabs_pos.
    revert Hnear Habs. clear.
    generalize (inject_Z (round_half_even (Qabs x * 100))).
    generalize (Qabs x).
    intros a r Hr Ha. cbv beta iota. unfold Qdiv.
    change (/ 100)%Q with (1 # 100)%Q. split; lra.
Qed.

(** ** The data table of the saved document *)

Lemma lookup_map {A B} (f : A -> B) (l : list A) (i : nat) :
  List.map f l !! i = f <$> l !! i.
Proof.
  revert i. induction l as [|a l IH]; intros [|i]; cbn; auto.
Qed.

Lemma iterrows_lookup (df : DataFrame) (r : nat) :
  (r < df_nrows df)%nat -> iterrows df !! r = Some (df_row df r).
Proof.
  intros Hr. unfold iterrows. rewrite lookup_map.
  now rewrite (lookup_seq_lt 0 (df_nrows df) r Hr).
Qed.

(** Row [r + 1] of the rendered table holds, column by column, the text
    of row [r] of the frame. *)
Lemma table_rows_cell (df : DataFrame) (r c : nat) (cell : Cell) :
  (r < df_nrows df)%nat ->
  df_cell df r c = Some cell ->
  table_cell (table_rows df) (S r) c = Some (cell_text cell).
Proof.
  intros Hr Hcell.
  change (table_cell (table_rows df) (S r) c)
    with (match List.map (List.map cell_text) (iterrows df) !! r with
          | Some row => row !! c
          | None => None
          end).
  rewrite lookup_map, (iterrows_lookup df r Hr). cbn [fmap option_fmap option_map].
  rewrite lookup_map. unfold df_row. rewrite lookup_map.
  unfold df_cell in Hcell. destruct (df !! c) as [col|]; [|discriminate].
  cbn. now rewrite Hcell.
Qed.

Lemma table_in_report (env : Env) (product : pystr) (df : DataFrame)
    (charts : list pystr) (web_data : pystr) (ai_sections : gmap pystr pystr) :
  In (Table (u "Table Grid") (table_rows df))
     (report_document env product df charts web_data ai_sections).
Proof.
  unfold report_document. rewrite !in_app_iff. cbn. tauto.
Qed.

(** Assembly succeeds when every key is present, every chart is an image
    in the working directory and the report file can be written. *)
Lemma create_report_returns (env : Env) (product : pystr) (df : DataFrame)
    (charts : list pystr) (web_data : pystr) (ai_sections : gmap pystr pystr)
    (w : World) :
  (forall k, In k report_keys -> is_Some (ai_sections !! k)) ->
  charts_readable w charts ->
  can_write env (report_filename product) = true ->
  create_report env product df charts web_data ai_sections w
  = (Return (report_filename product),
     saved w (report_filename product)
       (DocxFile (report_document env product df charts web_data ai_sections))).
Proof.
  intros Hkeys Hcharts Hwrite. rewrite create_report_run.
  apply first_missing_none in Hkeys.
  change report_keys
    with ((u "Executive Summary" :: front_sections) ++ back_sections) in Hkeys.
  rewrite first_missing_app in Hkeys.
  destruct (first_missing ai_sections (u "Executive Summary" :: front_sections));
    [discriminate|].
  rewrite Hkeys. apply charts_readable_run in Hcharts.
  now rewrite Hcharts, Hwrite.
Qed.

(** The numbers of an inventory table are far below [10^13]. *)
Lemma generate_lci_data_cells_small (env : Env) (w : World) (df : DataFrame)
    (w' : World) (r c : nat) (x : Q) :
  generate_lci_data env w = (Return df, w') ->
  df_cell df r c = Some (CFloat x) ->
  (Qabs x < inject_Z (10 ^ 13))%Q.
Proof.
  intros Hgen Hcell.
  destruct (generate_lci_data_run env w)
    as (e1 & e2 & e3 & e4 & g1 & g2 & g3 & g4 & x1 & x2 & x3 & x4 & Hrun & Hin).
  rewrite Hrun in Hgen. injection Hgen as <- _.
  unfold lci_ranges in Hin. split_ranges Hin.
  unfold within in *. cbn [fst snd] in *.
  apply Qabs_Qlt_condition.
  change (inject_Z (10 ^ 13)) with (10000000000000 # 1)%Q.
  destruct c as [|[|[|[|c]]]]; destruct r as [|[|[|[|r]]]];
    cbn in Hcell; try discriminate; injection Hcell as <-;
    unfold inject_Z in *; split; lra.
Qed.

(** The data table of a saved report, for any frame. *)
Lemma create_report_table_cells
    (env : Env) (product : pystr) (df : DataFrame) (charts : list pystr)
    (web_data : pystr) (ai_sections : gmap pystr pystr) (w : World) :
  (forall k, In k report_keys -> is_Some (ai_sections !! k)) ->
  charts_readable w charts ->
  can_write env (report_filename product) = true ->
  exists path doc rows w',
    create_report env product df charts web_data ai_sections w = (Return path, w')
    /\ files w' !! path = Some (DocxFile doc)
    /\ In (Table (u "Table Grid") rows) doc
    /\ rows = df_columns df :: List.map (List.map cell_text) (iterrows df)
    /\ length rows = S (df_nrows df)
    /\ forall r c cell,
         (r < df_nrows df)%nat ->
         df_cell df r c = Some cell ->
         table_cell rows (S r) c = Some (cell_text cell).
Proof.
  intros Hkeys Hcharts Hwrite.
  exists (report_filename product),
         (report_document env product df charts web_data ai_sections),
         (table_rows df).
  eexists. split; [now apply create_report_returns|].
  split; [unfold saved; cbn [files]; apply lookup_insert_eq|].
  split; [apply table_in_report|]. split; [reflexivity|].
  split.
  - unfold table_rows, iterrows. cbn [length].
    now rewrite !length_map, length_seq.
  - intros r c cell Hr Hcell. exact (table_rows_cell df r c cell Hr Hcell).
Qed.

Lemma lci_table_cell_row (es gs ws : list Q) (r c : nat) (cell : Cell) :
  length es = 4%nat -> length gs = 4%nat -> length ws = 4%nat ->
  df_cell (lci_table es gs ws) r c = Some cell -> (r < 4)%nat.
Proof.
  intros He Hg Hw Hcell. unfold df_cell, lci_table in Hcell.
  destruct c as [|[|[|[|c]]]]; cbn in Hcell; try discriminate;
    apply lookup_lt_Some in Hcell; rewrite ?length_fmap in Hcell;
    cbn in Hcell; lia.
Qed.

(** C4. In the document assembly saves, the data table shows, for every
    numeric cell of the inventory table, the text of that value rounded
    to two decimals, at the same row and column below the header row:
    read back, the text is the rounded value, which is within half a
    hundredth of the cell. *)
Theorem create_report_table_round_trip
    (env : Env) (w0 : World) (df : DataFrame) (w1 : World)
    (product : pystr) (charts : list pystr) (web_data : pystr)
    (ai_sections : gmap pystr pystr) (w : World) :
  generate_lci_data env w0 = (Return df, w1) ->
  (forall k, In k report_keys -> is_Some (ai_sections !! k)) ->
  charts_readable w charts ->
  can_write env (report_filename product) = true ->
  exists path doc rows w',
    create_report env product df charts web_data ai_sections w = (Return path, w')
    /\ files w' !! path = Some (DocxFile doc)
    /\ In (Table (u "Table Grid") rows) doc
    /\ rows !! 0%nat = Some (df_columns df)
    /\ length rows = 5%nat
    /\ forall r c x,
         df_cell df r c = Some (CFloat x) ->
         (Qabs x < inject_Z (10 ^ 13))%Q
         /\ table_cell rows (S r) c = Some (str_float (py_round2 x))
         /\ parse_dec2 (str_float (py_round2 x)) = Some (py_round2 x)
         /\ (Qabs (x - dec2_value (py_round2 x)) <= 1 # 200)%Q.
Proof.
  intros Hgen Hkeys Hcharts Hwrite.
  destruct (create_report_table_cells env product df charts web_data ai_sections w
              Hkeys Hcharts Hwrite)
    as (path & doc & rows & w' & Hrun & Hfile & Htable & Hrows & Hlen & Hcells).
  exists path, doc, rows, w'.
  split; [exact Hrun|]. split; [exact Hfile|]. split; [exact Htable|].
  split; [now rewrite Hrows|].
  assert (Hshape : df_nrows df = 4%nat
                   /\ forall r c cell, df_cell df r c = Some cell -> (r < 4)%nat).
  { destruct (generate_lci_data_run env w0)
      as (e1 & e2 & e3 & e4 & g1 & g2 & g3 & g4 & x1 & x2 & x3 & x4 & Hlci & _).
    rewrite Hlci in Hgen. injection Hgen as <- _.
    split; [reflexivity|]. intros r c cell.
    now apply lci_table_cell_row. }
  destruct Hshape as [Hnrows Hrow].
  split; [now rewrite Hlen, Hnrows|].
  intros r c x Hcell. split; [|split; [|split]].
  - exact (generate_lci_data_cells_small env w0 df w1 r c x Hgen Hcell).
  - apply (Hcells r c (CFloat x)); [|exact Hcell].
    rewrite Hnrows. exact (Hrow r c _ Hcell).
  - apply parse_dec2_str_float.
  - apply py_round2_near.
Qed.

Lemma demo_sections_complete (k : pystr) :
  In k report_keys -> is_Some (demo_sections !! k).
Proof.
  intros Hin. cbn in Hin.
  repeat (destruct Hin as [<-|Hin]; [now (vm_compute; eauto)|]).
  destruct Hin.
Qed.

Lemma create_report_table_round_trip_witness :
  exists path doc rows w',
    create_report demo_env (u "Kettle") demo_inventory []
      (u "No public data found for Kettle.") demo_sections demo_world
    = (Return path, w')
    /\ files w' !! path = Some (DocxFile doc)
    /\ In (Table (u "Table Grid") rows) doc
    /\ table_cell rows 2 1 = Some (u "53.12")
    /\ table_cell rows 4 1 = Some (u "17.81")
    /\ table_cell rows 3 3 = Some (u "3.5").
Proof.
  destruct (create_report_table_round_trip demo_env demo_world demo_inventory
              (drawn 12 demo_world) (u "Kettle") []
              (u "No public data found for Kettle.") demo_sections demo_world
              demo_inventory_run demo_sections_complete (List.Forall_nil _) eq_refl)
    as (path & doc & rows & w' & Hrun & Hfile & Htable & _ & _ & Hcells).
  exists path, doc, rows, w'.
  split; [exact Hrun|]. split; [exact Hfile|]. split; [exact Htable|].
  assert (H1 : df_cell demo_inventory 1 1
               = Some (CFloat (478507460408115200 # 9007199254740992)))
    by (vm_compute; reflexivity).
  assert (H2 : df_cell demo_inventory 3 1
               = Some (CFloat (160440736725073920 # 9007199254740992)))
    by (vm_compute; reflexivity).
  assert (H3 : df_cell demo_inventory 2 3
               = Some (CFloat (31525197391593472 # 9007199254740992)))
    by (vm_compute; reflexivity).
  split; [|split].
  - exact (proj1 (proj2 (Hcells _ _ _ H1))).
  - exact (proj1 (proj2 (Hcells _ _ _ H2))).
  - exact (proj1 (proj2 (Hcells _ _ _ H3))).
Defined.

(** ** The whole pipeline, without a credential *)

Lemma ai_sections_loop_no_client (env : Env) (product : pystr)
    (labels : list pystr) (acc : gmap pystr pystr) (w : World) :
  for_each labels
    (fun ai_sections section =>
       text <- generate_ai_section env None section product ;;
       ret (<[section := text]> ai_sections))
    acc w
  = (Return (fold_left (fun m k => <[k := fallback_text k product]> m) labels acc),
     w).
Proof.
  revert acc. induction labels as [|k labels IH]; intros acc; [reflexivity|].
  cbn [for_each fold_left]. unfold bind at 1. cbn. apply IH.
Qed.

Lemma scrape_product_data_returns (env : Env) (product : pystr) (w : World)
    (markup : pystr) :
  requests_get env (search_url product) search_headers = Return markup ->
  exists web_data,
    scrape_product_data env product w
    = (Return web_data, called w (HttpGet (search_url product) search_headers)).
Proof.
  intros Hget. eexists. unfold scrape_product_data, bind, emit, lift.
  rewrite Hget. reflexivity.
Qed.

Lemma narrative_blocks_paragraph (ai_sections : gmap pystr pystr)
    (labels : list pystr) (k : pystr) (text : pystr) :
  In k labels -> ai_sections !! k = Some text ->
  In (Paragraph text None) (narrative_blocks ai_sections labels).
Proof.
  intros Hin Hk. unfold narrative_blocks. apply in_flat_map.
  exists k. split; [exact Hin|]. rewrite Hk. cbn. auto.
Qed.

(** With no credential, an answered search request and a writable working
    directory, one press of the button runs to the end: the report is
    saved and handed back, the only outbound call is the search request,
    and the document holds the eight fallback narratives, the table of
    four rows under a header, and the three chart pictures. *)
Lemma generate_report_without_credential (env : Env) (product : pystr)
    (w : World) (markup : pystr) :
  can_write env (u "Energy_Use_(MJ).png") = true ->
  can_write env (u "GHG_Emissions_(kg_CO2-eq).png") = true ->
  can_write env (u "Water_Use_(L).png") = true ->
  can_write env (report_filename product) = true ->
  requests_get env (search_url product) search_headers = Return markup ->
  exists doc w',
    generate_report env None product w
    = (Return (report_filename product, DocxFile doc), w')
    /\ files w' !! report_filename product = Some (DocxFile doc)
    /\ network w' = network w ++ [HttpGet (search_url product) search_headers]
    /\ (forall k, In k section_labels ->
                  In (Paragraph (fallback_text k product) None) doc)
    /\ (exists rows, In (Table (u "Table Grid") rows) doc
                     /\ length rows = 5%nat
                     /\ Forall (fun row => length row = 4%nat) rows)
    /\ (forall chart,
          In chart [ u "Energy_Use_(MJ).png"; u "GHG_Emissions_(kg_CO2-eq).png";
                     u "Water_Use_(L).png" ] ->
          In (Picture chart (11 # 2)) doc).
Proof.
  intros Hw1 Hw2 Hw3 Hwr Hget. unfold generate_report.
  destruct (generate_lci_data_run env w)
    as (e1 & e2 & e3 & e4 & g1 & g2 & g3 & g4 & x1 & x2 & x3 & x4 & Hrun & _).
  rewrite (bind_return _ _ _ _ _ Hrun).
  destruct (create_visuals_lci_table env [e1; e2; e3; e4] [g1; g2; g3; g4]
              [x1; x2; x3; x4] (drawn 12 w) Hw1 Hw2 Hw3) as (f1 & f2 & f3 & Hcv).
  rewrite (bind_return _ _ _ _ _ Hcv).
  destruct (scrape_product_data_returns env product
              (saved (saved (saved (drawn 12 w) (u "Energy_Use_(MJ).png") (ImageFile f1))
                        (u "GHG_Emissions_(kg_CO2-eq).png") (ImageFile f2))
                 (u "Water_Use_(L).png") (ImageFile f3)) markup Hget)
    as (web_data & Hweb).
  rewrite (bind_return _ _ _ _ _ Hweb).
  pose proof (ai_sections_loop_no_client env product section_labels ∅
                (called
                   (saved (saved (saved (drawn 12 w) (u "Energy_Use_(MJ).png") (ImageFile f1))
                             (u "GHG_Emissions_(kg_CO2-eq).png") (ImageFile f2))
                      (u "Water_Use_(L).png") (ImageFile f3))
                   (HttpGet (search_url product) search_headers))) as Hloop.
  fold (ai_sections_loop env None product) in Hloop.
  rewrite (bind_return _ _ _ _ _ Hloop).
  set (m := fold_left (fun m k => <[k := fallback_text k product]> m)
              section_labels ∅) in *.
  assert (Hm : forall k, In k section_labels -> m !! k = Some (fallback_text k product)).
  { intros k Hin. cbn in Hin.
    repeat (destruct Hin as [<-|Hin]; [vm_compute; reflexivity|]).
    destruct Hin. }
  match type of Hloop with
  | _ ?w3 = _ =>
      assert (Hread : charts_readable w3
                [ u "Energy_Use_(MJ).png"; u "GHG_Emissions_(kg_CO2-eq).png";
                  u "Water_Use_(L).png" ])
        by exact (lci_charts_saved (drawn 12 w) f1 f2 f3);
      rewrite (bind_return _ _ _ _ _
                 (create_report_returns env product _ _ web_data m w3
                    ltac:(intros k Hin; rewrite (Hm k Hin); eauto) Hread Hwr))
  end.
  unfold bind, open_rb, saved, ret. cbn [files]. rewrite lookup_insert_eq.
  do 2 eexists. split; [reflexivity|]. cbn [files network].
  split; [apply lookup_insert_eq|]. split; [reflexivity|].
  split; [|split].
  - intros k Hin. pose proof (Hm k Hin) as Hk.
    unfold report_document. rewrite !in_app_iff.
    unfold section_labels in Hin. cbn [In] in Hin. destruct Hin as [<-|Hin].
    + rewrite Hk. cbn. tauto.
    + destruct Hin as [<-|[<-|[<-|[<-|Hin]]]].
      1-4: right; right; right; left;
           refine (narrative_blocks_paragraph m front_sections _ _ _ Hk);
           cbn [In front_sections]; tauto.
      do 7 right. left.
      exact (narrative_blocks_paragraph m back_sections _ _ Hin Hk).
  - eexists. split; [apply table_in_report|]. split; [reflexivity|].
    repeat constructor.
  - intros chart Hin. unfold report_document. rewrite !in_app_iff.
    do 5 right. left. apply in_flat_map. exists chart. split; [exact Hin|].
    cbn. auto.
Qed.

(** * Further properties *)

(** ** Chart renderer, for any table *)

Lemma create_visuals_loop (env : Env) (df : DataFrame) :
  create_visuals env df = for_each (tail (df_columns df)) (chart_step env df) [].
Proof. reflexivity. Qed.

Lemma df_getitem_column (df : DataFrame) (label : pystr) (w : World) :
  df_getitem df label w
  = match df_column df label with
    | Some values => (Return values, w)
    | None => (Raise (KeyError label), w)
    end.
Proof.
  unfold df_getitem, df_column.
  destruct (List.find _ df); reflexivity.
Qed.

Lemma df_column_present (df : DataFrame) (label : pystr) :
  In label (df_columns df) -> is_Some (df_column df label).
Proof.
  unfold df_column, df_columns.
  induction df as [|[l v] df IH]; cbn; [intros []|].
  intros [<-|Hin].
  - rewrite bool_decide_eq_true_2 by reflexivity. cbn. eauto.
  - destruct (bool_decide (l = label)); cbn; [eauto|now apply IH].
Qed.

Lemma chart_step_run (env : Env) (df : DataFrame) (acc : list pystr)
    (column : pystr) (w : World) :
  chart_step env df acc column w
  = match df_column df (u "Life Cycle Stage") with
    | None => (Raise (KeyError (u "Life Cycle Stage")), w)
    | Some stages =>
        match df_column df column with
        | None => (Raise (KeyError column), w)
        | Some _ =>
            if can_write env (chart_file column)
            then (Return (acc ++ [chart_file column]), draw_chart df stages w column)
            else (Raise (OSError (chart_file column)), w)
        end
    end.
Proof.
  unfold chart_step, bind. rewrite df_getitem_column.
  destruct (df_column df (u "Life Cycle Stage")) as [stages|]; [|reflexivity].
  rewrite df_getitem_column. unfold draw_chart.
  destruct (df_column df column) as [heights|]; [|reflexivity].
  unfold write_file. fold (chart_file column).
  destruct (can_write env (chart_file column)); reflexivity.
Qed.

Lemma chart_step_cases (env : Env) (df : DataFrame) (acc : list pystr)
    (column : pystr) (w : World) (r : Result (list pystr)) (w1 : World) :
  chart_step env df acc column w = (r, w1) ->
  (exists e, r = Raise e /\ w1 = w)
  \/ (r = Return (acc ++ [chart_file column])
      /\ exists fig, w1 = saved w (chart_file column) (ImageFile fig)).
Proof.
  rewrite chart_step_run.
  destruct (df_column df (u "Life Cycle Stage")) as [stages|];
    [|intros [= <- <-]; eauto].
  destruct (df_column df column) as [heights|]; [|intros [= <- <-]; eauto].
  destruct (can_write env (chart_file column)); intros [= <- <-]; [|eauto].
  right. split; [reflexivity|]. unfold draw_chart. eauto.
Qed.

Lemma chart_loop_effects (env : Env) (df : DataFrame) (cols : list pystr)
    (acc : list pystr) (w : World) (r : Result (list pystr)) (w' : World) :
  for_each cols (chart_step env df) acc w = (r, w') ->
  network w' = network w
  /\ rng w' = rng w
  /\ (forall p, ~ In p (List.map chart_file cols) -> files w' !! p = files w !! p)
  /\ (forall p fig, files w !! p = Some (ImageFile fig) ->
                    exists fig', files w' !! p = Some (ImageFile fig'))
  /\ (forall charts, r = Return charts ->
        charts = acc ++ List.map chart_file cols
        /\ forall p, In p (List.map chart_file cols) ->
                     exists fig, files w' !! p = Some (ImageFile fig)).
Proof.
  revert acc w. induction cols as [|c cols IH]; intros acc w.
  - cbn. intros [= <- <-].
    split; [reflexivity|]. split; [reflexivity|]. split; [reflexivity|].
    split; [eauto|]. intros charts [= <-].
    split; [now rewrite app_nil_r|]. intros p [].
  - cbn [for_each List.map]. unfold bind at 1.
    destruct (chart_step env df acc c w) as [r1 w1] eqn:Hstep.
    apply chart_step_cases in Hstep as [(e & -> & ->)|(-> & fig & ->)].
    + intros [= <- <-].
      split; [reflexivity|]. split; [reflexivity|]. split; [reflexivity|].
      split; [eauto|]. intros charts [=].
    + intros Hrest. apply IH in Hrest as (Hnet & Hrng & Hout & Himg & Hret).
      cbn [network rng files saved] in *.
      split; [exact Hnet|]. split; [exact Hrng|]. split; [|split].
      * intros p Hp. rewrite Hout by (intros Hin; apply Hp; now right).
        apply lookup_insert_ne. intros Heq. apply Hp. now left.
      * intros p fig0 Hp. destruct (decide (chart_file c = p)) as [<-|Hne].
        -- apply (Himg _ fig). apply lookup_insert_eq.
        -- apply (Himg _ fig0). now rewrite lookup_insert_ne.
      * intros charts Hcharts. destruct (Hret charts Hcharts) as [-> Hin].
        split; [now rewrite <- app_assoc|].
        intros p [<-|Hp]; [|now apply Hin].
        apply (Himg _ fig). apply lookup_insert_eq.
Qed.

(** X1. Whatever the table and however the run ends, the chart renderer
    makes no outbound call, leaves the random generator alone and touches
    no file but the chart files of the columns past the first; when it
    returns, the paths returned are those chart files in column order and
    each of them is an image in the working directory, ready to be
    embedded. *)
Theorem create_visuals_effects (env : Env) (df : DataFrame) (w : World)
    (r : Result (list pystr)) (w' : World) :
  create_visuals env df w = (r, w') ->
  network w' = network w
  /\ rng w' = rng w
  /\ (forall p, ~ In p (List.map chart_file (tail (df_columns df))) ->
                files w' !! p = files w !! p)
  /\ (forall charts, r = Return charts ->
        charts = List.map chart_file (tail (df_columns df))
        /\ charts_readable w' charts).
Proof.
  rewrite create_visuals_loop. intros Hrun.
  apply chart_loop_effects in Hrun as (Hnet & Hrng & Hout & _ & Hret).
  split; [exact Hnet|]. split; [exact Hrng|]. split; [exact Hout|].
  intros charts Hcharts. destruct (Hret charts Hcharts) as [-> Hin].
  split; [reflexivity|]. cbn [app]. apply List.Forall_forall. exact Hin.
Qed.

Lemma create_visuals_effects_witness :
  exists charts w',
    create_visuals demo_env demo_inventory demo_world = (Return charts, w')
    /\ charts_readable w' charts
    /\ network w' = network demo_world.
Proof.
  destruct (create_visuals demo_env demo_inventory demo_world) as [r w'] eqn:Hrun.
  pose proof (create_visuals_effects demo_env demo_inventory demo_world r w' Hrun)
    as (Hnet & _ & _ & Hret).
  assert (Hr : exists charts, r = Return charts).
  { apply (f_equal fst) in Hrun. cbn [fst] in Hrun. rewrite <- Hrun.
    eexists. vm_compute. reflexivity. }
  destruct Hr as [charts ->].
  exists charts, w'. split; [reflexivity|]. split; [|exact Hnet].
  now destruct (Hret charts eq_refl).
Defined.

Lemma in_tail {A} (x : A) (l : list A) : In x (tail l) -> In x l.
Proof. destruct l; cbn; auto. Qed.

Lemma chart_loop_returns (env : Env) (df : DataFrame) (stages : list Cell)
    (cols : list pystr) (acc : list pystr) (w : World) :
  df_column df (u "Life Cycle Stage") = Some stages ->
  (forall c, In c cols -> In c (df_columns df)) ->
  (forall c, In c cols -> can_write env (chart_file c) = true) ->
  for_each cols (chart_step env df) acc w
  = (Return (acc ++ List.map chart_file cols),
     fold_left (draw_chart df stages) cols w).
Proof.
  intros Hst. revert acc w. induction cols as [|c cols IH]; intros acc w Hin Hwr.
  - cbn. now rewrite app_nil_r.
  - cbn [for_each List.map fold_left]. unfold bind at 1.
    rewrite chart_step_run, Hst.
    destruct (df_column_present df c (Hin c (or_introl eq_refl))) as [h ->].
    rewrite (Hwr c (or_introl eq_refl)).
    rewrite IH;
      [ now rewrite <- app_assoc
      | intros; apply Hin; now right
      | intros; apply Hwr; now right ].
Qed.

Lemma chart_loop_write_failure (env : Env) (df : DataFrame) (stages : list Cell)
    (pre : list pystr) (c : pystr) (post : list pystr) (acc : list pystr)
    (w : World) :
  df_column df (u "Life Cycle Stage") = Some stages ->
  (forall c', In c' (pre ++ c :: post) -> In c' (df_columns df)) ->
  (forall c', In c' pre -> can_write env (chart_file c') = true) ->
  can_write env (chart_file c) = false ->
  for_each (pre ++ c :: post) (chart_step env df) acc w
  = (Raise (OSError (chart_file c)), fold_left (draw_chart df stages) pre w).
Proof.
  intros Hst. revert acc w. induction pre as [|a pre IH]; intros acc w Hin Hwr Hc.
  - cbn [app for_each fold_left]. unfold bind at 1.
    rewrite chart_step_run, Hst.
    destruct (df_column_present df c (Hin c (or_introl eq_refl))) as [h ->].
    now rewrite Hc.
  - cbn [app for_each fold_left]. unfold bind at 1.
    rewrite chart_step_run, Hst.
    destruct (df_column_present df a (Hin a (or_introl eq_refl))) as [h ->].
    rewrite (Hwr a (or_introl eq_refl)).
    apply IH; [intros; apply Hin; now right|intros; apply Hwr; now right|exact Hc].
Qed.

Lemma draw_charts_elsewhere (df : DataFrame) (stages : list Cell)
    (cols : list pystr) (w : World) (p : pystr) :
  ~ In p (List.map chart_file cols) ->
  files (fold_left (draw_chart df stages) cols w) !! p = files w !! p.
Proof.
  revert w. induction cols as [|c cols IH]; intros w Hp; [reflexivity|].
  cbn [fold_left]. rewrite IH by (intros Hin; apply Hp; now right).
  unfold draw_chart, saved. cbn [files].
  apply lookup_insert_ne. intros Heq. apply Hp. now left.
Qed.

Lemma draw_charts_lookup (df : DataFrame) (stages : list Cell)
    (cols : list pystr) (w : World) (c : pystr) :
  NoDup (List.map chart_file cols) -> In c cols ->
  files (fold_left (draw_chart df stages) cols w) !! chart_file c
  = Some (ImageFile {| fig_x := stages;
                       fig_heights := default [] (df_column df c);
                       fig_color := u "steelblue";
                       fig_title := c ++ u " by Stage" |}).
Proof.
  revert w. induction cols as [|a cols IH]; intros w Hnd Hin; [destruct Hin|].
  cbn [List.map] in Hnd. apply NoDup_cons in Hnd as [Ha Hnd].
  cbn [fold_left].
  destruct (decide (c ∈ cols)) as [Hc|Hc].
  - apply IH; [exact Hnd|now apply list_elem_of_In].
  - destruct Hin as [->|Hin]; [|exfalso; apply Hc; now apply list_elem_of_In].
    rewrite draw_charts_elsewhere
      by (intros H; apply Ha; now apply list_elem_of_In).
    unfold draw_chart, saved. cbn [files]. apply lookup_insert_eq.
Qed.

Lemma demo_inventory_well_formed : well_formed demo_inventory.
Proof.
  split.
  - apply (bool_decide_unpack _). vm_compute. exact I.
  - vm_compute. repeat constructor.
Qed.

Lemma demo_inventory_plottable : plottable demo_inventory.
Proof. vm_compute. repeat constructor. Qed.

(** X2. For a table with distinct labels that has the stage column and
    numbers in the columns past the first, in a working directory the
    chart files can be written to, the chart renderer returns one path per
    column past the first, in order; when the chart files are distinct,
    the file of a column holds the bar chart of that column's values over
    the stages, in steel blue, titled ["<column> by Stage"]. *)
Theorem create_visuals_returns (env : Env) (df : DataFrame) (w : World)
    (stages : list Cell) :
  well_formed df -> plottable df ->
  df_column df (u "Life Cycle Stage") = Some stages ->
  (forall c, In c (tail (df_columns df)) -> can_write env (chart_file c) = true) ->
  exists w',
    create_visuals env df w
    = (Return (List.map chart_file (tail (df_columns df))), w')
    /\ (NoDup (List.map chart_file (tail (df_columns df))) ->
        forall c heights,
          In c (tail (df_columns df)) ->
          df_column df c = Some heights ->
          files w' !! chart_file c
          = Some (ImageFile {| fig_x := stages; fig_heights := heights;
                               fig_color := u "steelblue";
                               fig_title := c ++ u " by Stage" |})).
Proof.
  intros _ _ Hst Hwr.
  exists (fold_left (draw_chart df stages) (tail (df_columns df)) w). split.
  - rewrite create_visuals_loop.
    apply (chart_loop_returns env df stages _ [] w Hst); [|exact Hwr].
    intros c. apply in_tail.
  - intros Hnd c heights Hin Hc.
    rewrite (draw_charts_lookup df stages _ w c Hnd Hin). now rewrite Hc.
Qed.

Lemma create_visuals_returns_witness :
  exists w',
    create_visuals demo_env demo_inventory demo_world
    = (Return [ u "Energy_Use_(MJ).png"; u "GHG_Emissions_(kg_CO2-eq).png";
                u "Water_Use_(L).png" ], w')
    /\ exists x heights,
         files w' !! u "Water_Use_(L).png"
         = Some (ImageFile {| fig_x := x; fig_heights := heights;
                              fig_color := u "steelblue";
                              fig_title := u "Water Use (L) by Stage" |}).
Proof.
  assert (Hst : df_column demo_inventory (u "Life Cycle Stage")
                = Some [ CStr (u "Materials"); CStr (u "Manufacturing");
                         CStr (u "Use Phase"); CStr (u "End-of-Life") ])
    by (vm_compute; reflexivity).
  destruct (create_visuals_returns demo_env demo_inventory demo_world _
              demo_inventory_well_formed demo_inventory_plottable Hst
              (fun _ _ => eq_refl)) as (w' & Hrun & Hfiles).
  exists w'. split; [exact Hrun|].
  destruct (df_column_present demo_inventory (u "Water Use (L)")) as [h Hh].
  { vm_compute. tauto. }
  do 2 eexists.
  assert (Hnd : NoDup (List.map chart_file (tail (df_columns demo_inventory)))).
  { apply (bool_decide_unpack _). vm_compute. exact I. }
  apply (Hfiles Hnd (u "Water Use (L)") h); [vm_compute; tauto|exact Hh].
Defined.

(** X3. A table of at most one column gets no chart and nothing happens;
    a table of two columns or more without the column
    ["Life Cycle Stage"] makes the chart renderer fail at its first
    chart with a [KeyError] for that label, before anything is written. *)
Theorem create_visuals_without_stage_column (env : Env) (df : DataFrame) (w : World) :
  ((length df <= 1)%nat -> create_visuals env df w = (Return [], w))
  /\ (df_column df (u "Life Cycle Stage") = None -> (2 <= length df)%nat ->
      create_visuals env df w = (Raise (KeyError (u "Life Cycle Stage")), w)).
Proof.
  rewrite create_visuals_loop. split.
  - intros Hlen. destruct df as [|c0 [|c1 df]]; [reflexivity..|cbn in Hlen; lia].
  - intros Hst Hlen. destruct df as [|c0 [|c1 df]]; try (cbn in Hlen; lia).
    cbn [df_columns List.map tail for_each]. unfold bind at 1.
    now rewrite chart_step_run, Hst.
Qed.

Lemma create_visuals_without_stage_column_witness :
  create_visuals demo_env
    [ (u "Stage", [CStr (u "Materials")]); (u "Energy Use (MJ)", [CFloat 100]) ]
    demo_world
  = (Raise (KeyError (u "Life Cycle Stage")), demo_world).
Proof.
  apply (proj2 (create_visuals_without_stage_column demo_env _ demo_world)).
  - reflexivity.
  - cbn. lia.
Defined.

(** X4. For such a table, when a chart file cannot be written, the chart
    renderer raises the write error of that file and stops: the charts of
    the columns before it stay written, those after it are never drawn. *)
Theorem create_visuals_write_failure (env : Env) (df : DataFrame) (w : World)
    (stages : list Cell) (pre : list pystr) (c : pystr) (post : list pystr) :
  well_formed df -> plottable df ->
  df_column df (u "Life Cycle Stage") = Some stages ->
  tail (df_columns df) = pre ++ c :: post ->
  (forall c', In c' pre -> can_write env (chart_file c') = true) ->
  can_write env (chart_file c) = false ->
  exists w',
    create_visuals env df w = (Raise (OSError (chart_file c)), w')
    /\ w' = fold_left (draw_chart df stages) pre w
    /\ (forall p, ~ In p (List.map chart_file pre) -> files w' !! p = files w !! p)
    /\ (forall c', In c' pre -> exists fig, files w' !! chart_file c' = Some (ImageFile fig)).
Proof.
  intros _ _ Hst Htail Hpre Hc. eexists. split; [|split; [reflexivity|split]].
  - rewrite create_visuals_loop, Htail.
    apply (chart_loop_write_failure env df stages pre c post [] w Hst);
      [|exact Hpre|exact Hc].
    intros c' Hin. apply in_tail. now rewrite Htail.
  - intros p Hp. now apply draw_charts_elsewhere.
  - intros c' Hin.
    destruct (for_each pre (chart_step env df) [] w) as [r w1] eqn:Hloop.
    assert (Hrun := Hloop).
    rewrite (chart_loop_returns env df stages pre [] w Hst) in Hrun.
    + injection Hrun as <- <-.
      apply chart_loop_effects in Hloop as (_ & _ & _ & _ & Hret).
      destruct (Hret _ eq_refl) as [_ Himg]. apply Himg.
      now apply in_map.
    + intros c0 H0. apply in_tail. rewrite Htail. apply in_or_app. now left.
    + exact Hpre.
Qed.

Lemma create_visuals_write_failure_witness :
  exists w',
    create_visuals
      (demo_env_of (Return []) [] (Raise (OtherError []))
         (fun p => negb (bool_decide (p = u "GHG_Emissions_(kg_CO2-eq).png"))))
      demo_inventory demo_world
    = (Raise (OSError (u "GHG_Emissions_(kg_CO2-eq).png")), w')
    /\ exists fig, files w' !! u "Energy_Use_(MJ).png" = Some (ImageFile fig).
Proof.
  assert (Hst : df_column demo_inventory (u "Life Cycle Stage")
                = Some [ CStr (u "Materials"); CStr (u "Manufacturing");
                         CStr (u "Use Phase"); CStr (u "End-of-Life") ])
    by (vm_compute; reflexivity).
  destruct (create_visuals_write_failure
              (demo_env_of (Return []) [] (Raise (OtherError []))
                 (fun p => negb (bool_decide (p = u "GHG_Emissions_(kg_CO2-eq).png"))))
              demo_inventory demo_world _
              [u "Energy Use (MJ)"] (u "GHG Emissions (kg CO2-eq)")
              [u "Water Use (L)"] demo_inventory_well_formed
              demo_inventory_plottable Hst)
    as (w' & Hrun & _ & _ & Himg).
  - vm_compute. reflexivity.
  - intros c' [<-|[]]. vm_compute. reflexivity.
  - vm_compute. reflexivity.
  - exists w'. split; [exact Hrun|]. apply (Himg (u "Energy Use (MJ)")). now left.
Defined.

(** ** Narrative generator, whatever the completion call does *)

Lemma generate_ai_section_outcome (env : Env) (client : option OpenAI)
    (prompt product : pystr) (w : World) :
  generate_ai_section env client prompt product w
  = (narrative_outcome env client prompt product,
     narrated client product [prompt] w).
Proof.
  unfold generate_ai_section, narrative_outcome, narrated.
  destruct client as [c|]; [|reflexivity].
  unfold try_except, bind, emit, lift. cbn [fold_left].
  destruct (chat_completions_create env c (chat_request prompt product))
    as [response|e].
  - destruct (choices response); reflexivity.
  - destruct (is_openai_error e); reflexivity.
Qed.

(** X5. With a client, when the completion call answers with at least one
    choice, the narrative generator returns the text of the first choice.
    The one outbound call asks the model [gpt-4-turbo] at temperature 0.7
    with a fixed system message and a user message that names the section
    and the product. *)
Theorem generate_ai_section_answer (env : Env) (c : OpenAI)
    (prompt product : pystr) (w : World) (first : Choice) (others : list Choice) :
  chat_completions_create env c (chat_request prompt product)
  = Return {| choices := first :: others |} ->
  generate_ai_section env (Some c) prompt product w
  = (Return (content (message first)),
     called w
       (ChatCall
          {| req_model := u "gpt-4-turbo";
             req_messages :=
               [ (u "system",
                  u "You are a sustainability analyst writing ISO-style LCA reports.");
                 (u "user",
                  u "Write the '" ++ prompt
                    ++ u "' section for a life cycle assessment of a "
                    ++ product ++ u ".") ];
             req_temperature := 7 # 10 |})).
Proof.
  intros Hcall. rewrite generate_ai_section_outcome.
  unfold narrative_outcome. now rewrite Hcall.
Qed.

Lemma generate_ai_section_answer_witness :
  generate_ai_section
    (demo_env_of (Return []) [] (Return (demo_reply (u "A kettle boils water.")))
       (fun _ => true))
    (Some demo_client) (u "1. Introduction") (u "Kettle") demo_world
  = (Return (u "A kettle boils water."),
     called demo_world (ChatCall (chat_request (u "1. Introduction") (u "Kettle")))).
Proof.
  exact (generate_ai_section_answer
           (demo_env_of (Return []) [] (Return (demo_reply (u "A kettle boils water.")))
              (fun _ => true))
           demo_client (u "1. Introduction") (u "Kettle") demo_world
           {| message := {| content := u "A kettle boils water." |} |} [] eq_refl).
Defined.

(** X6. The narrative generator recovers from API errors only.  An answer
    without any choice raises [IndexError] out of it, and any other
    exception of the completion call passes through unchanged; in both
    cases the call has gone out. *)
Theorem generate_ai_section_other_failures (env : Env) (c : OpenAI)
    (prompt product : pystr) (w : World) :
  (chat_completions_create env c (chat_request prompt product)
   = Return {| choices := [] |} ->
   generate_ai_section env (Some c) prompt product w
   = (Raise IndexError, called w (ChatCall (chat_request prompt product))))
  /\ (forall e,
        chat_completions_create env c (chat_request prompt product) = Raise e ->
        is_openai_error e = false ->
        generate_ai_section env (Some c) prompt product w
        = (Raise e, called w (ChatCall (chat_request prompt product)))).
Proof.
  split.
  - intros Hcall. rewrite generate_ai_section_outcome.
    unfold narrative_outcome. now rewrite Hcall.
  - intros e Hcall He. rewrite generate_ai_section_outcome.
    unfold narrative_outcome. now rewrite Hcall, He.
Qed.

Lemma generate_ai_section_other_failures_witness :
  generate_ai_section
    (demo_env_of (Return []) [] (Return {| choices := [] |}) (fun _ => true))
    (Some demo_client) (u "1. Introduction") (u "Kettle") demo_world
  = (Raise IndexError,
     called demo_world (ChatCall (chat_request (u "1. Introduction") (u "Kettle"))))
  /\ generate_ai_section
       (demo_env_of (Return []) [] (Raise (ValueError (u "bad request")))
          (fun _ => true))
       (Some demo_client) (u "1. Introduction") (u "Kettle") demo_world
     = (Raise (ValueError (u "bad request")),
        called demo_world (ChatCall (chat_request (u "1. Introduction") (u "Kettle")))).
Proof.
  split.
  - exact (proj1 (generate_ai_section_other_failures
                    (demo_env_of (Return []) [] (Return {| choices := [] |})
                       (fun _ => true))
                    demo_client (u "1. Introduction") (u "Kettle") demo_world)
             eq_refl).
  - exact (proj2 (generate_ai_section_other_failures
                    (demo_env_of (Return []) [] (Raise (ValueError (u "bad request")))
                       (fun _ => true))
                    demo_client (u "1. Introduction") (u "Kettle") demo_world)
             (ValueError (u "bad request")) eq_refl eq_refl).
Defined.

(** X7. Whatever the client, the inputs and the answer, the narrative
    generator writes no file and draws no random number; it makes no
    outbound call without a client and exactly one completion call with
    one; and what it raises, if anything, is never an API error. *)
Theorem generate_ai_section_effects (env : Env) (client : option OpenAI)
    (prompt product : pystr) (w : World) (r : Result pystr) (w' : World) :
  generate_ai_section env client prompt product w = (r, w') ->
  files w' = files w
  /\ rng w' = rng w
  /\ (client = None -> network w' = network w)
  /\ (client <> None ->
      network w' = network w ++ [ChatCall (chat_request prompt product)])
  /\ (forall e, r = Raise e -> is_openai_error e = false).
Proof.
  rewrite generate_ai_section_outcome. intros [= <- <-].
  unfold narrated, narrative_outcome. destruct client as [c|].
  - cbn [fold_left called files rng network].
    split; [reflexivity|]. split; [reflexivity|]. split; [discriminate|].
    split; [reflexivity|]. intros e.
    destruct (chat_completions_create env c (chat_request prompt product))
      as [response|e0].
    + destruct (choices response); [intros [= <-]; reflexivity|discriminate].
    + destruct (is_openai_error e0) eqn:He0; [discriminate|now intros [= <-]].
  - split; [reflexivity|]. split; [reflexivity|]. split; [reflexivity|].
    split; [congruence|]. discriminate.
Qed.

Lemma generate_ai_section_effects_witness :
  exists r w',
    generate_ai_section demo_env (Some demo_client) (u "9. Limitations")
      (u "Kettle") demo_world = (r, w')
    /\ files w' = files demo_world
    /\ network w' = [ChatCall (chat_request (u "9. Limitations") (u "Kettle"))].
Proof.
  eexists _, _. split; [reflexivity|].
  destruct (generate_ai_section_effects demo_env (Some demo_client)
              (u "9. Limitations") (u "Kettle") demo_world _ _ eq_refl)
    as (Hfiles & _ & _ & Hnet & _).
  split; [exact Hfiles|]. apply Hnet. discriminate.
Defined.

(** ** Web fetcher, whatever the answer *)

Lemma replace_without (old new : N) (s : pystr) :
  old <> new -> ~ In old (Py.replace old new s).
Proof.
  intros Hne Hin. unfold Py.replace in Hin. apply in_map_iff in Hin as (c & Hc & _).
  destruct (c =? old)%N eqn:Heq; [congruence|].
  apply N.eqb_neq in Heq. congruence.
Qed.

(** X8. What the web fetcher returns is never blank: either the joined
    text, kept only if something but white space is in it, or the
    fallback sentence, which is not blank for any product name. *)
Theorem scrape_product_data_not_blank (env : Env) (product : pystr) (w : World)
    (text : pystr) (w' : World) :
  scrape_product_data env product w = (Return text, w') ->
  Py.strip text <> [] /\ text <> [].
Proof.
  unfold scrape_product_data, bind, emit, lift.
  destruct (requests_get env (search_url product) search_headers) as [markup|e];
    [|discriminate].
  set (combined := Py.join (u " ") _).
  set (fallback := u "No public data found for " ++ product ++ u ".").
  intros Hrun.
  assert (Htext : text = if Py.truthy (Py.strip combined) then combined else fallback).
  { apply (f_equal fst) in Hrun. cbn [fst] in Hrun.
    exact (f_equal (fun r => match r with Return t => t | Raise _ => text end)
             (eq_sym Hrun)). }
  clear Hrun.
  assert (Hstrip : Py.strip text <> []).
  { rewrite Htext. destruct (Py.strip combined) eqn:Hc; cbn [Py.truthy].
    - intros Hblank. apply strip_blank in Hblank. discriminate Hblank.
    - now rewrite Hc. }
  split; [exact Hstrip|]. intros Hnil. apply Hstrip. now rewrite Hnil.
Qed.

Lemma scrape_product_data_not_blank_witness :
  exists text w',
    scrape_product_data
      (demo_env_of (Return (u "<html>")) [ {| get_text := u "  " |} ]
         (Raise (OtherError [])) (fun _ => true))
      (u "Kettle") demo_world = (Return text, w')
    /\ Py.strip text <> [].
Proof.
  eexists _, _. split; [reflexivity|].
  exact (proj1 (scrape_product_data_not_blank
                  (demo_env_of (Return (u "<html>")) [ {| get_text := u "  " |} ]
                     (Raise (OtherError [])) (fun _ => true))
                  (u "Kettle") demo_world _ _ eq_refl)).
Defined.

(** X9. None of the names built by replacing spaces has a space left in
    it, whatever the product or the column label: not the search URL, not
    a chart file, not the report file. *)
Theorem derived_names_have_no_space (name : pystr) :
  ~ In 32%N (search_url name)
  /\ ~ In 32%N (chart_file name)
  /\ ~ In 32%N (report_filename name).
Proof.
  unfold search_url, chart_file, report_filename.
  repeat split; intros Hin;
    repeat (apply in_app_or in Hin as [Hin|Hin]);
    try (apply replace_without in Hin; [exact Hin|discriminate]);
    apply list_elem_of_In in Hin; revert Hin;
    apply (bool_decide_unpack _); vm_compute; exact I.
Qed.

(** X10. Whatever the answer, the web fetcher makes exactly one outbound
    request, the search request, and touches no file; it raises exactly
    when the request raises, and then the same exception. *)
Theorem scrape_product_data_effects (env : Env) (product : pystr) (w : World)
    (r : Result pystr) (w' : World) :
  scrape_product_data env product w = (r, w') ->
  w' = called w (HttpGet (search_url product) search_headers)
  /\ files w' = files w
  /\ network w' = network w ++ [HttpGet (search_url product) search_headers]
  /\ (forall e, r = Raise e
                <-> requests_get env (search_url product) search_headers = Raise e).
Proof.
  unfold scrape_product_data, bind, emit, lift.
  destruct (requests_get env (search_url product) search_headers) as [markup|e0];
    intros [= <- <-]; repeat split; try reflexivity;
    try discriminate; congruence.
Qed.

Lemma scrape_product_data_effects_witness :
  exists w',
    scrape_product_data
      (demo_env_of (Raise (RequestException (u "connection refused"))) []
         (Raise (OtherError [])) (fun _ => true))
      (u "Kettle") demo_world
    = (Raise (RequestException (u "connection refused")), w')
    /\ network w' = [HttpGet (search_url (u "Kettle")) search_headers].
Proof.
  eexists. split; [reflexivity|].
  exact (proj1 (proj2 (proj2 (scrape_product_data_effects
                                (demo_env_of
                                   (Raise (RequestException (u "connection refused")))
                                   [] (Raise (OtherError [])) (fun _ => true))
                                (u "Kettle") demo_world _ _ eq_refl)))).
Defined.

(** ** Document assembler: failures, effects and structure *)

(** X11. Assembly fails on the first of these, in this order, and then
    leaves the world as it was: a key missing among the summary and the
    four front sections; a chart that cannot be embedded, even when a key
    of the three back sections is missing too; a key missing among the
    three back sections; a report file that cannot be written. *)
Theorem create_report_failure_order
    (env : Env) (product : pystr) (df : DataFrame) (charts : list pystr)
    (web_data : pystr) (ai_sections : gmap pystr pystr) (w : World) :
  let front := u "Executive Summary" :: front_sections in
  let run := create_report env product df charts web_data ai_sections w in
  (forall k, first_missing ai_sections front = Some k ->
             run = (Raise (KeyError k), w))
  /\ (forall e, first_missing ai_sections front = None ->
                first_unreadable w charts = Some e ->
                run = (Raise e, w))
  /\ (forall k, first_missing ai_sections front = None ->
                first_unreadable w charts = None ->
                first_missing ai_sections back_sections = Some k ->
                run = (Raise (KeyError k), w))
  /\ (first_missing ai_sections front = None ->
      first_unreadable w charts = None ->
      first_missing ai_sections back_sections = None ->
      can_write env (report_filename product) = false ->
      run = (Raise (OSError (report_filename product)), w)).
Proof.
  intros front run. subst front run. rewrite create_report_run.
  split; [|split; [|split]].
  - intros k ->. reflexivity.
  - intros e -> ->. reflexivity.
  - intros k -> -> ->. reflexivity.
  - intros -> -> -> ->. reflexivity.
Qed.

Lemma create_report_failure_order_witness :
  create_report demo_env (u "Kettle") [] [u "missing.png"] (u "none")
    (delete (u "8. Interpretation") demo_sections) demo_world
  = (Raise (OSError (u "missing.png")), demo_world).
Proof.
  apply (proj1 (proj2 (create_report_failure_order demo_env (u "Kettle") []
                         [u "missing.png"] (u "none")
                         (delete (u "8. Interpretation") demo_sections)
                         demo_world))).
  - vm_compute. reflexivity.
  - vm_compute. reflexivity.
Defined.

(** X12. Whatever the inputs, assembly makes no outbound call and draws no
    random number, and no file but the report file changes.  When it
    raises, nothing changed at all; when it returns, it returns the report
    file name and that file now holds the assembled document, whatever
    was there before. *)
Theorem create_report_effects
    (env : Env) (product : pystr) (df : DataFrame) (charts : list pystr)
    (web_data : pystr) (ai_sections : gmap pystr pystr) (w : World)
    (r : Result pystr) (w' : World) :
  create_report env product df charts web_data ai_sections w = (r, w') ->
  network w' = network w
  /\ rng w' = rng w
  /\ (forall p, p <> report_filename product -> files w' !! p = files w !! p)
  /\ (forall e, r = Raise e -> w' = w)
  /\ (forall path, r = Return path ->
        path = report_filename product
        /\ files w' !! path
           = Some (DocxFile (report_document env product df charts web_data
                               ai_sections))).
Proof.
  rewrite create_report_run.
  destruct (first_missing ai_sections _);
    [intros [= <- <-]; repeat split; try reflexivity; discriminate|].
  destruct (first_unreadable w charts);
    [intros [= <- <-]; repeat split; try reflexivity; discriminate|].
  destruct (first_missing ai_sections _);
    [intros [= <- <-]; repeat split; try reflexivity; discriminate|].
  destruct (can_write env (report_filename product));
    [|intros [= <- <-]; repeat split; try reflexivity; discriminate].
  intros [= <- <-]. unfold saved. cbn [network rng files].
  split; [reflexivity|]. split; [reflexivity|]. split; [|split].
  - intros p Hp. now apply lookup_insert_ne.
  - discriminate.
  - intros path [= <-]. split; [reflexivity|]. apply lookup_insert_eq.
Qed.

Lemma create_report_effects_witness :
  let w' := saved demo_world (report_filename (u "Kettle"))
              (DocxFile (report_document demo_env (u "Kettle") demo_inventory
                           [] (u "none") demo_sections)) in
  network w' = network demo_world
  /\ files w' !! u "Energy_Use_(MJ).png"
     = files demo_world !! u "Energy_Use_(MJ).png".
Proof.
  intros w'.
  destruct (create_report_effects demo_env (u "Kettle") demo_inventory []
              (u "none") demo_sections demo_world
              (Return (report_filename (u "Kettle"))) w')
    as (Hnet & _ & Hfiles & _ & _).
  - apply (create_report_returns demo_env (u "Kettle") demo_inventory []
             (u "none") demo_sections demo_world demo_sections_complete
             (List.Forall_nil _) eq_refl).
  - split; [exact Hnet|]. apply Hfiles. vm_compute. discriminate.
Defined.

(** ** The saved document *)

Lemma headings_app (level : nat) (d1 d2 : Document) :
  headings level (d1 ++ d2) = headings level d1 ++ headings level d2.
Proof. apply omap_app. Qed.

Lemma paragraphs_app (d1 d2 : Document) :
  paragraphs (d1 ++ d2) = paragraphs d1 ++ paragraphs d2.
Proof. apply omap_app. Qed.

Lemma tables_app (d1 d2 : Document) : tables (d1 ++ d2) = tables d1 ++ tables d2.
Proof. apply omap_app. Qed.

Lemma page_breaks_app (d1 d2 : Document) :
  page_breaks (d1 ++ d2) = (page_breaks d1 + page_breaks d2)%nat.
Proof. unfold page_breaks. now rewrite List.filter_app, length_app. Qed.

Lemma chart_blocks_plain (charts : list pystr) (level : nat) :
  headings level (chart_blocks charts) = []
  /\ tables (chart_blocks charts) = []
  /\ page_breaks (chart_blocks charts) = 0%nat.
Proof.
  induction charts as [|c charts (IH1 & IH2 & IH3)]; [now repeat split|].
  repeat split; assumption.
Qed.

Lemma narrative_blocks_outline (ai_sections : gmap pystr pystr)
    (labels : list pystr) :
  headings 0 (narrative_blocks ai_sections labels) = []
  /\ headings 1 (narrative_blocks ai_sections labels) = labels
  /\ tables (narrative_blocks ai_sections labels) = []
  /\ page_breaks (narrative_blocks ai_sections labels) = length labels.
Proof.
  induction labels as [|k labels (IH0 & IH1 & IH2 & IH3)]; [now repeat split|].
  split; [exact IH0|]. split; [|split; [exact IH2|]].
  - change (k :: headings 1 (narrative_blocks ai_sections labels) = k :: labels).
    now rewrite IH1.
  - change (S (page_breaks (narrative_blocks ai_sections labels))
            = S (length labels)).
    now rewrite IH3.
Qed.

Lemma report_document_parts (env : Env) (product : pystr) (df : DataFrame)
    (charts : list pystr) (web_data : pystr) (ai_sections : gmap pystr pystr) :
  report_document env product df charts web_data ai_sections
  = ([ Heading (u "LCA Report for: " ++ product) 0;
       Paragraph (u "Date: " ++ date_today env) None;
       Paragraph confidential (Some AlignRight);
       PageBreak;
       Heading (u "Table of Contents") 1 ]
     ++ List.map (fun section => Paragraph section None) toc
     ++ [ PageBreak;
          Heading (u "Executive Summary") 1;
          Paragraph (default [] (ai_sections !! u "Executive Summary")) None;
          PageBreak ])
    ++ narrative_blocks ai_sections front_sections
    ++ [ Heading (u "5. Web-Sourced Product Information") 1;
         Paragraph web_data None;
         PageBreak;
         Heading (u "6. Inventory Analysis") 1;
         Table (u "Table Grid") (table_rows df);
         PageBreak;
         Heading (u "7. LCIA with Charts") 1 ]
    ++ chart_blocks charts
    ++ [ PageBreak ]
    ++ narrative_blocks ai_sections back_sections
    ++ [ Heading (u "Appendix A: Glossary") 1;
         Paragraph glossary None;
         PageBreak;
         Heading (u "Appendix B: References") 1;
         Paragraph references None;
         PageBreak ].
Proof. unfold report_document, chart_blocks. now rewrite <- !app_assoc. Qed.

(** What assembly saved, when it returned. *)
Lemma create_report_saved (env : Env) (product : pystr) (df : DataFrame)
    (charts : list pystr) (web_data : pystr) (ai_sections : gmap pystr pystr)
    (w : World) (path : pystr) (w' : World) :
  create_report env product df charts web_data ai_sections w = (Return path, w') ->
  files w' !! path
  = Some (DocxFile (report_document env product df charts web_data ai_sections)).
Proof.
  rewrite create_report_run.
  destruct (first_missing ai_sections _); [discriminate|].
  destruct (first_unreadable w charts); [discriminate|].
  destruct (first_missing ai_sections _); [discriminate|].
  destruct (can_write env (report_filename product)); [|discriminate].
  intros [= <- <-]. apply lookup_insert_eq.
Qed.

(** X13. In the document a successful assembly saves, the title is the
    only heading of level 0, and the headings of level 1 are
    "Table of Contents" followed by the thirteen entries listed under it,
    in the same order: the table of contents names exactly the sections
    that follow.  The document has fifteen page breaks and ends on one. *)
Theorem create_report_outline
    (env : Env) (product : pystr) (df : DataFrame) (charts : list pystr)
    (web_data : pystr) (ai_sections : gmap pystr pystr) (w : World)
    (path : pystr) (w' : World) :
  create_report env product df charts web_data ai_sections w = (Return path, w') ->
  exists doc,
    files w' !! path = Some (DocxFile doc)
    /\ headings 0 doc = [u "LCA Report for: " ++ product]
    /\ headings 1 doc = u "Table of Contents" :: toc
    /\ (exists rest,
          paragraphs doc
          = [u "Date: " ++ date_today env; confidential] ++ toc ++ rest)
    /\ page_breaks doc = 15%nat
    /\ last doc = Some PageBreak.
Proof.
  intros Hrun. eexists. split; [exact (create_report_saved _ _ _ _ _ _ _ _ _ Hrun)|].
  rewrite report_document_parts.
  destruct (narrative_blocks_outline ai_sections front_sections)
    as (Hf0 & Hf1 & _ & Hfb).
  destruct (narrative_blocks_outline ai_sections back_sections)
    as (Hb0 & Hb1 & _ & Hbb).
  destruct (chart_blocks_plain charts 0) as (Hc0 & _ & Hcb).
  destruct (chart_blocks_plain charts 1) as (Hc1 & _ & _).
  split; [|split; [|split; [|split]]].
  - rewrite !headings_app, Hf0, Hb0, Hc0. reflexivity.
  - rewrite !headings_app, Hf1, Hb1, Hc1. reflexivity.
  - eexists. rewrite paragraphs_app. reflexivity.
  - rewrite !page_breaks_app, Hfb, Hbb, Hcb. reflexivity.
  - apply last_Some. eexists. rewrite !app_assoc.
    change (?l ++ [?a; ?b; ?c; ?d; ?e; PageBreak])
      with (l ++ [a; b; c; d; e] ++ [PageBreak]).
    rewrite !app_assoc. reflexivity.
Qed.

Lemma create_report_outline_witness :
  exists doc w',
    create_report demo_env (u "Kettle") demo_inventory [] (u "none")
      demo_sections demo_world
    = (Return (report_filename (u "Kettle")), w')
    /\ files w' !! report_filename (u "Kettle") = Some (DocxFile doc)
    /\ headings 1 doc = u "Table of Contents" :: toc
    /\ page_breaks doc = 15%nat.
Proof.
  pose proof (create_report_returns demo_env (u "Kettle") demo_inventory []
                (u "none") demo_sections demo_world demo_sections_complete
                (List.Forall_nil _) eq_refl) as Hrun.
  destruct (create_report_outline _ _ _ _ _ _ _ _ _ Hrun)
    as (doc & Hfile & _ & Hh1 & _ & Hpb & _).
  exists doc. eexists. split; [exact Hrun|]. split; [exact Hfile|].
  split; [exact Hh1|exact Hpb].
Defined.

Lemma figures_after_app (prev : option Block) (d1 d2 : Document) :
  figures_after prev (d1 ++ d2)
  = figures_after prev d1
    ++ figures_after (match last d1 with Some b => Some b | None => prev end) d2.
Proof.
  revert prev. induction d1 as [|b d1 IH]; intros prev; [reflexivity|].
  assert (Hlast : match last (b :: d1) with Some b' => Some b' | None => prev end
                  = match last d1 with Some b' => Some b' | None => Some b end).
  { destruct d1 as [|b' d1]; [reflexivity|]. rewrite last_cons_cons.
    destruct (last (b' :: d1)) eqn:Hl; [reflexivity|].
    apply last_None in Hl. discriminate. }
  rewrite Hlast. cbn [app figures_after].
  destruct b; rewrite IH; reflexivity.
Qed.

Lemma figures_after_none (prev : option Block) (doc : Document) :
  pictures doc = [] -> figures_after prev doc = [].
Proof.
  revert prev. induction doc as [|b doc IH]; intros prev Hp; [reflexivity|].
  destruct b; try discriminate; cbn [figures_after]; apply IH; exact Hp.
Qed.

Lemma figures_after_chart_blocks (prev : option Block) (charts : list pystr) :
  figures_after prev (chart_blocks charts)
  = List.map (fun chart => (Some (chart_caption chart), chart, 11 # 2)%Q) charts.
Proof.
  revert prev. induction charts as [|c charts IH]; intros prev; [reflexivity|].
  change (chart_blocks (c :: charts))
    with (Paragraph (chart_caption c) None :: Picture c (11 # 2)
            :: chart_blocks charts).
  cbn [figures_after List.map]. now rewrite IH.
Qed.

Lemma narrative_blocks_pictures (ai_sections : gmap pystr pystr)
    (labels : list pystr) :
  pictures (narrative_blocks ai_sections labels) = [].
Proof. induction labels as [|k labels IH]; [reflexivity|exact IH]. Qed.

Lemma pictures_app (d1 d2 : Document) :
  pictures (d1 ++ d2) = pictures d1 ++ pictures d2.
Proof. apply omap_app. Qed.

(** X14. In the document a successful assembly saves, the pictures are the
    given charts, in the given order and each 5.5 inches wide, and the
    block right before each picture is the paragraph with the caption
    derived from that chart's file name. *)
Theorem create_report_figures
    (env : Env) (product : pystr) (df : DataFrame) (charts : list pystr)
    (web_data : pystr) (ai_sections : gmap pystr pystr) (w : World)
    (path : pystr) (w' : World) :
  create_report env product df charts web_data ai_sections w = (Return path, w') ->
  exists doc,
    files w' !! path = Some (DocxFile doc)
    /\ figures doc
       = List.map (fun chart => (Some (chart_caption chart), chart, 11 # 2)%Q)
           charts.
Proof.
  intros Hrun. eexists. split; [exact (create_report_saved _ _ _ _ _ _ _ _ _ Hrun)|].
  rewrite report_document_parts. unfold figures.
  rewrite figures_after_app, (figures_after_none _ (_ ++ _ ++ _)) by reflexivity.
  rewrite figures_after_app,
    (figures_after_none _ (narrative_blocks _ _))
    by apply narrative_blocks_pictures.
  rewrite figures_after_app, (figures_after_none _ [_; _; _; _; _; _; _])
    by reflexivity.
  rewrite figures_after_app, figures_after_chart_blocks.
  rewrite figures_after_none; [now rewrite app_nil_r|].
  rewrite !pictures_app, narrative_blocks_pictures. reflexivity.
Qed.

Lemma create_report_figures_witness :
  let charts := [ u "Energy_Use_(MJ).png"; u "Water_Use_(L).png" ] in
  let w := saved (saved demo_world (u "Energy_Use_(MJ).png")
                    (ImageFile {| fig_x := []; fig_heights := [];
                                  fig_color := []; fig_title := [] |}))
             (u "Water_Use_(L).png")
             (ImageFile {| fig_x := []; fig_heights := [];
                           fig_color := []; fig_title := [] |}) in
  exists doc,
    figures doc
    = [ (Some (u "Figure: Energy Use (Mj)"), u "Energy_Use_(MJ).png", 11 # 2)%Q;
        (Some (u "Figure: Water Use (L)"), u "Water_Use_(L).png", 11 # 2)%Q ].
Proof.
  intros charts w.
  assert (Hrun : create_report demo_env (u "Kettle") demo_inventory charts
                   (u "none") demo_sections w
                 = (Return (report_filename (u "Kettle")),
                    saved w (report_filename (u "Kettle"))
                      (DocxFile (report_document demo_env (u "Kettle")
                                   demo_inventory charts (u "none")
                                   demo_sections)))).
  { apply (create_report_returns demo_env (u "Kettle") demo_inventory charts
             (u "none") demo_sections w demo_sections_complete);
      [|reflexivity].
    repeat constructor; eexists; vm_compute; reflexivity. }
  destruct (create_report_figures _ _ _ _ _ _ _ _ _ Hrun) as (doc & _ & Hfig).
  exists doc. rewrite Hfig. vm_compute. reflexivity.
Defined.

Lemma length_iterrows (df : DataFrame) : length (iterrows df) = df_nrows df.
Proof. unfold iterrows. now rewrite length_map, length_seq. Qed.

Lemma report_document_tables (env : Env) (product : pystr) (df : DataFrame)
    (charts : list pystr) (web_data : pystr) (ai_sections : gmap pystr pystr) :
  tables (report_document env product df charts web_data ai_sections)
  = [(u "Table Grid", table_rows df)].
Proof.
  rewrite report_document_parts.
  destruct (narrative_blocks_outline ai_sections front_sections)
    as (_ & _ & Hf & _).
  destruct (narrative_blocks_outline ai_sections back_sections)
    as (_ & _ & Hb & _).
  destruct (chart_blocks_plain charts 0) as (_ & Hc & _).
  rewrite !tables_app, Hf, Hb, Hc. reflexivity.
Qed.

Lemma chart_blocks_pictures (charts : list pystr) :
  pictures (chart_blocks charts) = charts.
Proof.
  induction charts as [|c charts IH]; [reflexivity|].
  change (c :: pictures (chart_blocks charts) = c :: charts). now rewrite IH.
Qed.

Lemma report_document_pictures (env : Env) (product : pystr) (df : DataFrame)
    (charts : list pystr) (web_data : pystr) (ai_sections : gmap pystr pystr) :
  pictures (report_document env product df charts web_data ai_sections) = charts.
Proof.
  rewrite report_document_parts.
  rewrite !pictures_app, !narrative_blocks_pictures, chart_blocks_pictures.
  change (charts ++ [] = charts). apply app_nil_r.
Qed.

(** X15. For any frame, the document a successful assembly saves holds
    exactly one table, in the style "Table Grid".  It has one row more
    than the frame, every row has one cell per column of the frame, the
    first row holds the column labels, and below it a text cell of the
    frame appears unchanged. *)
Theorem create_report_table_shape
    (env : Env) (product : pystr) (df : DataFrame) (charts : list pystr)
    (web_data : pystr) (ai_sections : gmap pystr pystr) (w : World)
    (path : pystr) (w' : World) :
  create_report env product df charts web_data ai_sections w = (Return path, w') ->
  exists doc rows,
    files w' !! path = Some (DocxFile doc)
    /\ tables doc = [(u "Table Grid", rows)]
    /\ length rows = S (df_nrows df)
    /\ Forall (fun row => length row = length (df_columns df)) rows
    /\ rows !! 0%nat = Some (df_columns df)
    /\ (forall r c s, (r < df_nrows df)%nat -> df_cell df r c = Some (CStr s) ->
                      table_cell rows (S r) c = Some s).
Proof.
  intros Hrun. exists (report_document env product df charts web_data ai_sections),
    (table_rows df).
  split; [exact (create_report_saved _ _ _ _ _ _ _ _ _ Hrun)|].
  split; [|split; [|split; [|split]]].
  - apply report_document_tables.
  - unfold table_rows. cbn [length]. now rewrite length_map, length_iterrows.
  - unfold table_rows. constructor; [reflexivity|].
    apply List.Forall_forall. intros row Hin.
    apply in_map_iff in Hin as (cells & <- & Hin).
    rewrite length_map. unfold df_columns. rewrite length_map.
    pose proof (iterrows_lengths df) as Hall.
    rewrite List.Forall_forall in Hall. now apply Hall.
  - reflexivity.
  - intros r c s Hr Hcell. exact (table_rows_cell df r c (CStr s) Hr Hcell).
Qed.

Lemma create_report_table_shape_witness :
  let df : DataFrame :=
    [ (u "Part", [CStr (u "Handle"); CStr (u "Brush head")]);
      (u "Material", [CStr (u "ABS"); CStr (u "Nylon")]) ] in
  exists rows,
    length rows = 3%nat
    /\ rows !! 0%nat = Some [u "Part"; u "Material"]
    /\ table_cell rows 2 1 = Some (u "Nylon").
Proof.
  intros df.
  pose proof (create_report_returns demo_env (u "Kettle") df []
                (u "none") demo_sections demo_world demo_sections_complete
                (List.Forall_nil _) eq_refl) as Hrun.
  destruct (create_report_table_shape _ _ _ _ _ _ _ _ _ Hrun)
    as (doc & rows & _ & _ & Hlen & _ & Hhdr & Hstr).
  exists rows. split; [exact Hlen|]. split; [exact Hhdr|].
  apply (Hstr 1%nat 1%nat (u "Nylon")); [vm_compute; lia|reflexivity].
Defined.

(** ** The file names *)

Lemma split_head_replace (s t : pystr) :
  Py.split_head 46 (Py.replace 32 95 s ++ 46%N :: t)
  = Py.replace 32 95 (Py.split_head 46 s).
Proof.
  induction s as [|c s IH].
  - cbn [Py.replace List.map app Py.split_head]. reflexivity.
  - change (Py.replace 32 95 (c :: s))
      with ((if N.eqb c 32 then 95%N else c) :: Py.replace 32 95 s).
    cbn [app Py.split_head].
    destruct (N.eqb_spec c 32) as [->|H32].
    + cbn [N.eqb Pos.eqb]. rewrite IH. reflexivity.
    + destruct (N.eqb_spec c 46) as [->|H46]; [reflexivity|].
      rewrite IH.
      change (Py.replace 32 95 (c :: Py.split_head 46 s))
        with ((if N.eqb c 32 then 95%N else c)
                :: Py.replace 32 95 (Py.split_head 46 s)).
      destruct (N.eqb_spec c 32); [contradiction|reflexivity].
Qed.

Lemma split_head_chart_file (column : pystr) :
  Py.split_head 46 (chart_file column)
  = Py.replace 32 95 (Py.split_head 46 column).
Proof. exact (split_head_replace column (u "png")). Qed.

Lemma replace_back (s : pystr) :
  Py.replace 95 32 (Py.replace 32 95 s) = Py.replace 95 32 s.
Proof.
  unfold Py.replace. rewrite List.map_map. apply List.map_ext. intros c.
  destruct (N.eqb_spec c 32) as [->|H32]; [reflexivity|].
  reflexivity.
Qed.

Lemma replace_absent (old new : N) (s : pystr) :
  ~ In old s -> Py.replace old new s = s.
Proof.
  unfold Py.replace. induction s as [|c s IH]; [reflexivity|].
  intros Hin. cbn [List.map].
  destruct (N.eqb_spec c old) as [->|Hc]; [destruct Hin; now left|].
  rewrite IH; [reflexivity|]. intros H. apply Hin. now right.
Qed.

Lemma split_head_absent (sep : N) (s : pystr) :
  ~ In sep s -> Py.split_head sep s = s.
Proof.
  induction s as [|c s IH]; [reflexivity|].
  intros Hin. cbn [Py.split_head].
  destruct (N.eqb_spec c sep) as [->|Hc]; [destruct Hin; now left|].
  rewrite IH; [reflexivity|]. intros H. apply Hin. now right.
Qed.

(** X16. The caption the assembler derives from the file name the chart
    renderer gave a column is "Figure: " followed by the column label cut
    at its first dot, with underscores turned into spaces, in title case.
    For a label without dot and underscore that is the whole label in
    title case (so "Energy Use (MJ)" is captioned "Energy Use (Mj)"). *)
Theorem chart_caption_of_chart_file (column : pystr) :
  chart_caption (chart_file column)
  = u "Figure: " ++ Py.title (Py.replace 95 32 (Py.split_head 46 column))
  /\ (~ In 46%N column -> ~ In 95%N column ->
      chart_caption (chart_file column) = u "Figure: " ++ Py.title column).
Proof.
  assert (H : chart_caption (chart_file column)
              = u "Figure: "
                  ++ Py.title (Py.replace 95 32 (Py.split_head 46 column))).
  { unfold chart_caption. now rewrite split_head_chart_file, replace_back. }
  split; [exact H|].
  intros Hdot Hus. rewrite H, (split_head_absent 46 column Hdot).
  now rewrite (replace_absent 95 32 column Hus).
Qed.

Lemma chart_caption_of_chart_file_witness :
  chart_caption (chart_file (u "Energy Use (MJ)")) = u "Figure: Energy Use (Mj)".
Proof.
  rewrite (proj2 (chart_caption_of_chart_file (u "Energy Use (MJ)"))).
  - vm_compute. reflexivity.
  - apply (bool_decide_unpack _). vm_compute. exact I.
  - apply (bool_decide_unpack _). vm_compute. exact I.
Defined.

Lemma replace_idempotent (old new : N) (s : pystr) :
  old <> new -> Py.replace old new (Py.replace old new s) = Py.replace old new s.
Proof.
  intros Hne. unfold Py.replace. rewrite List.map_map. apply List.map_ext.
  intros c. destruct (N.eqb_spec c old) as [->|Hc].
  - destruct (N.eqb_spec new old); [congruence|reflexivity].
  - destruct (N.eqb_spec c old); [contradiction|reflexivity].
Qed.

(** X17. Two product names get the same report file name exactly when
    they agree once spaces are written as underscores; in particular a
    name and the same name with underscores for spaces share one file,
    while names without underscores get different files unless they are
    equal.  The same holds of column labels and chart file names. *)
Theorem file_names_collide (p q : pystr) :
  (report_filename p = report_filename q
   <-> Py.replace 32 95 p = Py.replace 32 95 q)
  /\ (chart_file p = chart_file q <-> Py.replace 32 95 p = Py.replace 32 95 q)
  /\ report_filename (Py.replace 32 95 p) = report_filename p
  /\ chart_file (Py.replace 32 95 p) = chart_file p
  /\ (~ In 95%N p -> ~ In 95%N q -> report_filename p = report_filename q -> p = q).
Proof.
  assert (Hr : report_filename p = report_filename q
               <-> Py.replace 32 95 p = Py.replace 32 95 q).
  { unfold report_filename. split; [|now intros ->].
    intros H. apply app_inv_head in H. now apply app_inv_tail in H. }
  split; [exact Hr|]. split; [|split; [|split]].
  - unfold chart_file. split; [|now intros ->].
    intros H. now apply app_inv_tail in H.
  - unfold report_filename. now rewrite replace_idempotent.
  - unfold chart_file. now rewrite replace_idempotent.
  - intros Hp Hq H. apply Hr in H. clear Hr. unfold Py.replace in H.
    revert q Hq H. induction p as [|a p IH]; intros [|b q] Hq H;
      try discriminate; [reflexivity|].
    cbn [List.map] in H. injection H as Hab Hrest.
    f_equal.
    + destruct (N.eqb_spec a 32) as [->|Ha], (N.eqb_spec b 32) as [->|Hb];
        try reflexivity; try assumption.
      * destruct Hq. left. now symmetry.
      * destruct Hp. now left.
    + apply IH; [intros Hin; apply Hp; now right| |exact Hrest].
      intros Hin. apply Hq. now right.
Qed.

Lemma file_names_collide_witness :
  report_filename (u "Electric_Toothbrush") = report_filename (u "Electric Toothbrush")
  /\ (report_filename (u "Kettle") = report_filename (u "Kettle")
      -> u "Kettle" = u "Kettle").
Proof.
  split.
  - exact (proj1 (proj2 (proj2 (file_names_collide (u "Electric Toothbrush") [])))).
  - apply (proj2 (proj2 (proj2 (proj2 (file_names_collide (u "Kettle")
                                          (u "Kettle")))))).
    + apply (bool_decide_unpack _). vm_compute. exact I.
    + apply (bool_decide_unpack _). vm_compute. exact I.
Defined.

(** ** One press of the button *)

Lemma narrate_step_run (env : Env) (client : option OpenAI) (product : pystr)
    (acc : gmap pystr pystr) (section : pystr) (w : World) :
  narrate_step env client product acc section w
  = (match narrative_outcome env client section product with
     | Return text => Return (<[section := text]> acc)
     | Raise e => Raise e
     end,
     narrated client product [section] w).
Proof.
  unfold narrate_step, bind. rewrite generate_ai_section_outcome.
  destruct (narrative_outcome env client section product); reflexivity.
Qed.

Lemma narrated_cons (client : option OpenAI) (product : pystr) (k : pystr)
    (labels : list pystr) (w : World) :
  narrated client product (k :: labels) w
  = narrated client product labels (narrated client product [k] w).
Proof. destruct client; reflexivity. Qed.

Lemma narrated_app (client : option OpenAI) (product : pystr)
    (l1 l2 : list pystr) (w : World) :
  narrated client product (l1 ++ l2) w
  = narrated client product l2 (narrated client product l1 w).
Proof.
  destruct client; [|reflexivity]. unfold narrated. apply fold_left_app.
Qed.

Lemma narrated_world (client : option OpenAI) (product : pystr)
    (labels : list pystr) (w : World) :
  files (narrated client product labels w) = files w
  /\ rng (narrated client product labels w) = rng w
  /\ network (narrated client product labels w)
     = network w ++ chat_calls client product labels.
Proof.
  destruct client as [c|]; [|cbn; now rewrite app_nil_r].
  unfold narrated, chat_calls. revert w.
  induction labels as [|k labels IH]; intros w; [cbn; now rewrite app_nil_r|].
  cbn [fold_left List.map]. destruct (IH (called w (ChatCall (chat_request k product))))
    as (Hf & Hr & Hn).
  rewrite Hf, Hr, Hn. cbn [called files rng network].
  now rewrite <- app_assoc.
Qed.

(** The loop over the labels when the narrative generator returns for
    each of them. *)
Lemma narrate_loop_returns (env : Env) (client : option OpenAI)
    (product : pystr) (text : pystr -> pystr) (labels : list pystr)
    (acc : gmap pystr pystr) (w : World) :
  (forall k, In k labels ->
             narrative_outcome env client k product = Return (text k)) ->
  for_each labels (narrate_step env client product) acc w
  = (Return (fold_left (fun m k => <[k := text k]> m) labels acc),
     narrated client product labels w).
Proof.
  revert acc w. induction labels as [|k labels IH]; intros acc w Hall.
  - destruct client; reflexivity.
  - cbn [for_each fold_left]. unfold bind at 1.
    rewrite narrate_step_run, (Hall k (or_introl eq_refl)).
    rewrite IH by (intros k' Hin; apply Hall; now right).
    now rewrite (narrated_cons client product k labels w).
Qed.

(** The loop over the labels when the narrative generator raises for
    one of them: the later labels are not reached. *)
Lemma narrate_loop_raises (env : Env) (client : option OpenAI)
    (product : pystr) (pre : list pystr) (k : pystr) (post : list pystr)
    (e : Exn) (acc : gmap pystr pystr) (w : World) :
  (forall k', In k' pre ->
              exists text, narrative_outcome env client k' product = Return text) ->
  narrative_outcome env client k product = Raise e ->
  for_each (pre ++ k :: post) (narrate_step env client product) acc w
  = (Raise e, narrated client product (pre ++ [k]) w).
Proof.
  revert acc w. induction pre as [|a pre IH]; intros acc w Hpre Hk.
  - cbn [app for_each]. unfold bind at 1. now rewrite narrate_step_run, Hk.
  - cbn [app for_each]. unfold bind at 1. rewrite narrate_step_run.
    destruct (Hpre a (or_introl eq_refl)) as [text ->].
    rewrite IH; [|intros k' Hin; apply Hpre; now right|exact Hk].
    now rewrite (narrated_cons client product a (pre ++ [k]) w).
Qed.

(** Whatever the narrative generator does, the loop only makes the
    outbound calls of an initial stretch of the labels, all of them if
    it returns. *)
Lemma narrate_loop_effects (env : Env) (client : option OpenAI)
    (product : pystr) (labels : list pystr) (acc : gmap pystr pystr)
    (w : World) (r : Result (gmap pystr pystr)) (w' : World) :
  for_each labels (narrate_step env client product) acc w = (r, w') ->
  exists n, w' = narrated client product (take n labels) w.
Proof.
  revert acc w. induction labels as [|k labels IH]; intros acc w.
  - cbn. intros [= <- <-]. exists 0%nat. destruct client; reflexivity.
  - cbn [for_each]. unfold bind at 1. rewrite narrate_step_run.
    destruct (narrative_outcome env client k product) as [text|e].
    + intros Hrun. destruct (IH _ _ Hrun) as [n ->]. exists (S n).
      cbn [take]. now rewrite (narrated_cons client product k (take n labels) w).
    + intros [= <- <-]. exists 1%nat. destruct labels; reflexivity.
Qed.

Lemma ai_sections_loop_steps (env : Env) (client : option OpenAI)
    (product : pystr) :
  ai_sections_loop env client product
  = for_each section_labels (narrate_step env client product) ∅.
Proof. reflexivity. Qed.

(** The table and the charts of one press, in a working directory where
    the three chart files can be written. *)
Lemma inventory_and_charts (env : Env) (w : World) :
  (forall chart, In chart lci_charts -> can_write env chart = true) ->
  exists df w1,
    generate_lci_data env w = (Return df, drawn 12 w)
    /\ create_visuals env df (drawn 12 w) = (Return lci_charts, w1)
    /\ charts_readable w1 lci_charts
    /\ network w1 = network w
    /\ (forall p, ~ In p lci_charts -> files w1 !! p = files w !! p)
    /\ length (table_rows df) = 5%nat
    /\ Forall (fun row => length row = 4%nat) (table_rows df).
Proof.
  intros Hwr.
  destruct (generate_lci_data_run env w)
    as (e1 & e2 & e3 & e4 & g1 & g2 & g3 & g4 & x1 & x2 & x3 & x4 & Hrun & _).
  destruct (create_visuals_lci_table env [e1; e2; e3; e4] [g1; g2; g3; g4]
              [x1; x2; x3; x4] (drawn 12 w)) as (f1 & f2 & f3 & Hcv).
  1-3: apply Hwr; unfold lci_charts, lci_columns; cbn [List.map In]; tauto.
  do 2 eexists. split; [exact Hrun|]. split; [exact Hcv|].
  split; [exact (lci_charts_saved (drawn 12 w) f1 f2 f3)|].
  split; [reflexivity|]. split; [|split; [reflexivity|repeat constructor]].
  intros p Hp. unfold saved, drawn. cbn [files].
  rewrite !lookup_insert_ne; [reflexivity|..];
    intros <-; apply Hp; unfold lci_charts, lci_columns; cbn [List.map In]; tauto.
Qed.

Lemma report_is_no_chart (product : pystr) : ~ In (report_filename product) lci_charts.
Proof.
  intros Hin. unfold lci_charts, lci_columns in Hin. cbn [List.map In] in Hin.
  assert (H : forall s, report_filename product = s -> head s = Some 76%N).
  { intros s <-. reflexivity. }
  destruct Hin as [Hin|[Hin|[Hin|[]]]]; symmetry in Hin;
    apply H in Hin; vm_compute in Hin; discriminate.
Qed.

Lemma narrative_paragraph_in_report (env : Env) (product : pystr)
    (df : DataFrame) (charts : list pystr) (web_data : pystr)
    (ai_sections : gmap pystr pystr) (k : pystr) (text : pystr) :
  In k section_labels -> ai_sections !! k = Some text ->
  In (Paragraph text None)
    (report_document env product df charts web_data ai_sections).
Proof.
  intros Hin Hk. rewrite report_document_parts. rewrite !in_app_iff.
  unfold section_labels in Hin. cbn [In] in Hin.
  destruct Hin as [<-|[Hin|[Hin|[Hin|[Hin|Hin]]]]].
  - left. right. right. rewrite Hk. cbn. tauto.
  - right. left. apply (narrative_blocks_paragraph _ _ k text); [|exact Hk].
    subst k. cbn. tauto.
  - right. left. apply (narrative_blocks_paragraph _ _ k text); [|exact Hk].
    subst k. cbn. tauto.
  - right. left. apply (narrative_blocks_paragraph _ _ k text); [|exact Hk].
    subst k. cbn. tauto.
  - right. left. apply (narrative_blocks_paragraph _ _ k text); [|exact Hk].
    subst k. cbn. tauto.
  - do 5 right. left.
    exact (narrative_blocks_paragraph _ back_sections k text Hin Hk).
Qed.

Lemma fold_insert_lookup (text : pystr -> pystr) (labels : list pystr)
    (acc : gmap pystr pystr) (k : pystr) :
  In k labels ->
  fold_left (fun m k => <[k := text k]> m) labels acc !! k = Some (text k).
Proof.
  induction labels as [|a labels IH] using rev_ind; [intros []|].
  rewrite fold_left_app. cbn [fold_left]. intros Hin.
  destruct (decide (a = k)) as [->|Hne]; [apply lookup_insert_eq|].
  rewrite lookup_insert_ne by exact Hne. apply IH.
  apply in_app_or in Hin as [Hin|[Hin|[]]]; [exact Hin|contradiction].
Qed.

Lemma charts_readable_files (w w' : World) (charts : list pystr) :
  files w' = files w -> charts_readable w charts -> charts_readable w' charts.
Proof. unfold charts_readable. now intros ->. Qed.

(** X18. When the three chart files and the report file can be written,
    the search request is answered and the narrative generator returns a
    text for each of the eight labels (a model answer, the text that
    stands in after an API error, or the text that stands in without a
    client), one press of the button runs to the end.  It hands back the
    report file name with the document just saved under it; the outbound
    calls are the search request followed, with a client, by one
    completion call per label in the order of the labels; and the
    document holds each of the eight texts as a paragraph, the three
    charts as its pictures, and one table of five rows of four cells. *)
Theorem generate_report_completes (env : Env) (client : option OpenAI)
    (product : pystr) (w : World) (markup : pystr) (text : pystr -> pystr) :
  (forall chart, In chart lci_charts -> can_write env chart = true) ->
  can_write env (report_filename product) = true ->
  requests_get env (search_url product) search_headers = Return markup ->
  (forall k, In k section_labels ->
             narrative_outcome env client k product = Return (text k)) ->
  exists doc w',
    generate_report env client product w
    = (Return (report_filename product, DocxFile doc), w')
    /\ files w' !! report_filename product = Some (DocxFile doc)
    /\ network w'
       = network w ++ HttpGet (search_url product) search_headers
           :: chat_calls client product section_labels
    /\ (forall k, In k section_labels -> In (Paragraph (text k) None) doc)
    /\ pictures doc = lci_charts
    /\ (exists rows, tables doc = [(u "Table Grid", rows)]
                     /\ length rows = 5%nat
                     /\ Forall (fun row => length row = 4%nat) rows).
Proof.
  intros Hch Hwr Hget Htext.
  destruct (inventory_and_charts env w Hch)
    as (df & w1 & Hgen & Hcv & Hread & Hnet1 & _ & Hlen & Hall).
  destruct (scrape_product_data_returns env product w1 markup Hget)
    as (web_data & Hweb).
  pose proof (narrate_loop_returns env client product text section_labels ∅
                (called w1 (HttpGet (search_url product) search_headers)) Htext)
    as Hloop.
  set (m := fold_left (fun m k => <[k := text k]> m) section_labels ∅) in Hloop.
  set (w3 := narrated client product section_labels
               (called w1 (HttpGet (search_url product) search_headers))) in Hloop.
  destruct (narrated_world client product section_labels
              (called w1 (HttpGet (search_url product) search_headers)))
    as (Hf3 & _ & Hn3).
  fold w3 in Hf3, Hn3.
  assert (Hm : forall k, In k section_labels -> m !! k = Some (text k)).
  { intros k Hin. now apply fold_insert_lookup. }
  assert (Hkeys : forall k, In k report_keys -> is_Some (m !! k)).
  { intros k Hin. rewrite (Hm k); [eauto|].
    revert Hin. unfold report_keys, front_sections, back_sections, section_labels.
    cbn [app In]. tauto. }
  pose proof (create_report_returns env product df lci_charts web_data m w3
                Hkeys (charts_readable_files _ _ _ Hf3 Hread) Hwr) as Hcr.
  exists (report_document env product df lci_charts web_data m),
    (saved w3 (report_filename product)
       (DocxFile (report_document env product df lci_charts web_data m))).
  split; [|split; [|split; [|split; [|split]]]].
  - unfold generate_report.
    rewrite (bind_return _ _ _ _ _ Hgen), (bind_return _ _ _ _ _ Hcv).
    rewrite (bind_return _ _ _ _ _ Hweb), ai_sections_loop_steps.
    rewrite (bind_return _ _ _ _ _ Hloop), (bind_return _ _ _ _ _ Hcr).
    unfold bind, open_rb, saved, ret. cbn [files].
    now rewrite lookup_insert_eq.
  - apply lookup_insert_eq.
  - cbn [saved network]. rewrite Hn3. cbn [called network].
    now rewrite Hnet1, <- app_assoc.
  - intros k Hin. apply (narrative_paragraph_in_report _ _ _ _ _ _ k); auto.
  - apply report_document_pictures.
  - exists (table_rows df). split; [apply report_document_tables|]. now split.
Qed.

Lemma generate_report_completes_witness :
  exists doc w',
    generate_report demo_env (Some demo_client) (u "Electric Toothbrush") demo_world
    = (Return (u "LCA_Report_AI_Electric_Toothbrush.docx", DocxFile doc), w')
    /\ length (network w') = 9%nat
    /\ In (Paragraph
             (error_text (u "9. Limitations") (OpenAIError (u "Rate limit reached")))
             None) doc.
Proof.
  destruct (generate_report_completes demo_env (Some demo_client)
              (u "Electric Toothbrush") demo_world (u "<html></html>")
              (fun k => error_text k (OpenAIError (u "Rate limit reached"))))
    as (doc & w' & Hrun & _ & Hnet & Hpar & _).
  - intros chart Hin. reflexivity.
  - reflexivity.
  - reflexivity.
  - intros k Hin. reflexivity.
  - exists doc, w'. split; [exact Hrun|]. split.
    + rewrite Hnet. reflexivity.
    + apply Hpar. unfold section_labels. cbn [In]. tauto.
Defined.

(** X19. When the search request fails, one press of the button fails
    with the exception of the request.  By then the three chart files
    are written and the request is the only outbound call: no completion
    call is made and no report is written. *)
Theorem generate_report_search_failure (env : Env) (client : option OpenAI)
    (product : pystr) (w : World) (e : Exn) :
  (forall chart, In chart lci_charts -> can_write env chart = true) ->
  requests_get env (search_url product) search_headers = Raise e ->
  exists w',
    generate_report env client product w = (Raise e, w')
    /\ network w' = network w ++ [HttpGet (search_url product) search_headers]
    /\ charts_readable w' lci_charts
    /\ files w' !! report_filename product = files w !! report_filename product.
Proof.
  intros Hch Hget.
  destruct (inventory_and_charts env w Hch)
    as (df & w1 & Hgen & Hcv & Hread & Hnet1 & Hfiles1 & _ & _).
  exists (called w1 (HttpGet (search_url product) search_headers)).
  split; [|split; [|split]].
  - unfold generate_report.
    rewrite (bind_return _ _ _ _ _ Hgen), (bind_return _ _ _ _ _ Hcv).
    now rewrite (bind_raise _ _ _ _ _ (scrape_product_data_raises env product w1 e Hget)).
  - cbn [called network]. now rewrite Hnet1.
  - exact Hread.
  - cbn [called files]. apply Hfiles1, report_is_no_chart.
Qed.

Lemma generate_report_search_failure_witness :
  exists w',
    generate_report
      (demo_env_of (Raise (RequestException (u "Connection refused"))) []
         (Raise (OtherError [])) (fun _ => true))
      (Some demo_client) (u "Kettle") demo_world
    = (Raise (RequestException (u "Connection refused")), w')
    /\ length (network w') = 1%nat.
Proof.
  destruct (generate_report_search_failure
              (demo_env_of (Raise (RequestException (u "Connection refused"))) []
                 (Raise (OtherError [])) (fun _ => true))
              (Some demo_client) (u "Kettle") demo_world
              (RequestException (u "Connection refused")))
    as (w' & Hrun & Hnet & _).
  - intros chart Hin. reflexivity.
  - reflexivity.
  - exists w'. split; [exact Hrun|]. rewrite Hnet. reflexivity.
Defined.

(** X20. When one of the three chart files cannot be written, one press
    of the button fails with the write error of the first such file.
    The charts before it are written; no outbound call is made and no
    report is written. *)
Theorem generate_report_chart_failure (env : Env) (client : option OpenAI)
    (product : pystr) (w : World) (pre : list pystr) (c : pystr)
    (post : list pystr) :
  pre ++ c :: post = lci_columns ->
  (forall c', In c' pre -> can_write env (chart_file c') = true) ->
  can_write env (chart_file c) = false ->
  exists w',
    generate_report env client product w = (Raise (OSError (chart_file c)), w')
    /\ network w' = network w
    /\ charts_readable w' (List.map chart_file pre)
    /\ files w' !! report_filename product = files w !! report_filename product.
Proof.
  intros Hsplit Hpre Hc.
  destruct (generate_lci_data_run env w)
    as (e1 & e2 & e3 & e4 & g1 & g2 & g3 & g4 & x1 & x2 & x3 & x4 & Hgen & _).
  set (df := lci_table [e1; e2; e3; e4] [g1; g2; g3; g4] [x1; x2; x3; x4]) in *.
  set (stages := [ CStr (u "Materials"); CStr (u "Manufacturing");
                   CStr (u "Use Phase"); CStr (u "End-of-Life") ]).
  assert (Hcv : create_visuals env df (drawn 12 w)
                = (Raise (OSError (chart_file c)),
                   fold_left (draw_chart df stages) pre (drawn 12 w))).
  { rewrite create_visuals_loop.
    change (tail (df_columns df)) with lci_columns. rewrite <- Hsplit.
    apply chart_loop_write_failure; [reflexivity| |exact Hpre|exact Hc].
    intros c' Hin. rewrite Hsplit in Hin.
    change (df_columns df) with (u "Life Cycle Stage" :: lci_columns).
    now right. }
  exists (fold_left (draw_chart df stages) pre (drawn 12 w)).
  assert (Hnet : forall cols w0,
             network (fold_left (draw_chart df stages) cols w0) = network w0).
  { induction cols as [|a cols IH]; intros w0; [reflexivity|].
    cbn [fold_left]. now rewrite IH. }
  assert (Hsub : forall p, In p (List.map chart_file pre) -> In p lci_charts).
  { intros p Hin. unfold lci_charts. rewrite <- Hsplit, List.map_app.
    apply in_or_app. now left. }
  split; [|split; [|split]].
  - unfold generate_report.
    rewrite (bind_return _ _ _ _ _ Hgen).
    now rewrite (bind_raise _ _ _ _ _ Hcv).
  - now rewrite Hnet.
  - assert (Hnd : NoDup (List.map chart_file pre)).
    { assert (Hall : NoDup lci_charts).
      { apply (bool_decide_unpack _). vm_compute. exact I. }
      unfold lci_charts in Hall. rewrite <- Hsplit, List.map_app in Hall.
      now apply NoDup_app in Hall as (Hall & _). }
    unfold charts_readable. apply List.Forall_forall. intros p Hin.
    apply in_map_iff in Hin as (c' & <- & Hin).
    eexists. exact (draw_charts_lookup df stages pre (drawn 12 w) c' Hnd Hin).
  - rewrite draw_charts_elsewhere; [reflexivity|].
    intros Hin. exact (report_is_no_chart product (Hsub _ Hin)).
Qed.

Lemma generate_report_chart_failure_witness :
  exists w',
    generate_report
      (demo_env_of (Return []) [] (Raise (OtherError []))
         (fun p => negb (bool_decide (p = u "GHG_Emissions_(kg_CO2-eq).png"))))
      None (u "Kettle") demo_world
    = (Raise (OSError (u "GHG_Emissions_(kg_CO2-eq).png")), w')
    /\ network w' = [].
Proof.
  destruct (generate_report_chart_failure
              (demo_env_of (Return []) [] (Raise (OtherError []))
                 (fun p => negb (bool_decide (p = u "GHG_Emissions_(kg_CO2-eq).png"))))
              None (u "Kettle") demo_world
              [u "Energy Use (MJ)"] (u "GHG Emissions (kg CO2-eq)")
              [u "Water Use (L)"])
    as (w' & Hrun & Hnet & _).
  - reflexivity.
  - intros c' [<-|[]]. vm_compute. reflexivity.
  - vm_compute. reflexivity.
  - exists w'. split; [exact Hrun|exact Hnet].
Defined.

(** X21. When the narrative generator raises for one of the labels (the
    completion call raised something that is no API error, or answered
    without a choice), one press of the button fails with that
    exception.  The outbound calls are the search request and the
    completion calls for the labels up to that one; the later labels
    are not asked for and no report is written. *)
Theorem generate_report_narrative_failure (env : Env) (client : option OpenAI)
    (product : pystr) (w : World) (markup : pystr) (pre : list pystr)
    (k : pystr) (post : list pystr) (e : Exn) :
  (forall chart, In chart lci_charts -> can_write env chart = true) ->
  requests_get env (search_url product) search_headers = Return markup ->
  pre ++ k :: post = section_labels ->
  (forall k', In k' pre ->
              exists text, narrative_outcome env client k' product = Return text) ->
  narrative_outcome env client k product = Raise e ->
  exists w',
    generate_report env client product w = (Raise e, w')
    /\ network w'
       = network w ++ HttpGet (search_url product) search_headers
           :: chat_calls client product (pre ++ [k])
    /\ files w' !! report_filename product = files w !! report_filename product.
Proof.
  intros Hch Hget Hsplit Hpre Hk.
  destruct (inventory_and_charts env w Hch)
    as (df & w1 & Hgen & Hcv & _ & Hnet1 & Hfiles1 & _ & _).
  destruct (scrape_product_data_returns env product w1 markup Hget)
    as (web_data & Hweb).
  pose proof (narrate_loop_raises env client product pre k post e ∅
                (called w1 (HttpGet (search_url product) search_headers))
                Hpre Hk) as Hloop.
  rewrite Hsplit in Hloop.
  destruct (narrated_world client product (pre ++ [k])
              (called w1 (HttpGet (search_url product) search_headers)))
    as (Hf3 & _ & Hn3).
  eexists. split; [|split].
  - unfold generate_report.
    rewrite (bind_return _ _ _ _ _ Hgen), (bind_return _ _ _ _ _ Hcv).
    rewrite (bind_return _ _ _ _ _ Hweb), ai_sections_loop_steps.
    now rewrite (bind_raise _ _ _ _ _ Hloop).
  - rewrite Hn3. cbn [called network]. now rewrite Hnet1, <- app_assoc.
  - rewrite Hf3. cbn [called files]. apply Hfiles1, report_is_no_chart.
Qed.

Lemma generate_report_narrative_failure_witness :
  exists w',
    generate_report
      (demo_env_of (Return []) [] (Return {| choices := [] |}) (fun _ => true))
      (Some demo_client) (u "Kettle") demo_world
    = (Raise IndexError, w')
    /\ length (network w') = 2%nat.
Proof.
  destruct (generate_report_narrative_failure
              (demo_env_of (Return []) [] (Return {| choices := [] |})
                 (fun _ => true))
              (Some demo_client) (u "Kettle") demo_world [] []
              (u "Executive Summary") (List.tl section_labels) IndexError)
    as (w' & Hrun & Hnet & _).
  - intros chart Hin. reflexivity.
  - reflexivity.
  - reflexivity.
  - intros k' [].
  - reflexivity.
  - exists w'. split; [exact Hrun|]. rewrite Hnet. reflexivity.
Defined.

Lemma create_report_world (env : Env) (product : pystr) (df : DataFrame)
    (charts : list pystr) (web_data : pystr) (ai_sections : gmap pystr pystr)
    (w : World) (r : Result pystr) (w' : World) :
  create_report env product df charts web_data ai_sections w = (r, w') ->
  (exists e, r = Raise e /\ w' = w)
  \/ (r = Return (report_filename product)
      /\ w' = saved w (report_filename product)
                (DocxFile (report_document env product df charts web_data
                             ai_sections))).
Proof.
  rewrite create_report_run.
  destruct (first_missing ai_sections _); [intros [= <- <-]; eauto|].
  destruct (first_unreadable w charts); [intros [= <- <-]; eauto|].
  destruct (first_missing ai_sections _); [intros [= <- <-]; eauto|].
  destruct (can_write env (report_filename product));
    intros [= <- <-]; eauto.
Qed.

Lemma chat_calls_none (client : option OpenAI) (product : pystr) :
  chat_calls client product [] = [].
Proof. destruct client; reflexivity. Qed.

(** X22. Whatever the outside world answers and however it ends, one
    press of the button draws exactly twelve random numbers, touches no
    file but the three chart files and the report file, and makes no
    outbound call but the search request followed by completion calls
    for an initial stretch of the eight labels, in their order.  When it
    returns, it returns the report file name and the document that is
    now stored under that name. *)
Theorem generate_report_effects (env : Env) (client : option OpenAI)
    (product : pystr) (w : World) (r : Result (pystr * File)) (w' : World) :
  generate_report env client product w = (r, w') ->
  rng w' = rng (drawn 12 w)
  /\ (forall p, ~ In p lci_charts -> p <> report_filename product ->
                files w' !! p = files w !! p)
  /\ (network w' = network w
      \/ exists n,
           network w'
           = network w ++ HttpGet (search_url product) search_headers
               :: chat_calls client product (take n section_labels))
  /\ (forall path f, r = Return (path, f) ->
        path = report_filename product
        /\ files w' !! path = Some f
        /\ exists doc, f = DocxFile doc).
Proof.
  unfold generate_report.
  destruct (generate_lci_data_run env w)
    as (e1 & e2 & e3 & e4 & g1 & g2 & g3 & g4 & x1 & x2 & x3 & x4 & Hgen & _).
  set (df := lci_table [e1; e2; e3; e4] [g1; g2; g3; g4] [x1; x2; x3; x4]) in *.
  rewrite (bind_return _ _ _ _ _ Hgen).
  destruct (create_visuals env df (drawn 12 w)) as [r1 w1] eqn:Hcv.
  pose proof Hcv as Heff. rewrite create_visuals_loop in Heff.
  apply chart_loop_effects in Heff as (Hn1 & Hr1 & Hf1 & _ & Hret1).
  change (List.map chart_file (tail (df_columns df))) with lci_charts in Hf1.
  change (network (drawn 12 w)) with (network w) in Hn1.
  change (files (drawn 12 w)) with (files w) in Hf1.
  destruct r1 as [charts|e];
    [|rewrite (bind_raise _ _ _ _ _ Hcv); intros [= <- <-];
      split; [exact Hr1|]; split; [intros p Hp _; now apply Hf1|];
      split; [now left|discriminate]].
  rewrite (bind_return _ _ _ _ _ Hcv).
  set (w2 := called w1 (HttpGet (search_url product) search_headers)).
  destruct (requests_get env (search_url product) search_headers)
    as [markup|e] eqn:Hget.
  2: { rewrite (bind_raise _ _ _ _ _
                  (scrape_product_data_raises env product w1 e Hget)).
       intros [= <- <-].
       split; [exact Hr1|]. split; [intros p Hp _; now apply Hf1|].
       split; [|discriminate].
       right. exists 0%nat. cbn [take called network].
       now rewrite chat_calls_none, Hn1. }
  destruct (scrape_product_data_returns env product w1 markup Hget)
    as (web_data & Hweb).
  rewrite (bind_return _ _ _ _ _ Hweb), ai_sections_loop_steps. fold w2.
  destruct (for_each section_labels (narrate_step env client product) ∅ w2)
    as [r3 w3] eqn:Hloop.
  destruct (narrate_loop_effects _ _ _ _ _ _ _ _ Hloop) as [n Hw3].
  destruct (narrated_world client product (take n section_labels) w2)
    as (Hf3 & Hr3 & Hn3).
  rewrite <- Hw3 in Hf3, Hr3, Hn3.
  assert (Hnet3 : network w3
                  = network w ++ HttpGet (search_url product) search_headers
                      :: chat_calls client product (take n section_labels)).
  { rewrite Hn3. unfold w2. cbn [called network]. now rewrite Hn1, <- app_assoc. }
  destruct r3 as [m|e];
    [|rewrite (bind_raise _ _ _ _ _ Hloop); intros [= <- <-];
      split; [now rewrite Hr3|];
      split; [intros p Hp _; rewrite Hf3; now apply Hf1|];
      split; [right; now exists n|discriminate]].
  rewrite (bind_return _ _ _ _ _ Hloop).
  destruct (create_report env product df charts web_data m w3) as [r4 w4] eqn:Hcr.
  destruct (create_report_world _ _ _ _ _ _ _ _ _ Hcr)
    as [(e & -> & ->)|(-> & ->)].
  - rewrite (bind_raise _ _ _ _ _ Hcr). intros [= <- <-].
    split; [now rewrite Hr3|].
    split; [intros p Hp _; rewrite Hf3; now apply Hf1|].
    split; [right; now exists n|discriminate].
  - rewrite (bind_return _ _ _ _ _ Hcr).
    unfold bind, open_rb, saved, ret. cbn [files].
    rewrite lookup_insert_eq. intros [= <- <-]. cbn [rng files network].
    split; [now rewrite Hr3|].
    split; [|split; [right; now exists n|]].
    + intros p Hp Hne. rewrite lookup_insert_ne by (intros Heq; now apply Hne).
      rewrite Hf3. now apply Hf1.
    + intros path f [= <- <-]. split; [reflexivity|].
      split; [apply lookup_insert_eq|eauto].
Qed.

Lemma generate_report_effects_witness :
  let run := generate_report demo_env (Some demo_client) (u "Kettle") demo_world in
  rng_pos (rng (snd run)) = 12%nat
  /\ files (snd run) !! u "notes.txt" = None.
Proof.
  intros run.
  destruct (generate_report_effects demo_env (Some demo_client) (u "Kettle")
              demo_world (fst run) (snd run)) as (Hrng & Hfiles & _).
  - subst run. apply surjective_pairing.
  - split.
    + rewrite Hrng. reflexivity.
    + rewrite Hfiles; [reflexivity| |].
      * intros Hin. apply list_elem_of_In in Hin. revert Hin.
        apply (bool_decide_unpack _). vm_compute. exact I.
      * vm_compute. discriminate.
Defined.
